(** * IoT Edge Gateway (Gateway_Rasp.py): a shallow embedding

    The gateway keeps an in-memory registry of devices ([self.devices]),
    a SQLite database with three tables, an MQTT client and a cloud
    client.  The handlers of [EdgeGateway] are embedded as computations in
    a state-and-exception monad over the gateway state; Python values that
    arrive in JSON payloads are embedded as [pyval]; [datetime] values are
    embedded with the fields and the text ([isoformat]) that the database
    compares. *)

From Stdlib Require Import ZArith List String Ascii Bool Lia SpecFloat
  DecimalString.
Import ListNotations.
Open Scope string_scope.
Open Scope Z_scope.

(** ** datetime *)

Module Datetime.

(** [datetime._is_leap], [_days_in_month], [_days_before_year],
    [_days_before_month], [_ymd2ord]: the proleptic Gregorian calendar of
    Python's [datetime] module. *)
Definition is_leap (y : Z) : bool :=
  (y mod 4 =? 0) && (negb (y mod 100 =? 0) || (y mod 400 =? 0)).

Definition days_in_month (y m : Z) : Z :=
  if m =? 2 then (if is_leap y then 29 else 28)
  else if (m =? 4) || (m =? 6) || (m =? 9) || (m =? 11) then 30
  else 31.

Definition days_before_year (y : Z) : Z :=
  let y1 := y - 1 in y1 * 365 + y1 / 4 - y1 / 100 + y1 / 400.

Definition DAYS_BEFORE_MONTH (m : Z) : Z :=
  match m with
  | 1 => 0 | 2 => 31 | 3 => 59 | 4 => 90 | 5 => 120 | 6 => 151
  | 7 => 181 | 8 => 212 | 9 => 243 | 10 => 273 | 11 => 304 | 12 => 334
  | _ => 0
  end.

Definition days_before_month (y m : Z) : Z :=
  DAYS_BEFORE_MONTH m + (if (2 <? m) && is_leap y then 1 else 0).

Definition ymd2ord (y m d : Z) : Z :=
  days_before_year y + days_before_month y m + d.

(** The ranges the [datetime] constructor enforces (it raises [ValueError]
    outside them), so every [datetime] object satisfies them. *)
Definition fields_ok (y mo d h mi s us : Z) : bool :=
  (1 <=? y) && (y <=? 9999) && (1 <=? mo) && (mo <=? 12) &&
  (1 <=? d) && (d <=? days_in_month y mo) &&
  (0 <=? h) && (h <=? 23) && (0 <=? mi) && (mi <=? 59) &&
  (0 <=? s) && (s <=? 59) && (0 <=? us) && (us <=? 999999).

(** A naive [datetime] object. *)
Record datetime : Type := mk_datetime {
  year : Z; month : Z; day : Z;
  hour : Z; minute : Z; second : Z; microsecond : Z;
  datetime_ok : fields_ok year month day hour minute second microsecond = true
}.

(** The constructor [datetime(y, mo, d, h, mi, s, us)]; [None] stands for
    the [ValueError] it raises on fields out of range. *)
Definition make (y mo d h mi s us : Z) : option datetime :=
  match fields_ok y mo d h mi s us as b
        return fields_ok y mo d h mi s us = b -> option datetime with
  | true => fun H => Some (mk_datetime y mo d h mi s us H)
  | false => fun _ => None
  end eq_refl.

(** Comparison of naive datetimes ([datetime._cmp]): field by field. *)
Definition lex (c : comparison) (k : comparison) : comparison :=
  match c with Eq => k | _ => c end.

Definition compare (a b : datetime) : comparison :=
  lex (year a ?= year b) (lex (month a ?= month b) (lex (day a ?= day b)
  (lex (hour a ?= hour b) (lex (minute a ?= minute b)
  (lex (second a ?= second b) (microsecond a ?= microsecond b)))))).

Definition ltb (a b : datetime) : bool :=
  match compare a b with Lt => true | _ => false end.

(** [timedelta] values are counted in microseconds. *)
Definition US_PER_SECOND : Z := 1000000.
Definition US_PER_DAY : Z := 86400 * US_PER_SECOND.

Definition timedelta_minutes (n : Z) : Z := n * 60 * US_PER_SECOND.

(** Microseconds since the start of day 0 of the calendar. *)
Definition to_us (a : datetime) : Z :=
  ymd2ord (year a) (month a) (day a) * US_PER_DAY
  + ((hour a * 60 + minute a) * 60 + second a) * US_PER_SECOND
  + microsecond a.

(** [a - b] for two datetimes: a timedelta. *)
Definition sub (a b : datetime) : Z := to_us a - to_us b.

(** [datetime._ord2ymd]. *)
Definition ord2ymd (ordinal : Z) : Z * Z * Z :=
  let n := ordinal - 1 in
  let n400 := n / 146097 in let n := n mod 146097 in
  let n100 := n / 36524 in let n := n mod 36524 in
  let n4 := n / 1461 in let n := n mod 1461 in
  let n1 := n / 365 in let n := n mod 365 in
  let y := n400 * 400 + 1 + n100 * 100 + n4 * 4 + n1 in
  if (n1 =? 4) || (n100 =? 4) then (y - 1, 12, 31)
  else
    let leapyear := (n1 =? 3) && (negb (n4 =? 24) || (n100 =? 3)) in
    let mo := Z.shiftr (n + 50) 5 in
    let preceding :=
      DAYS_BEFORE_MONTH mo + (if (2 <? mo) && leapyear then 1 else 0) in
    if n <? preceding then
      let mo' := mo - 1 in
      let preceding' :=
        preceding - (days_in_month 1 mo'
                     + (if (mo' =? 2) && leapyear then 1 else 0)) in
      (y, mo', n - preceding' + 1)
    else (y, mo, n - preceding + 1).

Definition MAXORDINAL : Z := 3652059.

(** [a - timedelta(days=n)]; [None] stands for the [OverflowError] raised
    when the timedelta or the result is out of range. *)
Definition sub_days (a : datetime) (n : Z) : option datetime :=
  if (Z.abs n <=? 999999999) then
    let ord := ymd2ord (year a) (month a) (day a) - n in
    if (1 <=? ord) && (ord <=? MAXORDINAL) then
      let '(y, mo, d) := ord2ymd ord in
      make y mo d (hour a) (minute a) (second a) (microsecond a)
    else None
  else None.

(** *** isoformat *)

Definition digit (d : Z) : ascii := ascii_of_N (48 + Z.to_N d).

(** ["%0wd" % n] for [0 <= n < 10^w]: exactly [w] decimal digits. *)
Fixpoint zpad (w : nat) (n : Z) : string :=
  match w with
  | O => EmptyString
  | S w' => String (digit (n / 10 ^ Z.of_nat w'))
                   (zpad w' (n mod 10 ^ Z.of_nat w'))
  end.

(** [datetime.isoformat()]: [YYYY-MM-DDTHH:MM:SS], followed by [.ffffff]
    when the microsecond field is not zero. *)
Definition isoformat (a : datetime) : string :=
  zpad 4 (year a) ++ "-" ++ zpad 2 (month a) ++ "-" ++ zpad 2 (day a)
  ++ "T" ++ zpad 2 (hour a) ++ ":" ++ zpad 2 (minute a) ++ ":"
  ++ zpad 2 (second a)
  ++ (if microsecond a =? 0 then "" else "." ++ zpad 6 (microsecond a)).

End Datetime.

Import Datetime.


(** ** Python values

    The values [json.loads] produces.  Floats are binary floating-point
    numbers ([spec_float]); a [dict] is its list of items; a [str] is
    given by its UTF-8 encoding, one character of the [string] for each
    byte (a [str] with a lone surrogate, which [json.loads] accepts as an
    escape, has no encoding and is not a [pyval]). *)

#[local] Set Warnings "-register-all".

Inductive pyval : Type :=
| PNone
| PBool (b : bool)
| PInt (z : Z)
| PFloat (f : spec_float)
| PStr (s : string)
| PList (l : list pyval)
| PDict (d : list (string * pyval)).

(** Truth value testing ([bool(v)], [if v:], [not v]). *)
Definition truthy (v : pyval) : bool :=
  match v with
  | PNone => false
  | PBool b => b
  | PInt z => negb (z =? 0)
  | PFloat (S754_zero _) => false
  | PFloat _ => true
  | PStr s => negb (String.eqb s "")
  | PList l => match l with [] => false | _ :: _ => true end
  | PDict d => match d with [] => false | _ :: _ => true end
  end.

(** [hash(v)] succeeds; lists and dicts raise [TypeError] as dict keys. *)
Definition hashable (v : pyval) : bool :=
  match v with PList _ | PDict _ => false | _ => true end.

(** [v != s] for a string literal [s]. *)
Definition py_ne_str (v : pyval) (s : string) : bool :=
  match v with PStr s' => negb (String.eqb s' s) | _ => true end.

(** Insertion-ordered dictionaries with string keys. *)
Section Dict.
Context {V : Type}.

Fixpoint dict_get (d : list (string * V)) (k : string) : option V :=
  match d with
  | [] => None
  | (k', v) :: rest => if String.eqb k' k then Some v else dict_get rest k
  end.

(** [d.get(k, default)]. *)
Definition dict_get_or (d : list (string * V)) (k : string) (default : V)
  : V :=
  match dict_get d k with Some v => v | None => default end.

Definition dict_mem (d : list (string * V)) (k : string) : bool :=
  match dict_get d k with Some _ => true | None => false end.

(** [d[k] = v]: the item keeps its place when the key exists, and is
    added at the end otherwise. *)
Fixpoint dict_set (d : list (string * V)) (k : string) (v : V)
  : list (string * V) :=
  match d with
  | [] => [(k, v)]
  | (k', v') :: rest =>
      if String.eqb k' k then (k', v) :: rest
      else (k', v') :: dict_set rest k v
  end.

(** In-place mutation of the object stored under [k]. *)
Fixpoint dict_update (d : list (string * V)) (k : string) (f : V -> V)
  : list (string * V) :=
  match d with
  | [] => []
  | (k', v') :: rest =>
      if String.eqb k' k then (k', f v') :: rest
      else (k', v') :: dict_update rest k f
  end.

Definition dict_count (d : list (string * V)) (k : string) : nat :=
  List.length (List.filter (fun kv => String.eqb (fst kv) k) d).

Definition dict_keys (d : list (string * V)) : list string :=
  List.map fst d.
End Dict.

(** ** Data model *)

(** [@dataclass DeviceInfo].  The registry is [Dict[str, DeviceInfo]]: the
    key is a string; the other fields hold whatever the payload carried. *)
Record DeviceInfo : Type := mk_DeviceInfo {
  device_id : string;
  device_type : pyval;
  mac_address : pyval;
  ip_address : pyval;
  firmware_version : pyval;
  capabilities : pyval;
  last_seen : option datetime;
  status : pyval;
  registration_time : option datetime
}.

Definition set_status (s : pyval) (d : DeviceInfo) : DeviceInfo :=
  mk_DeviceInfo (device_id d) (device_type d) (mac_address d) (ip_address d)
    (firmware_version d) (capabilities d) (last_seen d) s
    (registration_time d).

Definition set_last_seen (t : option datetime) (d : DeviceInfo)
  : DeviceInfo :=
  mk_DeviceInfo (device_id d) (device_type d) (mac_address d) (ip_address d)
    (firmware_version d) (capabilities d) t (status d)
    (registration_time d).

(** [@dataclass TelemetryData]. *)
Record TelemetryData : Type := mk_TelemetryData {
  t_device_id : pyval;
  t_timestamp : datetime;
  t_temperature : pyval;
  t_humidity : pyval;
  t_wifi_rssi : pyval;
  t_free_heap : pyval;
  t_uptime : pyval;
  t_custom_data : pyval
}.

(** *** The SQLite database

    [sqlite3] binds None as NULL, an int as INTEGER (a bool is an int), a
    float as REAL (NaN as NULL) and a str as TEXT, and reads them back as
    None, int, float and str: the content of a column is written here as
    the Python value a SELECT returns for it.  What a column holds is the
    bound value after the conversion of the column's affinity.

    A TIMESTAMP column holds the [isoformat] text of a datetime (or NULL),
    which is no number and stays text under the NUMERIC affinity of the
    column; the rows keep the datetime, and its [isoformat] is taken
    wherever SQL looks at the text. *)

(** Two conversions are the library's own and differ between its
    builds; a database comes with them.  [text_of_real]: the text of a
    REAL ([printf("%!.15g")]: [1.5] gives ['1.5'], [1e100] gives
    ['1.0e+100']).  [numeric_of_text]: what NUMERIC affinity makes of a
    text: the INTEGER or the REAL it spells (['12'] gives [12], ['12.5']
    gives [12.5], ['1e3'] gives [1000]), the text itself when it spells no
    number. *)
Record Sqlite : Type := mk_Sqlite {
  text_of_real : spec_float -> string;
  numeric_of_text : string -> pyval
}.

(** A row of [devices] (device_id TEXT PRIMARY KEY). *)
Record DeviceRow : Type := mk_DeviceRow {
  r_device_id : string;
  r_device_type : pyval;
  r_mac_address : pyval;
  r_ip_address : pyval;
  r_firmware_version : pyval;
  r_capabilities : pyval;
  r_status : pyval;
  r_last_seen : option datetime;
  r_registration_time : option datetime
}.

(** A row of [telemetry] (id INTEGER PRIMARY KEY AUTOINCREMENT).  The
    [custom_data] column holds the [json.dumps] text of the value kept
    here, or NULL. *)
Record TelemetryRow : Type := mk_TelemetryRow {
  tr_id : Z;
  tr_device_id : pyval;
  tr_timestamp : datetime;
  tr_temperature : pyval;
  tr_humidity : pyval;
  tr_wifi_rssi : pyval;
  tr_free_heap : pyval;
  tr_uptime : pyval;
  tr_custom_data : option pyval
}.

(** A row of [commands] (status TEXT DEFAULT 'pending'). *)
Record CommandRow : Type := mk_CommandRow {
  c_id : Z;
  c_device_id : string;
  c_command : string;
  c_parameters : pyval;
  c_status : string;
  c_created_at : option datetime;
  c_executed_at : option datetime
}.

(** [sqlite3.connect(DATABASE_FILE)]: the library and the tables of the
    file. *)
Record Database : Type := mk_Database {
  engine : Sqlite;
  tbl_devices : list DeviceRow;
  tbl_telemetry : list TelemetryRow;
  telemetry_seq : Z;
  tbl_commands : list CommandRow
}.

(** *** Configuration, messages, log *)

(** [config.getint] on one option: absent, an integer, or text that is
    not an integer. *)
Inductive cfg_int : Type := CfgAbsent | CfgInt (n : Z) | CfgBad.

Record Config : Type := mk_Config {
  cfg_gateway_id : option string;
  cfg_retention_days : cfg_int
}.

(** The body of the message published on [devices/{id}/commands]. *)
Record WelcomeMsg : Type := mk_WelcomeMsg {
  w_command : string;
  w_gateway_id : string;
  w_timestamp : string
}.

(** The body handed to the cloud API. *)
Record CloudPayload : Type := mk_CloudPayload {
  cp_gateway_id : string;
  cp_message_type : string;
  cp_timestamp : string;
  cp_data : pyval
}.

Inductive exn : Type :=
| KeyError (k : string)
| TypeError
| AttributeError
| ValueError
| OverflowError
| SqliteError
| JSONDecodeError
| RuntimeError.

Inductive level : Type := DEBUG | INFO | WARNING | ERROR.

(** The pieces of an f-string. *)
Inductive part : Type :=
| Lit (s : string)
| Val (v : pyval)
| Num (n : Z)
| Exc (e : exn).

Definition LogRecord : Type := (level * list part)%type.

(** [logging.basicConfig(level=logging.INFO)]: DEBUG records are dropped. *)
Definition level_enabled (l : level) : bool :=
  match l with DEBUG => false | _ => true end.

(** *** The gateway

    Besides the attributes of [EdgeGateway], the state holds the database,
    the log, the number of readings of the clock, and two outboxes:
    [published], the messages [mqtt_client.publish] accepted, and
    [cloud_tasks], the tasks [asyncio.create_task] scheduled. *)

Inductive MqttClient : Type := MqttClientObject.
Inductive CloudClient : Type := CloudClientObject.

Record Gateway : Type := mk_Gateway {
  config : Config;
  devices : list (string * DeviceInfo);
  mqtt_client : option MqttClient;
  cloud_client : option CloudClient;
  running : bool;
  db : Database;
  published : list (string * WelcomeMsg);
  cloud_tasks : list CloudPayload;
  log : list LogRecord;
  clock_ticks : nat
}.

Definition with_devices (f : list (string * DeviceInfo)
                             -> list (string * DeviceInfo))
  (g : Gateway) : Gateway :=
  mk_Gateway (config g) (f (devices g)) (mqtt_client g) (cloud_client g)
    (running g) (db g) (published g) (cloud_tasks g) (log g) (clock_ticks g).

Definition with_db (f : Database -> Database) (g : Gateway) : Gateway :=
  mk_Gateway (config g) (devices g) (mqtt_client g) (cloud_client g)
    (running g) (f (db g)) (published g) (cloud_tasks g) (log g)
    (clock_ticks g).

Definition with_published (f : list (string * WelcomeMsg)
                               -> list (string * WelcomeMsg))
  (g : Gateway) : Gateway :=
  mk_Gateway (config g) (devices g) (mqtt_client g) (cloud_client g)
    (running g) (db g) (f (published g)) (cloud_tasks g) (log g)
    (clock_ticks g).

Definition with_cloud_tasks (f : list CloudPayload -> list CloudPayload)
  (g : Gateway) : Gateway :=
  mk_Gateway (config g) (devices g) (mqtt_client g) (cloud_client g)
    (running g) (db g) (published g) (f (cloud_tasks g)) (log g)
    (clock_ticks g).

Definition with_log (f : list LogRecord -> list LogRecord) (g : Gateway)
  : Gateway :=
  mk_Gateway (config g) (devices g) (mqtt_client g) (cloud_client g)
    (running g) (db g) (published g) (cloud_tasks g) (f (log g))
    (clock_ticks g).

Definition with_clock_ticks (f : nat -> nat) (g : Gateway) : Gateway :=
  mk_Gateway (config g) (devices g) (mqtt_client g) (cloud_client g)
    (running g) (db g) (published g) (cloud_tasks g) (log g)
    (f (clock_ticks g)).

(** ** The monad of the handlers

    A computation runs on the gateway state and returns a value, raises a
    Python exception, or leaves the typed model ([Untyped]: a device id
    that is not a string would become a key of the registry).  The state
    reached when an exception is raised is kept, as in Python. *)

Inductive result (A : Type) : Type :=
| Ok (a : A)
| Raise (e : exn)
| Untyped.
Arguments Ok {A} a.
Arguments Raise {A} e.
Arguments Untyped {A}.

Definition M (A : Type) : Type := Gateway -> result A * Gateway.

Definition ret {A : Type} (a : A) : M A := fun g => (Ok a, g).

Definition bind {A B : Type} (m : M A) (k : A -> M B) : M B :=
  fun g =>
    match m g with
    | (Ok a, g') => k a g'
    | (Raise e, g') => (Raise e, g')
    | (Untyped, g') => (Untyped, g')
    end.

Definition raise {A : Type} (e : exn) : M A := fun g => (Raise e, g).

Definition untyped {A : Type} : M A := fun g => (Untyped, g).

(** [try: body except Exception as e: handler]. *)
Definition try_except {A : Type} (body : M A) (handler : exn -> M A) : M A :=
  fun g =>
    match body g with
    | (Raise e, g') => handler e g'
    | r => r
    end.

Definition gets {A : Type} (f : Gateway -> A) : M A := fun g => (Ok (f g), g).

Definition modify (f : Gateway -> Gateway) : M unit := fun g => (Ok tt, f g).

Definition exec {A : Type} (m : M A) (g : Gateway) : Gateway := snd (m g).

Notation "x <- c1 ;; c2" := (bind c1 (fun x => c2))
  (at level 61, c1 at next level, right associativity).
Notation "c1 ;; c2" := (bind c1 (fun _ => c2))
  (at level 61, right associativity).

(** *** Primitive operations *)

Definition logger (l : level) (msg : list part) : M unit :=
  if level_enabled l then modify (with_log (fun r => (r ++ [(l, msg)])%list))
  else ret tt.

(** [payload.get(key, default)]: [AttributeError] on a value that is not
    a dict. *)
Definition py_get (payload : pyval) (key : string) (default : pyval)
  : M pyval :=
  match payload with
  | PDict d => ret (dict_get_or d key default)
  | _ => raise AttributeError
  end.

(** [payload[key]]: [KeyError] on a dict without the key, [TypeError] on
    the other JSON values (none of them takes a string index). *)
Definition py_getitem (payload : pyval) (key : string) : M pyval :=
  match payload with
  | PDict d =>
      match dict_get d key with Some v => ret v | None => raise (KeyError key) end
  | _ => raise TypeError
  end.

(** [device_id in self.devices] on the registry, whose keys are strings:
    the key when it is present. *)
Definition devices_find (device_id : pyval) : M (option string) :=
  match device_id with
  | PStr d => g <- gets devices ;;
              ret (if dict_mem g d then Some d else None)
  | PList _ | PDict _ => raise TypeError
  | _ => ret None
  end.

(** [config.get('gateway', 'id', fallback='gateway_001')]. *)
Definition config_gateway_id : M string :=
  c <- gets config ;;
  ret (match cfg_gateway_id c with Some s => s | None => "gateway_001" end).

(** [config.getint('database', 'retention_days', fallback=30)]. *)
Definition config_retention_days : M Z :=
  c <- gets config ;;
  match cfg_retention_days c with
  | CfgAbsent => ret 30
  | CfgInt n => ret n
  | CfgBad => raise ValueError
  end.

(** What [sqlite3] accepts as a statement parameter: None, int (within
    64 bits; bool is an int), float and str.  A list or a dict is refused
    ([sqlite3.ProgrammingError], [InterfaceError] before Python 3.11), an
    int beyond 64 bits overflows. *)
Definition sql_bind (v : pyval) : M unit :=
  match v with
  | PList _ | PDict _ => raise SqliteError
  | PInt z =>
      if (- 2 ^ 63 <=? z) && (z <? 2 ^ 63) then ret tt else raise OverflowError
  | _ => ret tt
  end.

Fixpoint sql_bind_all (vs : list pyval) : M unit :=
  match vs with
  | [] => ret tt
  | v :: rest => sql_bind v ;; sql_bind_all rest
  end.

(** The value bound for a parameter: a bool is an int, NaN is NULL. *)
Definition sql_value (v : pyval) : pyval :=
  match v with
  | PBool b => PInt (if b then 1 else 0)
  | PFloat S754_nan => PNone
  | _ => v
  end.

(** The text of an INTEGER. *)
Definition text_of_int (z : Z) : string :=
  NilZero.string_of_int (Z.to_int z).

(** [(double)z]: the nearest REAL, ties to even. *)
Definition real_of_int (z : Z) : spec_float :=
  binary_normalize 53 1024 z 0 false.

(** The integer a REAL equals, when it equals one. *)
Definition int_of_real (f : spec_float) : option Z :=
  match f with
  | S754_zero _ => Some 0
  | S754_finite s m e =>
      let z := if s then Z.neg m else Z.pos m in
      if 0 <=? e then Some (z * 2 ^ e)
      else if Z.pos m mod 2 ^ (- e) =? 0 then Some (z / 2 ^ (- e))
      else None
  | _ => None
  end.

(** A REAL that equals an integer strictly between the least and the
    greatest 64-bit integer becomes that INTEGER. *)
Definition integer_of_real (f : spec_float) : pyval :=
  match int_of_real f with
  | Some z =>
      if (- 2 ^ 63 <? z) && (z <? 2 ^ 63 - 1) then PInt z else PFloat f
  | None => PFloat f
  end.

(** TEXT affinity: an INTEGER or a REAL is stored as its text. *)
Definition text_affinity (e : Sqlite) (v : pyval) : pyval :=
  match sql_value v with
  | PInt z => PStr (text_of_int z)
  | PFloat f => PStr (text_of_real e f)
  | v' => v'
  end.

(** INTEGER affinity: a text that spells a number is stored as the
    number, a REAL that equals an integer as the INTEGER. *)
Definition integer_affinity (e : Sqlite) (v : pyval) : pyval :=
  match sql_value v with
  | PFloat f => integer_of_real f
  | PStr s => numeric_of_text e s
  | v' => v'
  end.

(** REAL affinity: as INTEGER affinity, and an INTEGER is then stored as
    a REAL ([21] as [21.0], [-0.0] as [0.0]). *)
Definition real_affinity (e : Sqlite) (v : pyval) : pyval :=
  match integer_affinity e v with
  | PInt z => PFloat (real_of_int z)
  | v' => v'
  end.

(** The parameters of the INSERT of [save_device]. *)
Definition row_of_device (d : DeviceInfo) : DeviceRow :=
  mk_DeviceRow (device_id d) (device_type d) (mac_address d) (ip_address d)
    (firmware_version d) (capabilities d) (status d) (last_seen d)
    (registration_time d).

(** The row [devices] holds for them: its columns are TEXT. *)
Definition devices_affinity (e : Sqlite) (r : DeviceRow) : DeviceRow :=
  mk_DeviceRow (r_device_id r) (text_affinity e (r_device_type r))
    (text_affinity e (r_mac_address r)) (text_affinity e (r_ip_address r))
    (text_affinity e (r_firmware_version r))
    (text_affinity e (r_capabilities r)) (text_affinity e (r_status r))
    (r_last_seen r) (r_registration_time r).

(** INSERT OR REPLACE INTO devices: a row with the same primary key is
    deleted, the new row is added. *)
Definition sql_insert_or_replace_device (r : DeviceRow) (b : Database)
  : Database :=
  mk_Database (engine b)
    (List.filter (fun r' => negb (String.eqb (r_device_id r') (r_device_id r)))
       (tbl_devices b) ++ [devices_affinity (engine b) r])%list
    (tbl_telemetry b) (telemetry_seq b) (tbl_commands b).

(** UPDATE devices SET status = ?, last_seen = ? WHERE device_id = ?. *)
Definition sql_update_device_status (st : pyval) (t : datetime) (d : string)
  (b : Database) : Database :=
  mk_Database (engine b)
    (List.map (fun r =>
       if String.eqb (r_device_id r) d then
         mk_DeviceRow (r_device_id r) (r_device_type r) (r_mac_address r)
           (r_ip_address r) (r_firmware_version r) (r_capabilities r)
           (text_affinity (engine b) st) (Some t) (r_registration_time r)
       else r) (tbl_devices b))
    (tbl_telemetry b) (telemetry_seq b) (tbl_commands b).

(** The row [telemetry] holds for the parameters of the INSERT of
    [save_telemetry]: device_id is TEXT, temperature and humidity are
    REAL, wifi_rssi, free_heap and uptime are INTEGER; custom_data holds
    the [json.dumps] text of a truthy value. *)
Definition telemetry_affinity (e : Sqlite) (id : Z) (t : TelemetryData)
  : TelemetryRow :=
  mk_TelemetryRow id (text_affinity e (t_device_id t)) (t_timestamp t)
    (real_affinity e (t_temperature t)) (real_affinity e (t_humidity t))
    (integer_affinity e (t_wifi_rssi t)) (integer_affinity e (t_free_heap t))
    (integer_affinity e (t_uptime t))
    (if truthy (t_custom_data t) then Some (t_custom_data t) else None).

(** INSERT INTO telemetry: the row takes the next id of the sequence. *)
Definition sql_insert_telemetry (t : TelemetryData) (b : Database)
  : Database :=
  let id := telemetry_seq b + 1 in
  mk_Database (engine b) (tbl_devices b)
    (tbl_telemetry b ++ [telemetry_affinity (engine b) id t])%list
    id (tbl_commands b).

(** The rows DELETE FROM telemetry WHERE timestamp < ? removes: SQLite
    compares the stored text with the parameter text. *)
Definition sql_old (cutoff_text : string) (r : TelemetryRow) : bool :=
  String.ltb (isoformat (tr_timestamp r)) cutoff_text.

Definition sql_delete_telemetry (cutoff_text : string) (b : Database)
  : Database :=
  mk_Database (engine b) (tbl_devices b)
    (List.filter (fun r => negb (sql_old cutoff_text r)) (tbl_telemetry b))
    (telemetry_seq b) (tbl_commands b).

(** [cursor.rowcount] of that DELETE. *)
Definition sql_delete_rowcount (cutoff_text : string) (b : Database) : Z :=
  Z.of_nat (List.length (List.filter (sql_old cutoff_text) (tbl_telemetry b))).

(** [b'+' in topic]. *)
Fixpoint contains (c : ascii) (s : string) : bool :=
  match s with
  | EmptyString => false
  | String c' rest => Ascii.eqb c' c || contains c rest
  end.

(** The topics [Client.publish] of paho-mqtt accepts: not empty, no
    wildcard ([+], [#]), at most 65535 bytes. *)
Definition topic_ok (topic : string) : bool :=
  negb (String.eqb topic "") && negb (contains "+" topic)
  && negb (contains "#" topic)
  && (Z.of_nat (String.length topic) <=? 65535).

(** [self.mqtt_client.publish(topic, json.dumps(msg))]: [AttributeError]
    while [self.mqtt_client] is None; [ValueError] on a topic paho
    refuses, and nothing is sent.  (The payload, a hundred bytes and the
    gateway id, is taken to be within paho's limit of 268435455 bytes.) *)
Definition mqtt_publish (topic : string) (msg : WelcomeMsg) : M unit :=
  c <- gets mqtt_client ;;
  match c with
  | None => raise AttributeError
  | Some _ =>
      if topic_ok topic then
        modify (with_published (fun l => (l ++ [(topic, msg)])%list))
      else raise ValueError
  end.

(** [asyncio.create_task(coro)]: the task is scheduled on the event loop
    that runs in the calling thread; in a thread that runs none,
    [RuntimeError] (no running event loop) and no task. *)
Definition asyncio_create_task (running_loop : bool) (task : CloudPayload)
  : M unit :=
  if running_loop then
    modify (with_cloud_tasks (fun l => (l ++ [task])%list))
  else raise RuntimeError.

(** [on_mqtt_message] is a callback of the MQTT client, and the handlers
    are called from it alone: they run in the thread of paho's network
    loop ([loop_start], in [start]), which runs no event loop. *)
Definition mqtt_thread_runs_event_loop : bool := false.

(** ** EdgeGateway *)

Section EdgeGateway.

(** The successive readings of [datetime.now()]. *)
Variable clock : nat -> datetime.

Definition datetime_now : M datetime :=
  n <- gets clock_ticks ;;
  modify (with_clock_ticks S) ;;
  ret (clock n).

(** [save_device]. *)
Definition save_device (device : DeviceInfo) : M unit :=
  try_except
    (sql_bind_all [PStr (device_id device); device_type device;
                   mac_address device; ip_address device;
                   firmware_version device; capabilities device;
                   status device] ;;
     modify (with_db (sql_insert_or_replace_device (row_of_device device))))
    (fun e => logger ERROR [Lit "Error saving device: "; Exc e]).

(** [save_telemetry]. *)
Definition save_telemetry (telemetry : TelemetryData) : M unit :=
  try_except
    (sql_bind_all [t_device_id telemetry; t_temperature telemetry;
                   t_humidity telemetry; t_wifi_rssi telemetry;
                   t_free_heap telemetry; t_uptime telemetry] ;;
     modify (with_db (sql_insert_telemetry telemetry)))
    (fun e => logger ERROR [Lit "Error saving telemetry: "; Exc e]).

(** [update_device_status]. *)
Definition update_device_status (device_id : string) (status : pyval)
  : M unit :=
  try_except
    (t <- datetime_now ;;
     sql_bind_all [status; PStr device_id] ;;
     modify (with_db (sql_update_device_status status t device_id)))
    (fun e => logger ERROR [Lit "Error updating device status: "; Exc e]).

(** [forward_to_cloud], called by [handle_telemetry] in the MQTT
    thread. *)
Definition forward_to_cloud (message_type : string) (payload : pyval)
  : M unit :=
  try_except
    (c <- gets cloud_client ;;
     match c with
     | None => ret tt
     | Some _ =>
         gw <- config_gateway_id ;;
         t <- datetime_now ;;
         asyncio_create_task mqtt_thread_runs_event_loop
           (mk_CloudPayload gw message_type (isoformat t) payload)
     end)
    (fun e => logger ERROR [Lit "Error forwarding to cloud: "; Exc e]).

(** [handle_device_registration].  The registry of the model has string
    keys: a [device_id] that is not a string, which the code would store
    as a key, ends the computation as [Untyped], and the model does not
    follow the code further. *)
Definition handle_device_registration (payload : pyval) : M unit :=
  try_except
    (v <- py_getitem payload "device_id" ;;
     device_id <- match v with PStr d => ret d | _ => untyped end ;;
     device_type <- py_get payload "device_type" (PStr "unknown") ;;
     mac_address <- py_get payload "mac_address" (PStr "") ;;
     ip_address <- py_get payload "ip_address" (PStr "") ;;
     firmware_version <- py_get payload "firmware_version" (PStr "") ;;
     capabilities <- py_get payload "capabilities" (PStr "") ;;
     last_seen <- datetime_now ;;
     registration_time <- datetime_now ;;
     let device :=
       mk_DeviceInfo device_id device_type mac_address ip_address
         firmware_version capabilities (Some last_seen) (PStr "online")
         (Some registration_time) in
     save_device device ;;
     modify (with_devices (fun d => dict_set d device_id device)) ;;
     logger INFO [Lit "Registered new device: "; Val (PStr device_id)] ;;
     gw <- config_gateway_id ;;
     t <- datetime_now ;;
     let welcome_msg :=
       mk_WelcomeMsg "registration_confirmed" gw (isoformat t) in
     mqtt_publish ("devices/" ++ device_id ++ "/commands") welcome_msg)
    (fun e => logger ERROR [Lit "Error handling device registration: "; Exc e]).

(** [handle_telemetry]. *)
Definition handle_telemetry (payload : pyval) : M unit :=
  try_except
    (device_id <- py_get payload "device_id" PNone ;;
     if negb (truthy device_id) then
       logger WARNING [Lit "Telemetry message missing device_id"]
     else
       known <- devices_find device_id ;;
       match known with
       | Some d =>
           t <- datetime_now ;;
           modify (with_devices (fun ds =>
             dict_update ds d (set_last_seen (Some t)))) ;;
           modify (with_devices (fun ds =>
             dict_update ds d (set_status (PStr "online"))))
       | None => ret tt
       end ;;
       timestamp <- datetime_now ;;
       temperature <- py_get payload "temperature" PNone ;;
       humidity <- py_get payload "humidity" PNone ;;
       wifi_rssi <- py_get payload "wifi_rssi" PNone ;;
       free_heap <- py_get payload "free_heap" PNone ;;
       uptime <- py_get payload "uptime" PNone ;;
       custom_data <- py_get payload "custom_data" PNone ;;
       save_telemetry
         (mk_TelemetryData device_id timestamp temperature humidity
            wifi_rssi free_heap uptime custom_data) ;;
       c <- gets cloud_client ;;
       match c with
       | Some _ => forward_to_cloud "telemetry" payload
       | None => ret tt
       end ;;
       logger DEBUG [Lit "Processed telemetry from "; Val device_id])
    (fun e => logger ERROR [Lit "Error handling telemetry: "; Exc e]).

(** [handle_status_update]. *)
Definition handle_status_update (payload : pyval) : M unit :=
  try_except
    (device_id <- py_get payload "device_id" PNone ;;
     status <- py_get payload "status" (PStr "unknown") ;;
     known <- devices_find device_id ;;
     match known with
     | Some d =>
         modify (with_devices (fun ds => dict_update ds d (set_status status))) ;;
         t <- datetime_now ;;
         modify (with_devices (fun ds =>
           dict_update ds d (set_last_seen (Some t)))) ;;
         update_device_status d status ;;
         logger INFO [Lit "Device "; Val (PStr d); Lit " status: "; Val status]
     | None => ret tt
     end)
    (fun e => logger ERROR [Lit "Error handling status update: "; Exc e]).

(** The test of [check_device_health] on one device:
    [device.last_seen and (current_time - device.last_seen) >
    offline_threshold], then [device.status != 'offline']. *)
Definition offline_threshold : Z := timedelta_minutes 5.

Definition is_stale (current_time : datetime) (device : DeviceInfo) : bool :=
  match last_seen device with
  | Some t => offline_threshold <? Datetime.sub current_time t
  | None => false
  end.

Definition to_flag (current_time : datetime) (device : DeviceInfo) : bool :=
  is_stale current_time device && py_ne_str (status device) "offline".

(** The loop of [check_device_health] over [self.devices.items()]: each
    device object is visited once, in the order of the dictionary, and is
    mutated in place; the items are returned as the loop leaves them. *)
Fixpoint health_loop (current_time : datetime)
  (items : list (string * DeviceInfo)) : M (list (string * DeviceInfo)) :=
  match items with
  | [] => ret []
  | (device_id, device) :: rest =>
      device' <-
        (if is_stale current_time device then
           if py_ne_str (status device) "offline" then
             update_device_status device_id (PStr "offline") ;;
             logger WARNING [Lit "Device "; Val (PStr device_id);
                             Lit " marked as offline"] ;;
             ret (set_status (PStr "offline") device)
           else ret device
         else ret device) ;;
      rest' <- health_loop current_time rest ;;
      ret ((device_id, device') :: rest')
  end.

(** [check_device_health]. *)
Definition check_device_health : M unit :=
  try_except
    (current_time <- datetime_now ;;
     items <- gets devices ;;
     items' <- health_loop current_time items ;;
     modify (with_devices (fun _ => items')))
    (fun e => logger ERROR [Lit "Error checking device health: "; Exc e]).

(** [cleanup_old_data]. *)
Definition cleanup_old_data : M unit :=
  try_except
    (retention_days <- config_retention_days ;;
     t <- datetime_now ;;
     cutoff_date <- match sub_days t retention_days with
                    | Some c => ret c
                    | None => raise OverflowError
                    end ;;
     deleted_rows <- gets (fun g =>
       sql_delete_rowcount (isoformat cutoff_date) (db g)) ;;
     modify (with_db (sql_delete_telemetry (isoformat cutoff_date))) ;;
     if 0 <? deleted_rows then
       logger INFO [Lit "Cleaned up "; Num deleted_rows;
                    Lit " old telemetry records"]
     else ret tt)
    (fun e => logger ERROR [Lit "Error cleaning up old data: "; Exc e]).

(** [topic.endswith(suffix)]. *)
Definition endswith (s suffix : string) : bool :=
  let n := String.length s in
  let k := String.length suffix in
  Nat.leb k n && String.eqb (String.substring (n - k) k s) suffix.

(** [on_mqtt_message]: [parsed] is the result of
    [json.loads(msg.payload.decode())], [None] when it raises. *)
Definition on_mqtt_message (topic : string) (parsed : option pyval)
  : M unit :=
  try_except
    (payload <- match parsed with
                | Some v => ret v
                | None => raise JSONDecodeError
                end ;;
     logger DEBUG [Lit "Received message on "; Val (PStr topic); Lit ": ";
                   Val payload] ;;
     if String.prefix "devices/" topic && endswith topic "/telemetry" then
       handle_telemetry payload
     else if String.prefix "devices/" topic && endswith topic "/status" then
       handle_status_update payload
     else if String.eqb topic "devices/registration" then
       handle_device_registration payload
     else ret tt)
    (fun e => logger ERROR [Lit "Error processing MQTT message: "; Exc e]).

(** [setup_mqtt]: creates the MQTT client. *)
Definition setup_mqtt : M unit :=
  modify (fun g =>
    mk_Gateway (config g) (devices g) (Some MqttClientObject) (cloud_client g)
      (running g) (db g) (published g) (cloud_tasks g) (log g)
      (clock_ticks g)).

(** [init_database]: the three tables exist afterwards. *)
Definition init_database : M unit :=
  logger INFO [Lit "Database initialized successfully"].

(** [load_devices]. *)
Definition device_of_row (r : DeviceRow) : DeviceInfo :=
  mk_DeviceInfo (r_device_id r) (r_device_type r) (r_mac_address r)
    (r_ip_address r) (r_firmware_version r) (r_capabilities r)
    (r_last_seen r) (r_status r) (r_registration_time r).

Fixpoint load_rows (rows : list DeviceRow) : M unit :=
  match rows with
  | [] => ret tt
  | r :: rest =>
      modify (with_devices (fun d =>
        dict_set d (r_device_id r) (device_of_row r))) ;;
      load_rows rest
  end.

Definition load_devices : M unit :=
  try_except
    (rows <- gets (fun g => tbl_devices (db g)) ;;
     load_rows rows ;;
     n <- gets (fun g => Z.of_nat (List.length (devices g))) ;;
     logger INFO [Lit "Loaded "; Num n; Lit " devices from database"])
    (fun e => logger ERROR [Lit "Failed to load devices: "; Exc e]).

(** [EdgeGateway.__init__] on a configuration and a database file. *)
Definition EdgeGateway_init (c : Config) (b : Database) : Gateway :=
  exec (init_database ;; load_devices)
    (mk_Gateway c [] None None false b [] [] [] 0).

End EdgeGateway.

(** ** A concrete run

    A clock that advances ten minutes at every reading, a gateway built by
    [__init__] on an empty database followed by [setup_mqtt], and some
    payloads. *)

Module Example.

Definition midnight : datetime := mk_datetime 2024 1 1 0 0 0 0 eq_refl.

Definition clock (n : nat) : datetime :=
  let m := Z.of_nat n * 10 in
  match make 2024 1 1 (m / 60 mod 24) (m mod 60) 0 0 with
  | Some t => t
  | None => midnight
  end.

(** The examples store no REAL in a TEXT column and no text in a numeric
    column: the two conversions of their engine are never run, and are
    left trivial. *)
Definition sqlite : Sqlite := mk_Sqlite (fun _ => "") (fun s => PStr s).

Definition gateway : Gateway :=
  exec setup_mqtt
    (EdgeGateway_init (mk_Config None CfgAbsent)
       (mk_Database sqlite [] [] 0 [])).

(** [{"device_id": "d1", "device_type": "sensor"}]. *)
Definition registration : list (string * pyval) :=
  [("device_id", PStr "d1"); ("device_type", PStr "sensor")].

(** [{"device_id": "d1", "temperature": 21}]. *)
Definition telemetry : list (string * pyval) :=
  [("device_id", PStr "d1"); ("temperature", PInt 21)].

(** [{"temperature": 21}] and [{"device_id": "", "temperature": 21}]. *)
Definition telemetry_no_id : list (string * pyval) :=
  [("temperature", PInt 21)].

Definition telemetry_empty_id : list (string * pyval) :=
  [("device_id", PStr ""); ("temperature", PInt 21)].

(** [{"device_id": "d1"}] and [{"device_id": "d9", "status": "online"}]. *)
Definition status_no_status : list (string * pyval) :=
  [("device_id", PStr "d1")].

Definition status_unknown_device : list (string * pyval) :=
  [("device_id", PStr "d9"); ("status", PStr "online")].

(** The gateway after the registration of [d1]. *)
Definition registered : Gateway :=
  exec (handle_device_registration clock (PDict registration)) gateway.

(** ... and after a status message for [d1] that carries no status. *)
Definition reported : Gateway :=
  exec (handle_status_update clock (PDict status_no_status)) registered.

(** ... and after a telemetry message of [d1]. *)
Definition measured : Gateway :=
  exec (handle_telemetry clock (PDict telemetry)) registered.


(** A gateway whose telemetry table holds three rows: one older than
    thirty days at the sixth reading of the clock, one exactly thirty days
    old, one of the same hour. *)
Definition cutoff : datetime := mk_datetime 2023 12 2 0 50 0 0 eq_refl.

Definition row_at (id : Z) (t : datetime) : TelemetryRow :=
  mk_TelemetryRow id (PStr "d1") t (PFloat (real_of_int 21)) PNone PNone
    PNone PNone None.

Definition stored : Gateway :=
  mk_Gateway (mk_Config None CfgAbsent) [] None None false
    (mk_Database sqlite []
       [row_at 1 (mk_datetime 2023 12 2 0 49 59 999999 eq_refl);
        row_at 2 cutoff;
        row_at 3 (mk_datetime 2024 1 1 0 10 0 0 eq_refl)]
       3 [])
    [] [] [] 5.

(** Further payloads: a registration without id, the registration of
    [d2], with and without a list of capabilities; telemetry whose id or
    temperature is a list; status messages of [d1] whose status is a
    list, and a number. *)
Definition registration_no_id : list (string * pyval) :=
  [("device_type", PStr "sensor")].

Definition registration_d2 : list (string * pyval) :=
  [("device_id", PStr "d2")].

Definition registration_list : list (string * pyval) :=
  [("device_id", PStr "d2"); ("capabilities", PList [PStr "temperature"])].

(** The registration of [d2] with a number as its type. *)
Definition registration_number : list (string * pyval) :=
  [("device_id", PStr "d2"); ("device_type", PInt 5)].

(** The registration of a device whose id holds an MQTT wildcard. *)
Definition registration_wildcard : list (string * pyval) :=
  [("device_id", PStr "a+b")].

Definition telemetry_list_id : list (string * pyval) :=
  [("device_id", PList [PInt 1]); ("temperature", PInt 21)].

Definition telemetry_list_metric : list (string * pyval) :=
  [("device_id", PStr "d1"); ("temperature", PList [PInt 21])].

Definition status_list : list (string * pyval) :=
  [("device_id", PStr "d1"); ("status", PList [PStr "maintenance"])].

Definition status_number : list (string * pyval) :=
  [("device_id", PStr "d1"); ("status", PInt 7)].

(** The gateway after the registrations of [d1] and [d2]. *)
Definition two_devices : Gateway :=
  exec (handle_device_registration clock (PDict registration_d2)) registered.

(** The gateway as [__init__] leaves it, before [setup_mqtt]. *)
Definition configuration : Config := mk_Config None CfgAbsent.

Definition empty_database : Database := mk_Database sqlite [] [] 0 [].

Definition initial : Gateway := EdgeGateway_init configuration empty_database.

(** A gateway whose [retention_days] is not an integer. *)
Definition misconfigured : Gateway :=
  mk_Gateway (mk_Config None CfgBad) [] None None false (db stored) [] [] []
    5.

(** A clock that advances one minute at every reading (within the hour). *)
Definition minute_clock (n : nat) : datetime :=
  match make 2024 1 1 0 (Z.of_nat n mod 60) 0 0 with
  | Some t => t
  | None => midnight
  end.

End Example.

(** ** Vocabulary of the statements *)

(** Relations every step of a computation maintains.

    [frame R m]: the state [m] ends in is related by [R] to the state it
    started from, whatever [m] returns or raises.  [R] is a preorder that
    the bookkeeping fields (log, clock, outboxes) do not affect; what it
    says about the registry and the database is checked where they are
    written. *)

Definition frame {A : Type} (R : Gateway -> Gateway -> Prop) (m : M A)
  : Prop :=
  forall g, R g (snd (m g)).

(** No statement of the gateway writes to [commands]. *)
Definition same_commands (g g' : Gateway) : Prop :=
  tbl_commands (db g') = tbl_commands (db g).

(** The status values of the data model. *)
Definition status_ok (d : DeviceInfo) : Prop :=
  status d = PStr "online" \/ status d = PStr "offline".

Definition statuses_ok (g : Gateway) : Prop :=
  Forall (fun kv => status_ok (snd kv)) (devices g).

Definition keeps_statuses_ok (g g' : Gateway) : Prop :=
  statuses_ok g -> statuses_ok g'.

(** The rows of a device. *)
Definition rows_of (d : string) (g : Gateway) : list DeviceRow :=
  List.filter (fun r => String.eqb (r_device_id r) d) (tbl_devices (db g)).

(** [sqlite3] accepts the value as a parameter. *)
Definition bindable (v : pyval) : Prop :=
  forall g, sql_bind v g = (Ok tt, g).

(** [config.get('gateway', 'id', fallback='gateway_001')], as a
    function of the state. *)
Definition gateway_id_of (g : Gateway) : string :=
  match cfg_gateway_id (config g) with
  | Some s => s
  | None => "gateway_001"
  end.

(** What one pass of the loop does to an item of the registry ... *)
Definition sweep_item (current_time : datetime) (kv : string * DeviceInfo)
  : string * DeviceInfo :=
  (fst kv,
   if to_flag current_time (snd kv)
   then set_status (PStr "offline") (snd kv) else snd kv).

(** The record of the forward that fails in the MQTT thread. *)
Definition forward_error : LogRecord :=
  (ERROR, [Lit "Error forwarding to cloud: "; Exc RuntimeError]).

Definition offline_warning (k : string) : LogRecord :=
  (WARNING, [Lit "Device "; Val (PStr k); Lit " marked as offline"]).

(** The keys of the items the sweep flags, in the order of the loop. *)
Definition flagged_keys (current_time : datetime)
  (items : list (string * DeviceInfo)) : list string :=
  List.map fst (List.filter (fun kv => to_flag current_time (snd kv)) items).

(** What every step of a run keeps: the registry is a dictionary (each
    key once), no cloud client is ever set, and the commands table is
    never written. *)
Definition run_invariant (g g' : Gateway) : Prop :=
  (NoDup (dict_keys (devices g)) -> NoDup (dict_keys (devices g'))) /\
  cloud_client g' = cloud_client g /\
  tbl_commands (db g') = tbl_commands (db g).

Section Vocabulary.

Variable clock : nat -> datetime.

(** ... and to the rest of the state when the item is flagged. *)
Definition flag_device (k : string) (g : Gateway) : Gateway :=
  with_log (fun r => (r ++ [offline_warning k])%list)
    (with_db (sql_update_device_status (PStr "offline")
                (clock (clock_ticks g)) k)
       (with_clock_ticks S g)).

Fixpoint sweep_state (current_time : datetime)
  (items : list (string * DeviceInfo)) (g : Gateway) : Gateway :=
  match items with
  | [] => g
  | (k, dev) :: rest =>
      sweep_state current_time rest
        (if to_flag current_time dev then flag_device k g else g)
  end.

(** The device object [handle_device_registration] builds. *)
Definition registered_device (g : Gateway) (p : list (string * pyval))
  (d : string) : DeviceInfo :=
  mk_DeviceInfo d
    (dict_get_or p "device_type" (PStr "unknown"))
    (dict_get_or p "mac_address" (PStr ""))
    (dict_get_or p "ip_address" (PStr ""))
    (dict_get_or p "firmware_version" (PStr ""))
    (dict_get_or p "capabilities" (PStr ""))
    (Some (clock (clock_ticks g))) (PStr "online")
    (Some (clock (S (clock_ticks g)))).

(** The message it publishes. *)
Definition confirmation (g : Gateway) (d : string) : string * WelcomeMsg :=
  ("devices/" ++ d ++ "/commands",
   mk_WelcomeMsg "registration_confirmed" (gateway_id_of g)
     (isoformat (clock (S (S (clock_ticks g)))))).

(** The registry update of [handle_telemetry]: a known device is marked
    as seen now and online. *)
Definition touched (g : Gateway) (v : pyval) : Gateway :=
  match v with
  | PStr d =>
      if dict_mem (devices g) d then
        with_devices (fun ds => dict_update ds d (set_status (PStr "online")))
          (with_devices (fun ds =>
             dict_update ds d (set_last_seen (Some (clock (clock_ticks g)))))
             (with_clock_ticks S g))
      else g
  | _ => g
  end.

(** The record [handle_telemetry] builds. *)
Definition telemetry_record (g : Gateway) (p : list (string * pyval))
  (v : pyval) : TelemetryData :=
  mk_TelemetryData v (clock (clock_ticks (touched g v)))
    (dict_get_or p "temperature" PNone) (dict_get_or p "humidity" PNone)
    (dict_get_or p "wifi_rssi" PNone) (dict_get_or p "free_heap" PNone)
    (dict_get_or p "uptime" PNone) (dict_get_or p "custom_data" PNone).


(** The states of a run, as far as the model follows it: [__init__] on
    a configuration and a database, then [setup_mqtt], messages of the
    broker, health sweeps and retention runs in any order, each running
    to its end before the next starts (the MQTT thread and the event loop
    are not interleaved within a step).  A message is followed when its
    handling stays in the typed model, that is, ends as [Ok]: every
    message but a registration whose [device_id] is not a string
    ([on_mqtt_message_followed]); the states of the code after such a
    registration are not states of the model. *)
Inductive reachable (c : Config) (b : Database) : Gateway -> Prop :=
| reach_init : reachable c b (EdgeGateway_init c b)
| reach_setup_mqtt (g : Gateway) :
    reachable c b g -> reachable c b (exec setup_mqtt g)
| reach_message (g g' : Gateway) (topic : string) (parsed : option pyval) :
    reachable c b g ->
    on_mqtt_message clock topic parsed g = (Ok tt, g') ->
    reachable c b g'
| reach_health (g : Gateway) :
    reachable c b g -> reachable c b (exec (check_device_health clock) g)
| reach_cleanup (g : Gateway) :
    reachable c b g -> reachable c b (exec (cleanup_old_data clock) g).

End Vocabulary.

(** ** Vocabulary of the further properties *)

(** [m] never leaves the typed model. *)
Definition typed {A : Type} (m : M A) : Prop :=
  forall g, fst (m g) <> Untyped.

(** [m] never ends with an exception. *)
Definition catches_all {A : Type} (m : M A) : Prop :=
  forall g e, fst (m g) <> Raise e.

(** The last character of a string ([d] for the empty string). *)
Fixpoint string_last (s : string) (d : ascii) : ascii :=
  match s with
  | EmptyString => d
  | String c rest => string_last rest c
  end.

(** What telemetry handling never does to the state. *)
Definition telemetry_frame (g g' : Gateway) : Prop :=
  dict_keys (devices g') = dict_keys (devices g) /\
  tbl_devices (db g') = tbl_devices (db g) /\
  tbl_commands (db g') = tbl_commands (db g) /\
  published g' = published g /\
  mqtt_client g' = mqtt_client g.

(** One row loaded into the registry by [load_devices]. *)
Definition load_step (acc : list (string * DeviceInfo)) (r : DeviceRow)
  : list (string * DeviceInfo) :=
  dict_set acc (r_device_id r) (device_of_row r).

(** The values a TEXT column stores as they are: a string, and None. *)
Definition text_kept (v : pyval) : bool :=
  match v with PStr _ | PNone => true | _ => false end.

(** While no cloud client is set, none is set afterwards and no cloud
    task is created. *)
Definition no_forward (g g' : Gateway) : Prop :=
  cloud_client g = None ->
  cloud_client g' = None /\ cloud_tasks g' = cloud_tasks g.

(** ** Facts about datetime *)

Module DatetimeFacts.

Lemma digit_compare (a b : Z) :
  0 <= a <= 9 -> 0 <= b <= 9 ->
  Ascii.compare (digit a) (digit b) = (a ?= b).
Proof.
  intros Ha Hb. unfold Ascii.compare, digit.
  rewrite !N_ascii_embedding by lia.
  rewrite <- N2Z.inj_compare, !N2Z.inj_add, !Z2N.id by lia.
  change (Z.of_N 48) with 48.
  apply Z.add_compare_mono_l.
Qed.

Lemma lex_eq (k : comparison) : lex Eq k = k.
Proof. reflexivity. Qed.

Lemma split_compare (P qa ra qb rb : Z) :
  0 <= ra < P -> 0 <= rb < P ->
  (P * qa + ra ?= P * qb + rb) = lex (qa ?= qb) (ra ?= rb).
Proof.
  intros Ha Hb.
  destruct (Z.compare_spec qa qb) as [E|L|G]; simpl.
  - subst qb. destruct (Z.compare_spec ra rb) as [E'|L'|G'].
    + subst. apply Z.compare_refl.
    + apply Z.compare_lt_iff. lia.
    + apply Z.compare_gt_iff. lia.
  - apply Z.compare_lt_iff. nia.
  - apply Z.compare_gt_iff. nia.
Qed.

Lemma zpad_compare (w : nat) :
  forall (a b : Z) (s t : string),
    0 <= a < 10 ^ Z.of_nat w -> 0 <= b < 10 ^ Z.of_nat w ->
    String.compare (zpad w a ++ s) (zpad w b ++ t)
    = lex (a ?= b) (String.compare s t).
Proof.
  induction w as [|w IH]; intros a b s t Ha Hb.
  - simpl in *. assert (a = 0) by lia. assert (b = 0) by lia. subst.
    reflexivity.
  - rewrite Nat2Z.inj_succ, Z.pow_succ_r in Ha, Hb by lia.
    set (P := 10 ^ Z.of_nat w) in *.
    assert (HP : 0 < P) by (apply Z.pow_pos_nonneg; lia).
    cbn [zpad String.append String.compare]. fold P.
    assert (Hqa : 0 <= a / P <= 9).
    { split; [apply Z.div_pos; lia|].
      assert (a / P < 10) by (apply Z.div_lt_upper_bound; lia). lia. }
    assert (Hqb : 0 <= b / P <= 9).
    { split; [apply Z.div_pos; lia|].
      assert (b / P < 10) by (apply Z.div_lt_upper_bound; lia). lia. }
    assert (Hra : 0 <= a mod P < P) by (apply Z.mod_pos_bound; lia).
    assert (Hrb : 0 <= b mod P < P) by (apply Z.mod_pos_bound; lia).
    rewrite digit_compare by assumption.
    rewrite IH by assumption.
    rewrite (Z.div_mod a P) at 3 by lia.
    rewrite (Z.div_mod b P) at 3 by lia.
    rewrite split_compare by assumption.
    destruct (a / P ?= b / P); reflexivity.
Qed.

Lemma zpad_compare_nil (w : nat) (a b : Z) :
  0 <= a < 10 ^ Z.of_nat w -> 0 <= b < 10 ^ Z.of_nat w ->
  String.compare (zpad w a) (zpad w b) = (a ?= b).
Proof.
  intros Ha Hb.
  pose proof (zpad_compare w a b "" "" Ha Hb) as H.
  assert (E : forall s : string, s ++ "" = s).
  { induction s as [|c s IHs]; simpl; [reflexivity | now rewrite IHs]. }
  rewrite !E in H. rewrite H. destruct (a ?= b); reflexivity.
Qed.

Lemma sep_compare (c : ascii) (s t : string) :
  String.compare (String c s) (String c t) = String.compare s t.
Proof.
  simpl. unfold Ascii.compare. rewrite N.compare_refl. reflexivity.
Qed.

Lemma fields_ok_bounds (a : datetime) :
  (1 <= year a <= 9999) /\ (1 <= month a <= 12) /\ (1 <= day a <= 31) /\
  (0 <= hour a <= 23) /\ (0 <= minute a <= 59) /\ (0 <= second a <= 59) /\
  (0 <= microsecond a <= 999999).
Proof.
  pose proof (datetime_ok a) as H. unfold fields_ok in H.
  repeat (apply andb_prop in H; destruct H as [H ?]).
  assert (days_in_month (year a) (month a) <= 31).
  { unfold days_in_month.
    repeat match goal with |- context [if ?c then _ else _] => destruct c end;
      lia. }
  lia.
Qed.

Lemma usec_suffix_compare (a b : datetime) :
  String.compare
    (if microsecond a =? 0 then "" else "." ++ zpad 6 (microsecond a))
    (if microsecond b =? 0 then "" else "." ++ zpad 6 (microsecond b))
  = (microsecond a ?= microsecond b).
Proof.
  destruct (fields_ok_bounds a) as (_ & _ & _ & _ & _ & _ & Ha).
  destruct (fields_ok_bounds b) as (_ & _ & _ & _ & _ & _ & Hb).
  destruct (Z.eqb_spec (microsecond a) 0) as [Ea|Na];
    destruct (Z.eqb_spec (microsecond b) 0) as [Eb|Nb].
  - rewrite Ea, Eb. reflexivity.
  - rewrite Ea. cbn [String.append String.compare]. symmetry.
    apply Z.compare_lt_iff. lia.
  - rewrite Eb. cbn [String.append String.compare]. symmetry.
    apply Z.compare_gt_iff. lia.
  - cbn [String.append]. rewrite sep_compare.
    apply zpad_compare_nil; change (10 ^ Z.of_nat 6) with 1000000; lia.
Qed.

(** The text order of [isoformat] strings is the order of the datetimes:
    SQLite compares the stored ISO-8601 texts byte by byte. *)
Lemma isoformat_compare (a b : datetime) :
  String.compare (isoformat a) (isoformat b) = Datetime.compare a b.
Proof.
  destruct (fields_ok_bounds a) as (Ya & Ma & Da & Ha & Mia & Sa & _).
  destruct (fields_ok_bounds b) as (Yb & Mb & Db & Hb & Mib & Sb & _).
  unfold isoformat, Datetime.compare.
  rewrite zpad_compare by (change (10 ^ Z.of_nat 4) with 10000; lia).
  cbn [String.append]. rewrite sep_compare.
  rewrite zpad_compare by (change (10 ^ Z.of_nat 2) with 100; lia).
  cbn [String.append]. rewrite sep_compare.
  rewrite zpad_compare by (change (10 ^ Z.of_nat 2) with 100; lia).
  cbn [String.append]. rewrite sep_compare.
  rewrite zpad_compare by (change (10 ^ Z.of_nat 2) with 100; lia).
  cbn [String.append]. rewrite sep_compare.
  rewrite zpad_compare by (change (10 ^ Z.of_nat 2) with 100; lia).
  cbn [String.append]. rewrite sep_compare.
  rewrite zpad_compare by (change (10 ^ Z.of_nat 2) with 100; lia).
  rewrite usec_suffix_compare. reflexivity.
Qed.

Lemma isoformat_ltb (a b : datetime) :
  String.ltb (isoformat a) (isoformat b) = Datetime.ltb a b.
Proof.
  unfold String.ltb, Datetime.ltb. rewrite isoformat_compare. reflexivity.
Qed.

End DatetimeFacts.

(** ** Facts about the handlers *)

(** The fields of the state a command leaves alone. *)
Lemma logger_spec (l : level) (msg : list part) (g : Gateway) :
  logger l msg g
  = (Ok tt, if level_enabled l then with_log (fun r => (r ++ [(l, msg)])%list) g
            else g).
Proof. unfold logger. destruct (level_enabled l); reflexivity. Qed.

Ltac mred :=
  cbv beta iota zeta
      delta [bind ret gets modify raise untyped try_except exec fst snd
             logger level_enabled].

Ltac run_monad :=
  unfold exec, try_except, bind, ret, raise, untyped, gets, modify,
         logger, level_enabled; simpl.

(** ** Telemetry without a device id *)

(** What [handle_telemetry] does when [payload.get('device_id')] is
    falsy: one WARNING record, nothing else. *)
Lemma handle_telemetry_falsy (clock : nat -> datetime) (g : Gateway)
  (p : list (string * pyval)) :
  truthy (dict_get_or p "device_id" PNone) = false ->
  handle_telemetry clock (PDict p) g
  = (Ok tt,
     with_log (fun r =>
       (r ++ [(WARNING, [Lit "Telemetry message missing device_id"])])%list) g).
Proof.
  intros H. unfold handle_telemetry, py_get. run_monad.
  rewrite H. reflexivity.
Qed.

(** C7: a telemetry message whose payload has no [device_id] field is
    dropped with a WARNING record: no telemetry row is created, the
    registry and the database are unchanged and nothing is handed to the
    cloud relay. *)
Theorem C7_telemetry_without_device_id
  (clock : nat -> datetime) (g : Gateway) (p : list (string * pyval)) :
  dict_get p "device_id" = None ->
  let g' := exec (handle_telemetry clock (PDict p)) g in
  fst (handle_telemetry clock (PDict p) g) = Ok tt /\
  log g' = (log g ++ [(WARNING, [Lit "Telemetry message missing device_id"])])%list /\
  tbl_telemetry (db g') = tbl_telemetry (db g) /\
  db g' = db g /\
  devices g' = devices g /\
  cloud_tasks g' = cloud_tasks g /\
  published g' = published g.
Proof.
  intros H g'. subst g'. unfold exec.
  rewrite handle_telemetry_falsy
    by (unfold dict_get_or; rewrite H; reflexivity).
  simpl. repeat split; reflexivity.
Qed.

Lemma C7_witness :
  dict_get Example.telemetry_no_id "device_id" = None /\
  let g' := exec (handle_telemetry Example.clock
                    (PDict Example.telemetry_no_id)) Example.registered in
  fst (handle_telemetry Example.clock (PDict Example.telemetry_no_id)
         Example.registered) = Ok tt /\
  log g' = (log Example.registered
            ++ [(WARNING, [Lit "Telemetry message missing device_id"])])%list /\
  tbl_telemetry (db g') = tbl_telemetry (db Example.registered) /\
  db g' = db Example.registered /\
  devices g' = devices Example.registered /\
  cloud_tasks g' = cloud_tasks Example.registered /\
  published g' = published Example.registered.
Proof.
  split; [reflexivity|].
  apply (C7_telemetry_without_device_id Example.clock Example.registered
           Example.telemetry_no_id).
  reflexivity.
Defined.

(** C10: a telemetry message whose [device_id] field is present but falsy
    (the empty string, 0, 0.0, false, null, an empty list or dict) is
    treated as missing: one WARNING record, no telemetry row, registry
    unchanged. *)
Theorem C10_telemetry_falsy_device_id
  (clock : nat -> datetime) (g : Gateway) (p : list (string * pyval))
  (v : pyval) :
  dict_get p "device_id" = Some v ->
  truthy v = false ->
  let g' := exec (handle_telemetry clock (PDict p)) g in
  fst (handle_telemetry clock (PDict p) g) = Ok tt /\
  log g' = (log g ++ [(WARNING, [Lit "Telemetry message missing device_id"])])%list /\
  tbl_telemetry (db g') = tbl_telemetry (db g) /\
  devices g' = devices g /\
  cloud_tasks g' = cloud_tasks g.
Proof.
  intros H Hv g'. subst g'. unfold exec.
  rewrite handle_telemetry_falsy
    by (unfold dict_get_or; rewrite H; exact Hv).
  simpl. repeat split; reflexivity.
Qed.

Lemma C10_witness :
  dict_get Example.telemetry_empty_id "device_id" = Some (PStr "") /\
  truthy (PStr "") = false /\
  let g' := exec (handle_telemetry Example.clock
                    (PDict Example.telemetry_empty_id)) Example.registered in
  fst (handle_telemetry Example.clock (PDict Example.telemetry_empty_id)
         Example.registered) = Ok tt /\
  log g' = (log Example.registered
            ++ [(WARNING, [Lit "Telemetry message missing device_id"])])%list /\
  tbl_telemetry (db g') = tbl_telemetry (db Example.registered) /\
  devices g' = devices Example.registered /\
  cloud_tasks g' = cloud_tasks Example.registered.
Proof.
  split; [reflexivity|]. split; [reflexivity|].
  apply (C10_telemetry_falsy_device_id Example.clock Example.registered
           Example.telemetry_empty_id (PStr "")); reflexivity.
Defined.

(** ** Status messages of unknown devices *)

(** C9: a status message whose [device_id] is not a key of the registry
    leaves the registry and the whole database as they are: no entry is
    created, no entry is modified and no statement is executed. *)
Theorem C9_status_of_unknown_device
  (clock : nat -> datetime) (g : Gateway) (p : list (string * pyval)) :
  (forall d, dict_get p "device_id" = Some (PStr d) ->
             dict_mem (devices g) d = false) ->
  let g' := exec (handle_status_update clock (PDict p)) g in
  fst (handle_status_update clock (PDict p) g) = Ok tt /\
  devices g' = devices g /\
  db g' = db g /\
  clock_ticks g' = clock_ticks g.
Proof.
  intros H g'. subst g'.
  unfold handle_status_update, py_get, devices_find, dict_get_or. run_monad.
  destruct (dict_get p "device_id") as [v|] eqn:E; simpl.
  - destruct v as [| | | | d | |]; simpl; try (repeat split; reflexivity).
    rewrite (H d eq_refl). simpl. repeat split; reflexivity.
  - repeat split; reflexivity.
Qed.

Lemma C9_witness :
  (forall d, dict_get Example.status_unknown_device "device_id"
             = Some (PStr d) ->
             dict_mem (devices Example.registered) d = false) /\
  let g' := exec (handle_status_update Example.clock
                    (PDict Example.status_unknown_device))
                 Example.registered in
  fst (handle_status_update Example.clock
         (PDict Example.status_unknown_device) Example.registered) = Ok tt /\
  devices g' = devices Example.registered /\
  db g' = db Example.registered /\
  clock_ticks g' = clock_ticks Example.registered.
Proof.
  assert (H : forall d, dict_get Example.status_unknown_device "device_id"
                        = Some (PStr d) ->
                        dict_mem (devices Example.registered) d = false).
  { intros d E. injection E as <-. reflexivity. }
  split; [exact H|].
  apply (C9_status_of_unknown_device Example.clock Example.registered
           Example.status_unknown_device H).
Defined.


Section Frame.

Variable R : Gateway -> Gateway -> Prop.
Hypothesis R_refl : forall g, R g g.
Hypothesis R_trans : forall g1 g2 g3, R g1 g2 -> R g2 g3 -> R g1 g3.

Lemma frame_ret {A : Type} (a : A) : frame R (ret a).
Proof. intro g. apply R_refl. Qed.

Lemma frame_raise {A : Type} (e : exn) : frame R (@raise A e).
Proof. intro g. apply R_refl. Qed.

Lemma frame_untyped {A : Type} : frame R (@untyped A).
Proof. intro g. apply R_refl. Qed.

Lemma frame_gets {A : Type} (f : Gateway -> A) : frame R (gets f).
Proof. intro g. apply R_refl. Qed.

Lemma frame_modify (f : Gateway -> Gateway) :
  (forall g, R g (f g)) -> frame R (modify f).
Proof. intros H g. apply H. Qed.

Lemma frame_bind {A B : Type} (m : M A) (k : A -> M B) :
  frame R m -> (forall a, frame R (k a)) -> frame R (bind m k).
Proof.
  intros Hm Hk g. unfold bind. specialize (Hm g).
  destruct (m g) as [[a| e |] g1]; simpl in *; try assumption.
  apply R_trans with g1; [assumption | apply Hk].
Qed.

Lemma frame_bind_ret {A B : Type} (a : A) (k : A -> M B) :
  frame R (k a) -> frame R (bind (ret a) k).
Proof. intros H g. apply H. Qed.

Lemma frame_try_except {A : Type} (body : M A) (handler : exn -> M A) :
  frame R body -> (forall e, frame R (handler e)) ->
  frame R (try_except body handler).
Proof.
  intros Hb Hh g. unfold try_except. specialize (Hb g).
  destruct (body g) as [[a| e |] g1]; simpl in *; try assumption.
  apply R_trans with g1; [assumption | apply Hh].
Qed.

Hypothesis R_log : forall f g, R g (with_log f g).
Hypothesis R_clock : forall f g, R g (with_clock_ticks f g).
Hypothesis R_published : forall f g, R g (with_published f g).
Hypothesis R_cloud_tasks : forall f g, R g (with_cloud_tasks f g).

Lemma frame_logger (l : level) (msg : list part) : frame R (logger l msg).
Proof.
  unfold logger. destruct (level_enabled l);
    [apply frame_modify; intro; apply R_log | apply frame_ret].
Qed.

Lemma frame_py_get (payload : pyval) (key : string) (default : pyval) :
  frame R (py_get payload key default).
Proof. destruct payload; simpl; (apply frame_ret || apply frame_raise). Qed.

Lemma frame_py_getitem (payload : pyval) (key : string) :
  frame R (py_getitem payload key).
Proof.
  destruct payload; simpl; try apply frame_raise.
  destruct (dict_get d key); [apply frame_ret | apply frame_raise].
Qed.

Lemma frame_devices_find (v : pyval) : frame R (devices_find v).
Proof.
  destruct v; simpl; try apply frame_ret; try apply frame_raise.
  apply frame_bind; [apply frame_gets | intro; apply frame_ret].
Qed.

Lemma frame_config_gateway_id : frame R config_gateway_id.
Proof.
  apply frame_bind; [apply frame_gets | intro; apply frame_ret].
Qed.

Lemma frame_config_retention_days : frame R config_retention_days.
Proof.
  apply frame_bind; [apply frame_gets | intro c].
  destruct (cfg_retention_days c);
    (apply frame_ret || apply frame_raise).
Qed.

Lemma frame_sql_bind (v : pyval) : frame R (sql_bind v).
Proof.
  destruct v; simpl; try apply frame_ret; try apply frame_raise.
  match goal with |- context [if ?c then _ else _] => destruct c end;
    [apply frame_ret | apply frame_raise].
Qed.

Lemma frame_sql_bind_all (vs : list pyval) : frame R (sql_bind_all vs).
Proof.
  induction vs as [|v vs IH]; simpl; [apply frame_ret|].
  apply frame_bind; [apply frame_sql_bind | intro; exact IH].
Qed.

Lemma frame_mqtt_publish (topic : string) (msg : WelcomeMsg) :
  frame R (mqtt_publish topic msg).
Proof.
  apply frame_bind; [apply frame_gets | intros [c|]].
  - destruct (topic_ok topic); [|apply frame_raise].
    apply frame_modify. intro. apply R_published.
  - apply frame_raise.
Qed.

Lemma frame_asyncio_create_task (running_loop : bool) (task : CloudPayload) :
  frame R (asyncio_create_task running_loop task).
Proof.
  destruct running_loop; [|apply frame_raise].
  apply frame_modify. intro. apply R_cloud_tasks.
Qed.

Variable clock : nat -> datetime.

Lemma frame_datetime_now : frame R (datetime_now clock).
Proof.
  apply frame_bind; [apply frame_gets | intro].
  apply frame_bind; [apply frame_modify; intro; apply R_clock | intro].
  apply frame_ret.
Qed.

Lemma frame_forward_to_cloud (message_type : string) (payload : pyval) :
  frame R (forward_to_cloud clock message_type payload).
Proof.
  apply frame_try_except; [| intro; apply frame_logger].
  apply frame_bind; [apply frame_gets | intros [c|]]; [|apply frame_ret].
  apply frame_bind; [apply frame_config_gateway_id | intro].
  apply frame_bind; [apply frame_datetime_now | intro].
  apply frame_asyncio_create_task.
Qed.

(** The statements of the database. *)
Hypothesis R_insert_device :
  forall r g, R g (with_db (sql_insert_or_replace_device r) g).
Hypothesis R_update_device :
  forall st t d g, R g (with_db (sql_update_device_status st t d) g).
Hypothesis R_insert_telemetry :
  forall t g, R g (with_db (sql_insert_telemetry t) g).
Hypothesis R_delete_telemetry :
  forall c g, R g (with_db (sql_delete_telemetry c) g).

Lemma frame_save_device (device : DeviceInfo) : frame R (save_device device).
Proof.
  apply frame_try_except; [| intro; apply frame_logger].
  apply frame_bind; [apply frame_sql_bind_all | intro].
  apply frame_modify. intro. apply R_insert_device.
Qed.

Lemma frame_save_telemetry (t : TelemetryData) : frame R (save_telemetry t).
Proof.
  apply frame_try_except; [| intro; apply frame_logger].
  apply frame_bind; [apply frame_sql_bind_all | intro].
  apply frame_modify. intro. apply R_insert_telemetry.
Qed.

Lemma frame_update_device_status (d : string) (st : pyval) :
  frame R (update_device_status clock d st).
Proof.
  apply frame_try_except; [| intro; apply frame_logger].
  apply frame_bind; [apply frame_datetime_now | intro].
  apply frame_bind; [apply frame_sql_bind_all | intro].
  apply frame_modify. intro. apply R_update_device.
Qed.

Lemma frame_cleanup_old_data : frame R (cleanup_old_data clock).
Proof.
  apply frame_try_except; [| intro; apply frame_logger].
  apply frame_bind; [apply frame_config_retention_days | intro n].
  apply frame_bind; [apply frame_datetime_now | intro t].
  apply frame_bind.
  { destruct (sub_days t n); [apply frame_ret | apply frame_raise]. }
  intro c.
  apply frame_bind; [apply frame_gets | intro k].
  apply frame_bind; [apply frame_modify; intro; apply R_delete_telemetry|].
  intro. destruct (0 <? k); [apply frame_logger | apply frame_ret].
Qed.

(** The writes to the registry: [allowed] tells which status values
    [R] admits. *)
Variable allowed : pyval -> Prop.
Hypothesis allowed_online : allowed (PStr "online").
Hypothesis R_store_device :
  forall d dev g, status dev = PStr "online" ->
    R g (with_devices (fun ds => dict_set ds d dev) g).
Hypothesis R_set_last_seen :
  forall d t g,
    R g (with_devices (fun ds => dict_update ds d (set_last_seen t)) g).
Hypothesis R_set_status :
  forall d st g, allowed st ->
    R g (with_devices (fun ds => dict_update ds d (set_status st)) g).

Lemma frame_handle_device_registration (payload : pyval) :
  frame R (handle_device_registration clock payload).
Proof.
  apply frame_try_except; [| intro; apply frame_logger].
  apply frame_bind; [apply frame_py_getitem | intro v].
  apply frame_bind.
  { destruct v; (apply frame_ret || apply frame_untyped). }
  intro d.
  do 5 (apply frame_bind; [apply frame_py_get | intro]).
  do 2 (apply frame_bind; [apply frame_datetime_now | intro]).
  apply frame_bind; [apply frame_save_device | intro].
  apply frame_bind.
  { apply frame_modify. intro. apply R_store_device. reflexivity. }
  intro.
  apply frame_bind; [apply frame_logger | intro].
  apply frame_bind; [apply frame_config_gateway_id | intro].
  apply frame_bind; [apply frame_datetime_now | intro].
  apply frame_mqtt_publish.
Qed.

Lemma frame_handle_telemetry (payload : pyval) :
  frame R (handle_telemetry clock payload).
Proof.
  apply frame_try_except; [| intro; apply frame_logger].
  apply frame_bind; [apply frame_py_get | intro v].
  destruct (negb (truthy v)); [apply frame_logger|].
  apply frame_bind; [apply frame_devices_find | intro known].
  apply frame_bind.
  { destruct known as [d|]; [|apply frame_ret].
    apply frame_bind; [apply frame_datetime_now | intro].
    apply frame_bind;
      [apply frame_modify; intro; apply R_set_last_seen | intro].
    apply frame_modify. intro. apply R_set_status. exact allowed_online. }
  intro.
  apply frame_bind; [apply frame_datetime_now | intro].
  do 6 (apply frame_bind; [apply frame_py_get | intro]).
  apply frame_bind; [apply frame_save_telemetry | intro].
  apply frame_bind; [apply frame_gets | intro c].
  apply frame_bind; [| intro; apply frame_logger].
  destruct c; [apply frame_forward_to_cloud | apply frame_ret].
Qed.

Lemma frame_handle_status_update (payload : pyval) :
  (forall p, payload = PDict p ->
     allowed (dict_get_or p "status" (PStr "unknown"))) ->
  frame R (handle_status_update clock payload).
Proof.
  intros Hst.
  apply frame_try_except; [| intro; apply frame_logger].
  destruct payload as [| | | | | | p];
    try (intro g; apply R_refl).
  unfold py_get. do 2 apply frame_bind_ret.
  apply frame_bind; [apply frame_devices_find | intro known].
  destruct known as [d|]; [|apply frame_ret].
  apply frame_bind.
  { apply frame_modify. intro. apply R_set_status. apply Hst. reflexivity. }
  intro.
  apply frame_bind; [apply frame_datetime_now | intro].
  apply frame_bind;
    [apply frame_modify; intro; apply R_set_last_seen | intro].
  apply frame_bind; [apply frame_update_device_status | intro].
  apply frame_logger.
Qed.

Lemma frame_on_mqtt_message (topic : string) (parsed : option pyval) :
  (forall st, allowed st) ->
  frame R (on_mqtt_message clock topic parsed).
Proof.
  intro Hall.
  apply frame_try_except; [| intro; apply frame_logger].
  apply frame_bind.
  { destruct parsed; [apply frame_ret | apply frame_raise]. }
  intro payload.
  apply frame_bind; [apply frame_logger | intro].
  destruct (String.prefix "devices/" topic && endswith topic "/telemetry");
    [apply frame_handle_telemetry|].
  destruct (String.prefix "devices/" topic && endswith topic "/status");
    [apply frame_handle_status_update; intros; apply Hall|].
  destruct (String.eqb topic "devices/registration");
    [apply frame_handle_device_registration | apply frame_ret].
Qed.

End Frame.

(** ** The commands table *)


Lemma same_commands_refl (g : Gateway) : same_commands g g.
Proof. reflexivity. Qed.

Lemma same_commands_trans (g1 g2 g3 : Gateway) :
  same_commands g1 g2 -> same_commands g2 g3 -> same_commands g1 g3.
Proof. unfold same_commands. congruence. Qed.

Lemma registration_same_commands (clock : nat -> datetime) (payload : pyval) :
  frame same_commands (handle_device_registration clock payload).
Proof.
  apply frame_handle_device_registration;
    first [ exact same_commands_refl
          | exact same_commands_trans
          | intros; reflexivity ].
Qed.

(** C3, as the code has it: handling a registration message creates no
    Command record.  The commands table is left as it was, whatever the
    payload; the registration confirmation exists only as the MQTT message
    published on [devices/{id}/commands]. *)
Theorem C3_registration_creates_no_command
  (clock : nat -> datetime) (g : Gateway) (payload : pyval) :
  tbl_commands (db (exec (handle_device_registration clock payload) g))
  = tbl_commands (db g).
Proof. apply registration_same_commands. Qed.

(** C3, as stated, fails: after the registration of [d1] on a fresh
    gateway the registration succeeded, the confirmation was published,
    and the commands table holds no record. *)
Lemma C3_counterexample :
  fst (handle_device_registration Example.clock (PDict Example.registration)
         Example.gateway) = Ok tt /\
  dict_mem (devices Example.registered) "d1" = true /\
  List.map fst (published Example.registered) = ["devices/d1/commands"] /\
  tbl_commands (db Example.registered) = [] /\
  ~ (exists c, In c (tbl_commands (db Example.registered)) /\
               c_device_id c = "d1" /\ c_status c = "pending").
Proof.
  repeat split; try reflexivity.
  intros [c [Hin _]]. exact Hin.
Qed.

(** ** The status field *)


Lemma Forall_dict_set {V : Type} (P : string * V -> Prop)
  (d : list (string * V)) (k : string) (v : V) :
  (forall k', P (k', v)) -> Forall P d -> Forall P (dict_set d k v).
Proof.
  intros Hv H. induction H as [|[k' v'] rest Hx Hrest IH]; simpl.
  - constructor; [apply Hv | constructor].
  - destruct (String.eqb k' k); constructor; auto.
Qed.

Lemma Forall_dict_update {V : Type} (P : string * V -> Prop)
  (d : list (string * V)) (k : string) (f : V -> V) :
  (forall k' v, P (k', v) -> P (k', f v)) ->
  Forall P d -> Forall P (dict_update d k f).
Proof.
  intros Hf H. induction H as [|[k' v'] rest Hx Hrest IH]; simpl.
  - constructor.
  - destruct (String.eqb k' k); constructor; auto.
Qed.

Lemma dict_get_update {V : Type} (d : list (string * V)) (k : string)
  (f : V -> V) :
  dict_get (dict_update d k f) k = option_map f (dict_get d k).
Proof.
  induction d as [|[k' v'] rest IH]; simpl; [reflexivity|].
  destruct (String.eqb k' k) eqn:E; simpl; rewrite E; auto.
Qed.

Lemma dict_get_update_other {V : Type} (d : list (string * V))
  (k k0 : string) (f : V -> V) :
  k0 <> k -> dict_get (dict_update d k f) k0 = dict_get d k0.
Proof.
  intros Hne. induction d as [|[k' v'] rest IH]; simpl; [reflexivity|].
  destruct (String.eqb k' k) eqn:E; simpl.
  - apply String.eqb_eq in E. subst k'.
    destruct (String.eqb k k0) eqn:E0; [|reflexivity].
    apply String.eqb_eq in E0. congruence.
  - destruct (String.eqb k' k0); auto.
Qed.


Section StatusPreserved.

Variable clock : nat -> datetime.

Let allowed (st : pyval) : Prop := st = PStr "online" \/ st = PStr "offline".

Lemma keeps_statuses_ok_set_status (d : string) (st : pyval) (g : Gateway) :
  allowed st ->
  keeps_statuses_ok g
    (with_devices (fun ds => dict_update ds d (set_status st)) g).
Proof.
  intros Hst H. unfold statuses_ok in *. simpl.
  apply Forall_dict_update; [|exact H].
  intros k' v _. exact Hst.
Qed.

Lemma keeps_statuses_ok_set_last_seen (d : string) (t : option datetime)
  (g : Gateway) :
  keeps_statuses_ok g
    (with_devices (fun ds => dict_update ds d (set_last_seen t)) g).
Proof.
  intros H. unfold statuses_ok in *. simpl.
  apply Forall_dict_update; [|exact H].
  intros k' v Hv. exact Hv.
Qed.

Lemma keeps_statuses_ok_store (d : string) (dev : DeviceInfo) (g : Gateway) :
  status dev = PStr "online" ->
  keeps_statuses_ok g (with_devices (fun ds => dict_set ds d dev) g).
Proof.
  intros Hdev H. unfold statuses_ok in *. simpl.
  apply Forall_dict_set; [|exact H].
  intros k'. left. exact Hdev.
Qed.

Lemma registration_keeps_statuses_ok (payload : pyval) :
  frame keeps_statuses_ok (handle_device_registration clock payload).
Proof.
  apply frame_handle_device_registration;
    try (intros; intro H; exact H).
  - intros g1 g2 g3 H12 H23 H. auto.
  - apply keeps_statuses_ok_store.
Qed.

Lemma telemetry_keeps_statuses_ok (payload : pyval) :
  frame keeps_statuses_ok (handle_telemetry clock payload).
Proof.
  apply frame_handle_telemetry with (allowed := allowed);
    try (intros; intro H; exact H).
  - intros g1 g2 g3 H12 H23 H. auto.
  - left. reflexivity.
  - apply keeps_statuses_ok_set_last_seen.
  - apply keeps_statuses_ok_set_status.
Qed.

Lemma status_update_keeps_statuses_ok (p : list (string * pyval)) :
  allowed (dict_get_or p "status" (PStr "unknown")) ->
  frame keeps_statuses_ok (handle_status_update clock (PDict p)).
Proof.
  intros Hst.
  apply frame_handle_status_update with (allowed := allowed);
    try (intros; intro H; exact H).
  - intros g1 g2 g3 H12 H23 H. auto.
  - apply keeps_statuses_ok_set_last_seen.
  - apply keeps_statuses_ok_set_status.
  - intros p' E. injection E as <-. exact Hst.
Qed.

End StatusPreserved.

(** ** The health sweep *)

Section Sweep.

Variable clock : nat -> datetime.




Lemma update_offline_run (k : string) (g : Gateway) :
  update_device_status clock k (PStr "offline") g
  = (Ok tt,
     with_db (sql_update_device_status (PStr "offline")
                (clock (clock_ticks g)) k)
       (with_clock_ticks S g)).
Proof. reflexivity. Qed.

Lemma health_loop_run (current_time : datetime)
  (items : list (string * DeviceInfo)) :
  forall g,
    health_loop clock current_time items g
    = (Ok (List.map (sweep_item current_time) items),
       sweep_state clock current_time items g).
Proof.
  induction items as [|[k dev] rest IH]; intro g; [reflexivity|].
  cbn [health_loop sweep_state List.map]. unfold sweep_item, to_flag.
  cbn [fst snd].
  destruct (is_stale current_time dev);
    [destruct (py_ne_str (status dev) "offline")|];
    cbn [andb]; unfold bind at 1.
  - unfold bind at 1. rewrite update_offline_run.
    unfold bind at 1. rewrite logger_spec. cbn [level_enabled].
    unfold ret at 1. unfold bind at 1. rewrite IH. reflexivity.
  - unfold ret at 1. unfold bind at 1. rewrite IH. reflexivity.
  - unfold ret at 1. unfold bind at 1. rewrite IH. reflexivity.
Qed.

Lemma check_device_health_run (g : Gateway) :
  let current_time := clock (clock_ticks g) in
  check_device_health clock g
  = (Ok tt,
     with_devices (fun _ => List.map (sweep_item current_time) (devices g))
       (sweep_state clock current_time (devices g) (with_clock_ticks S g))).
Proof.
  intro ct. unfold check_device_health, try_except, datetime_now.
  unfold bind at 1. unfold bind at 1. unfold gets at 1.
  unfold bind at 1. unfold modify at 1. unfold ret at 1.
  unfold bind at 1. unfold gets at 1. unfold bind at 1.
  cbn [devices with_clock_ticks].
  rewrite health_loop_run. reflexivity.
Qed.

(** The loop itself touches neither the registry nor the other tables. *)
Lemma sweep_state_devices (ct : datetime) (items : list (string * DeviceInfo)) :
  forall g, devices (sweep_state clock ct items g) = devices g.
Proof.
  induction items as [|[k dev] rest IH]; intro g; simpl; [reflexivity|].
  rewrite IH. destruct (to_flag ct dev); reflexivity.
Qed.

Lemma sweep_state_log (ct : datetime) (items : list (string * DeviceInfo)) :
  forall g,
    log (sweep_state clock ct items g)
    = (log g ++ List.map offline_warning (flagged_keys ct items))%list.
Proof.
  unfold flagged_keys.
  induction items as [|[k dev] rest IH]; intro g; simpl.
  - symmetry. apply app_nil_r.
  - rewrite IH. destruct (to_flag ct dev); simpl; [|reflexivity].
    rewrite <- app_assoc. reflexivity.
Qed.

Lemma sweep_state_other_tables (ct : datetime)
  (items : list (string * DeviceInfo)) :
  forall g,
    tbl_telemetry (db (sweep_state clock ct items g)) = tbl_telemetry (db g) /\
    tbl_commands (db (sweep_state clock ct items g)) = tbl_commands (db g).
Proof.
  induction items as [|[k dev] rest IH]; intro g; simpl; [split; reflexivity|].
  destruct (IH (if to_flag ct dev then flag_device clock k g else g)) as [H1 H2].
  rewrite H1, H2. destruct (to_flag ct dev); split; reflexivity.
Qed.


Lemma rows_of_flag_other (k d : string) (g : Gateway) :
  k <> d -> rows_of d (flag_device clock k g) = rows_of d g.
Proof.
  intros Hne. unfold rows_of, flag_device. simpl.
  induction (tbl_devices (db g)) as [|r rows IH]; simpl; [reflexivity|].
  destruct (String.eqb (r_device_id r) k) eqn:Ek; simpl.
  - apply String.eqb_eq in Ek.
    destruct (String.eqb (r_device_id r) d) eqn:Ed.
    + apply String.eqb_eq in Ed. congruence.
    + exact IH.
  - destruct (String.eqb (r_device_id r) d); [f_equal|]; exact IH.
Qed.

Lemma rows_of_flag_offline (k d : string) (g : Gateway) :
  Forall (fun r => r_status r = PStr "offline") (rows_of d g) ->
  Forall (fun r => r_status r = PStr "offline") (rows_of d (flag_device clock k g)).
Proof.
  unfold rows_of, flag_device. simpl.
  induction (tbl_devices (db g)) as [|r rows IH]; simpl; intro H;
    [constructor|].
  destruct (String.eqb (r_device_id r) k) eqn:Ek; simpl.
  - destruct (String.eqb (r_device_id r) d) eqn:Ed.
    + constructor; [reflexivity|]. apply IH. inversion H; assumption.
    + apply IH. exact H.
  - destruct (String.eqb (r_device_id r) d) eqn:Ed.
    + inversion H; subst. constructor; [assumption|]. apply IH. assumption.
    + apply IH. exact H.
Qed.

Lemma rows_of_flag_same (d : string) (g : Gateway) :
  Forall (fun r => r_status r = PStr "offline") (rows_of d (flag_device clock d g)).
Proof.
  unfold rows_of, flag_device. simpl.
  induction (tbl_devices (db g)) as [|r rows IH]; simpl; [constructor|].
  destruct (String.eqb (r_device_id r) d) eqn:Ed; simpl; rewrite Ed.
  - constructor; [reflexivity | exact IH].
  - exact IH.
Qed.

Lemma sweep_state_rows_offline (ct : datetime) (d : string)
  (items : list (string * DeviceInfo)) :
  forall g,
    Forall (fun r => r_status r = PStr "offline") (rows_of d g) ->
    Forall (fun r => r_status r = PStr "offline")
      (rows_of d (sweep_state clock ct items g)).
Proof.
  induction items as [|[k dev] rest IH]; intros g H; simpl; [exact H|].
  apply IH. destruct (to_flag ct dev); [|exact H].
  apply rows_of_flag_offline. exact H.
Qed.

(** A flagged device has all its rows set to offline ... *)
Lemma sweep_state_rows_flagged (ct : datetime) (d : string)
  (items : list (string * DeviceInfo)) :
  forall g,
    In d (flagged_keys ct items) ->
    Forall (fun r => r_status r = PStr "offline")
      (rows_of d (sweep_state clock ct items g)).
Proof.
  unfold flagged_keys.
  induction items as [|[k dev] rest IH]; intros g H; simpl in *;
    [contradiction|].
  destruct (to_flag ct dev); simpl in H.
  - destruct H as [E|H].
    + subst k. apply sweep_state_rows_offline. apply rows_of_flag_same.
    + apply IH. exact H.
  - apply IH. exact H.
Qed.

(** ... and the rows of a device that is not flagged are not written. *)
Lemma sweep_state_rows_unflagged (ct : datetime) (d : string)
  (items : list (string * DeviceInfo)) :
  forall g,
    ~ In d (flagged_keys ct items) ->
    rows_of d (sweep_state clock ct items g) = rows_of d g.
Proof.
  unfold flagged_keys.
  induction items as [|[k dev] rest IH]; intros g H; simpl in *;
    [reflexivity|].
  destruct (to_flag ct dev); simpl in H.
  - rewrite IH by tauto. apply rows_of_flag_other. tauto.
  - apply IH. exact H.
Qed.

Lemma dict_get_sweep (ct : datetime) (items : list (string * DeviceInfo))
  (d : string) :
  dict_get (List.map (sweep_item ct) items) d
  = option_map (fun dev => snd (sweep_item ct (d, dev))) (dict_get items d).
Proof.
  induction items as [|[k dev] rest IH]; simpl; [reflexivity|].
  destruct (String.eqb k d); [reflexivity | exact IH].
Qed.

(** In a dictionary (each key once), the flagged keys are the keys of
    the devices to flag. *)
Lemma flagged_keys_spec (ct : datetime) (items : list (string * DeviceInfo))
  (d : string) (dev : DeviceInfo) :
  NoDup (dict_keys items) ->
  dict_get items d = Some dev ->
  (In d (flagged_keys ct items) <-> to_flag ct dev = true).
Proof.
  unfold flagged_keys, dict_keys.
  induction items as [|[k dev'] rest IH]; simpl; intros Hnd Hget;
    [discriminate|].
  inversion Hnd as [|? ? Hnotin Hnd']; subst.
  destruct (String.eqb k d) eqn:E.
  - apply String.eqb_eq in E. subst k. injection Hget as ->.
    destruct (to_flag ct dev) eqn:F; simpl.
    + tauto.
    + split; [|discriminate]. intro Hin. exfalso. apply Hnotin.
      apply in_map_iff in Hin. destruct Hin as [[k' x] [Ek Hin]].
      apply filter_In in Hin. destruct Hin as [Hin _].
      apply in_map_iff. exists (k', x). auto.
  - apply String.eqb_neq in E.
    destruct (to_flag ct dev'); simpl; rewrite <- (IH Hnd' Hget);
      intuition congruence.
Qed.

End Sweep.

Lemma py_ne_str_spec (v : pyval) (s : string) :
  py_ne_str v s = true <-> v <> PStr s.
Proof.
  destruct v; simpl; try (split; [discriminate | reflexivity]).
  destruct (String.eqb s0 s) eqn:E; simpl.
  - apply String.eqb_eq in E. subst. split; [discriminate | congruence].
  - apply String.eqb_neq in E. split; [congruence | reflexivity].
Qed.

(** The test of the sweep, in words: the device has been seen, the time
    since then exceeds five minutes, and its status is not 'offline'. *)
Lemma to_flag_spec (current_time : datetime) (dev : DeviceInfo) :
  to_flag current_time dev = true <->
  (exists t, last_seen dev = Some t /\
             offline_threshold < Datetime.sub current_time t) /\
  status dev <> PStr "offline".
Proof.
  unfold to_flag, is_stale. rewrite andb_true_iff, py_ne_str_spec.
  destruct (last_seen dev) as [t|].
  - rewrite Z.ltb_lt. split.
    + intros [H1 H2]. split; [exists t; auto | exact H2].
    + intros [[t' [E H1]] H2]. injection E as <-. auto.
  - split.
    + intros [H _]. discriminate.
    + intros [[t' [E _]] _]. discriminate.
Qed.

Lemma to_flag_offline (current_time : datetime) (dev : DeviceInfo) :
  status dev = PStr "offline" -> to_flag current_time dev = false.
Proof.
  intro H. unfold to_flag. rewrite H. simpl. apply andb_false_r.
Qed.

Lemma dict_keys_sweep (ct : datetime) (items : list (string * DeviceInfo)) :
  dict_keys (List.map (sweep_item ct) items) = dict_keys items.
Proof.
  unfold dict_keys. rewrite map_map. reflexivity.
Qed.

Lemma rows_of_with_devices (d : string)
  (f : list (string * DeviceInfo) -> list (string * DeviceInfo))
  (g : Gateway) :
  rows_of d (with_devices f g) = rows_of d g.
Proof. reflexivity. Qed.

(** One sweep, seen from one device of the registry. *)
Lemma sweep_one_device (clock : nat -> datetime) (g : Gateway) (d : string)
  (dev : DeviceInfo) :
  NoDup (dict_keys (devices g)) ->
  dict_get (devices g) d = Some dev ->
  let now := clock (clock_ticks g) in
  let g' := exec (check_device_health clock) g in
  NoDup (dict_keys (devices g')) /\
  dict_get (devices g') d
  = Some (if to_flag now dev then set_status (PStr "offline") dev else dev) /\
  (to_flag now dev = true ->
     Forall (fun r => r_status r = PStr "offline") (rows_of d g')) /\
  (to_flag now dev = false -> rows_of d g' = rows_of d g) /\
  (exists new, log g' = (log g ++ new)%list /\
               (In (offline_warning d) new <-> to_flag now dev = true)).
Proof.
  intros Hnd Hget now g'. subst g'. unfold exec.
  rewrite check_device_health_run. fold now. cbn [snd].
  pose proof (flagged_keys_spec now (devices g) d dev Hnd Hget) as Hflag.
  repeat split.
  - cbn [devices with_devices]. rewrite dict_keys_sweep. exact Hnd.
  - cbn [devices with_devices]. rewrite dict_get_sweep, Hget. reflexivity.
  - intro F. rewrite rows_of_with_devices.
    apply (sweep_state_rows_flagged clock now d (devices g)).
    apply Hflag. exact F.
  - intro F. rewrite rows_of_with_devices.
    rewrite (sweep_state_rows_unflagged clock now d (devices g)
               (with_clock_ticks S g)); [reflexivity|].
    rewrite Hflag, F. discriminate.
  - exists (List.map offline_warning (flagged_keys now (devices g))).
    cbn [log with_devices]. rewrite sweep_state_log. split; [reflexivity|].
    rewrite <- Hflag. rewrite in_map_iff. split.
    + intros [k [E Hin]]. injection E as <-. exact Hin.
    + intro Hin. exists d. split; [reflexivity | exact Hin].
Qed.

(** C4, as the code has it: one sweep sets a device to offline exactly
    when it has been seen, [now - last_seen] exceeds the threshold of five
    minutes and its status is not 'offline' (whatever else it is, not only
    'online'); the change is written to its rows and logged.  A device
    that is not flagged, in particular one that is already offline, is not
    changed, not written and not logged: the sweep that follows a sweep
    leaves the device it flagged alone. *)
Theorem C4_health_sweep (clock : nat -> datetime) (g : Gateway) (d : string)
  (dev : DeviceInfo) :
  NoDup (dict_keys (devices g)) ->
  dict_get (devices g) d = Some dev ->
  let now := clock (clock_ticks g) in
  let g' := exec (check_device_health clock) g in
  let g'' := exec (check_device_health clock) g' in
  (to_flag now dev = true <->
     (exists t, last_seen dev = Some t /\
                offline_threshold < Datetime.sub now t) /\
     status dev <> PStr "offline") /\
  dict_get (devices g') d
  = Some (if to_flag now dev then set_status (PStr "offline") dev else dev) /\
  (to_flag now dev = true ->
     Forall (fun r => r_status r = PStr "offline") (rows_of d g')) /\
  (to_flag now dev = false -> rows_of d g' = rows_of d g) /\
  (exists new, log g' = (log g ++ new)%list /\
               (In (offline_warning d) new <-> to_flag now dev = true)) /\
  (status dev = PStr "offline" -> to_flag now dev = false) /\
  (to_flag now dev = true ->
     dict_get (devices g'') d = dict_get (devices g') d /\
     rows_of d g'' = rows_of d g' /\
     exists new, log g'' = (log g' ++ new)%list /\
                 ~ In (offline_warning d) new).
Proof.
  intros Hnd Hget now g' g''.
  destruct (sweep_one_device clock g d dev Hnd Hget)
    as (Hnd' & Hdev & Hrows & Hkeep & Hlog).
  fold now g' in Hnd', Hdev, Hrows, Hkeep, Hlog.
  split; [apply to_flag_spec|].
  split; [exact Hdev|]. split; [exact Hrows|]. split; [exact Hkeep|].
  split; [exact Hlog|]. split; [apply to_flag_offline|].
  intro F. rewrite F in Hdev.
  destruct (sweep_one_device clock g' d _ Hnd' Hdev)
    as (_ & Hdev2 & _ & Hkeep2 & new & Hlog2 & Hnew).
  fold g'' in Hdev2, Hkeep2, Hlog2.
  assert (Foff : to_flag (clock (clock_ticks g'))
                   (set_status (PStr "offline") dev) = false)
    by (apply to_flag_offline; reflexivity).
  rewrite Foff in Hdev2, Hnew.
  split; [congruence|]. split; [apply Hkeep2; exact Foff|].
  exists new. split; [exact Hlog2|]. rewrite Hnew. discriminate.
Qed.

(** ** Statement parameters *)


Lemma sql_bind_cases (v : pyval) (g : Gateway) :
  sql_bind v g = (Ok tt, g) \/ exists e, sql_bind v g = (Raise e, g).
Proof.
  destruct v; simpl; try (left; reflexivity);
    try (right; eexists; reflexivity).
  match goal with |- context [if ?c then _ else _] => destruct c end;
    [left; reflexivity | right; eexists; reflexivity].
Qed.

Lemma sql_bind_all_cases (vs : list pyval) (g : Gateway) :
  sql_bind_all vs g = (Ok tt, g) \/ exists e, sql_bind_all vs g = (Raise e, g).
Proof.
  induction vs as [|v vs IH]; simpl; [left; reflexivity|].
  unfold bind. destruct (sql_bind_cases v g) as [E|[e E]]; rewrite E.
  - exact IH.
  - right. exists e. reflexivity.
Qed.

Lemma sql_bind_all_bindable (vs : list pyval) (g : Gateway) :
  Forall bindable vs -> sql_bind_all vs g = (Ok tt, g).
Proof.
  intro H. induction H as [|v vs Hv Hvs IH]; simpl; [reflexivity|].
  unfold bind. rewrite Hv. exact IH.
Qed.

Lemma bindable_str (s : string) : bindable (PStr s).
Proof. intro g. reflexivity. Qed.

Lemma bindable_none : bindable PNone.
Proof. intro g. reflexivity. Qed.

Section Statements.

Variable clock : nat -> datetime.

Lemma save_device_cases (device : DeviceInfo) (g : Gateway) :
  save_device device g
  = (Ok tt, with_db (sql_insert_or_replace_device (row_of_device device)) g)
  \/ exists e,
      save_device device g
      = (Ok tt, with_log (fun r =>
           (r ++ [(ERROR, [Lit "Error saving device: "; Exc e])])%list) g).
Proof.
  unfold save_device, try_except, bind.
  match goal with |- context [sql_bind_all ?vs g] =>
    destruct (sql_bind_all_cases vs g) as [E|[e E]]; rewrite E end.
  - left. reflexivity.
  - right. exists e. reflexivity.
Qed.

Lemma save_device_bindable (device : DeviceInfo) (g : Gateway) :
  Forall bindable [device_type device; mac_address device;
                   ip_address device; firmware_version device;
                   capabilities device; status device] ->
  save_device device g
  = (Ok tt, with_db (sql_insert_or_replace_device (row_of_device device)) g).
Proof.
  intro H. unfold save_device, try_except, bind.
  rewrite sql_bind_all_bindable; [reflexivity|].
  constructor; [apply bindable_str | exact H].
Qed.

Lemma save_telemetry_cases (t : TelemetryData) (g : Gateway) :
  save_telemetry t g = (Ok tt, with_db (sql_insert_telemetry t) g)
  \/ exists e,
      save_telemetry t g
      = (Ok tt, with_log (fun r =>
           (r ++ [(ERROR, [Lit "Error saving telemetry: "; Exc e])])%list) g).
Proof.
  unfold save_telemetry, try_except, bind.
  match goal with |- context [sql_bind_all ?vs g] =>
    destruct (sql_bind_all_cases vs g) as [E|[e E]]; rewrite E end.
  - left. reflexivity.
  - right. exists e. reflexivity.
Qed.


Lemma update_device_status_cases (d : string) (st : pyval) (g : Gateway) :
  update_device_status clock d st g
  = (Ok tt, with_db (sql_update_device_status st (clock (clock_ticks g)) d)
              (with_clock_ticks S g))
  \/ exists e,
      update_device_status clock d st g
      = (Ok tt, with_log (fun r =>
           (r ++ [(ERROR, [Lit "Error updating device status: "; Exc e])])%list)
           (with_clock_ticks S g)).
Proof.
  unfold update_device_status, datetime_now. mred.
  match goal with |- context [sql_bind_all ?vs ?g1] =>
    destruct (sql_bind_all_cases vs g1) as [E|[e E]]; rewrite E end.
  - left. reflexivity.
  - right. exists e. reflexivity.
Qed.

(** A status message of a known device: the registry entry takes the
    status of the message and the time of the clock. *)
Lemma handle_status_update_known (g : Gateway) (p : list (string * pyval))
  (d : string) :
  dict_get p "device_id" = Some (PStr d) ->
  dict_mem (devices g) d = true ->
  exists g',
    handle_status_update clock (PDict p) g = (Ok tt, g') /\
    devices g'
    = dict_update
        (dict_update (devices g) d
           (set_status (dict_get_or p "status" (PStr "unknown"))))
        d (set_last_seen (Some (clock (clock_ticks g)))).
Proof.
  intros Hid Hmem.
  unfold handle_status_update, py_get, devices_find, datetime_now. mred.
  unfold dict_get_or at 1. rewrite Hid. mred. rewrite Hmem. mred.
  match goal with |- context [update_device_status clock d ?st ?g1] =>
    destruct (update_device_status_cases d st g1) as [E|[e E]]; rewrite E end;
    eexists; (split; [reflexivity|]); reflexivity.
Qed.

End Statements.

(** ** Status values of the registry *)

Lemma sweep_keeps_statuses_ok (clock : nat -> datetime) (g : Gateway) :
  statuses_ok g -> statuses_ok (exec (check_device_health clock) g).
Proof.
  intro H. unfold exec. rewrite check_device_health_run. cbn [snd].
  unfold statuses_ok in *. cbn [devices with_devices].
  apply Forall_map. revert H. apply Forall_impl. intros [k dev] Hdev.
  unfold sweep_item, status_ok in *. cbn [fst snd] in *.
  destruct (to_flag _ dev); [right; reflexivity | exact Hdev].
Qed.

(** C5, as the code has it: registration, telemetry handling and the
    health sweep keep every status of the registry in {online, offline};
    status handling stores the status value of the message as it is
    ('unknown' when the message has none), so it keeps the statuses in
    {online, offline} only when the message carries one of the two. *)
Theorem C5_status_values (clock : nat -> datetime) (g : Gateway)
  (payload : pyval) (p : list (string * pyval)) :
  statuses_ok g ->
  statuses_ok (exec (handle_device_registration clock payload) g) /\
  statuses_ok (exec (handle_telemetry clock payload) g) /\
  statuses_ok (exec (check_device_health clock) g) /\
  (dict_get_or p "status" (PStr "unknown") = PStr "online" \/
   dict_get_or p "status" (PStr "unknown") = PStr "offline" ->
   statuses_ok (exec (handle_status_update clock (PDict p)) g)) /\
  (forall d, dict_get p "device_id" = Some (PStr d) ->
             dict_mem (devices g) d = true ->
             option_map status
               (dict_get (devices (exec (handle_status_update clock (PDict p)) g))
                  d)
             = Some (dict_get_or p "status" (PStr "unknown"))).
Proof.
  intro H. repeat split.
  - apply (registration_keeps_statuses_ok clock payload g H).
  - apply (telemetry_keeps_statuses_ok clock payload g H).
  - apply sweep_keeps_statuses_ok. exact H.
  - intro Hst. apply (status_update_keeps_statuses_ok clock p Hst g H).
  - intros d Hid Hmem.
    destruct (handle_status_update_known clock g p d Hid Hmem) as [g' [E Hd]].
    unfold exec. rewrite E. cbn [snd]. rewrite Hd.
    rewrite !dict_get_update. unfold dict_mem in Hmem.
    destruct (dict_get (devices g) d); [reflexivity | discriminate].
Qed.

(** C5, as stated, fails: a status message without a status field, for
    the registered device [d1], leaves [d1] with status 'unknown'. *)
Lemma C5_counterexample :
  statuses_ok Example.registered /\
  option_map status (dict_get (devices Example.reported) "d1")
  = Some (PStr "unknown") /\
  ~ statuses_ok Example.reported.
Proof.
  split; [|split].
  - repeat constructor.
  - reflexivity.
  - intro H. inversion H as [|kv rest Hd _]; subst.
    destruct Hd as [Hd|Hd]; discriminate Hd.
Qed.

Lemma C5_witness :
  statuses_ok Example.registered /\
  statuses_ok (exec (check_device_health Example.clock) Example.registered) /\
  statuses_ok (exec (handle_telemetry Example.clock (PDict Example.telemetry))
                 Example.registered).
Proof.
  assert (H : statuses_ok Example.registered) by (repeat constructor).
  destruct (C5_status_values Example.clock Example.registered
              (PDict Example.telemetry) Example.status_no_status H)
    as (_ & Ht & Hs & _).
  split; [exact H|]. split; [exact Hs | exact Ht].
Defined.

(** C4, as stated, fails: [d1], whose status is 'unknown' (not 'online')
    and which was last seen twenty minutes before the sweep, is set to
    offline by the sweep all the same. *)
Lemma C4_counterexample :
  option_map status (dict_get (devices Example.reported) "d1")
  = Some (PStr "unknown") /\
  option_map status
    (dict_get (devices (exec (check_device_health Example.clock)
                          Example.reported)) "d1")
  = Some (PStr "offline") /\
  List.map r_status
    (rows_of "d1" (exec (check_device_health Example.clock) Example.reported))
  = [PStr "offline"].
Proof. repeat split; reflexivity. Qed.

Lemma C4_witness :
  NoDup (dict_keys (devices Example.registered)) /\
  (exists dev,
     dict_get (devices Example.registered) "d1" = Some dev /\
     dict_get (devices (exec (check_device_health Example.clock)
                          Example.registered)) "d1"
     = Some (set_status (PStr "offline") dev)).
Proof.
  assert (Hnd : NoDup (dict_keys (devices Example.registered))).
  { repeat constructor. simpl. tauto. }
  split; [exact Hnd|].
  destruct (dict_get (devices Example.registered) "d1") as [dev|] eqn:E;
    [|discriminate E].
  exists dev. split; [reflexivity|].
  destruct (C4_health_sweep Example.clock Example.registered "d1" dev Hnd E)
    as (_ & Hdev & _).
  rewrite Hdev. injection E as <-. reflexivity.
Defined.

(** ** Retention *)

Lemma datetime_ltb_irrefl (a : datetime) : Datetime.ltb a a = false.
Proof.
  unfold Datetime.ltb, Datetime.compare. rewrite !Z.compare_refl. reflexivity.
Qed.

Lemma sql_old_spec (cutoff : datetime) (r : TelemetryRow) :
  sql_old (isoformat cutoff) r = Datetime.ltb (tr_timestamp r) cutoff.
Proof. unfold sql_old. apply DatetimeFacts.isoformat_ltb. Qed.

(** What a retention run does when the cutoff can be computed. *)
Lemma cleanup_old_data_run (clock : nat -> datetime) (g : Gateway)
  (n : Z) (cutoff : datetime) :
  cfg_retention_days (config g) = CfgInt n \/
  (cfg_retention_days (config g) = CfgAbsent /\ n = 30) ->
  sub_days (clock (clock_ticks g)) n = Some cutoff ->
  exists g',
    cleanup_old_data clock g = (Ok tt, g') /\
    db g' = sql_delete_telemetry (isoformat cutoff) (db g) /\
    devices g' = devices g.
Proof.
  intros Hcfg Hsub.
  unfold cleanup_old_data, config_retention_days, datetime_now. mred.
  destruct Hcfg as [Hc | [Hc ->]]; rewrite Hc; mred; rewrite Hsub; mred;
    match goal with |- context [if ?c then _ else _] => destruct c end;
    eexists; (split; [reflexivity|]); split; reflexivity.
Qed.

(** C6: a retention run whose cutoff is [now - retention_days] deletes
    exactly the telemetry rows whose timestamp is strictly before the
    cutoff: the rows that remain are the rows at or after the cutoff, in
    their order; a row whose timestamp equals the cutoff remains. *)
Theorem C6_retention_boundary (clock : nat -> datetime) (g : Gateway)
  (n : Z) (cutoff : datetime) :
  cfg_retention_days (config g) = CfgInt n \/
  (cfg_retention_days (config g) = CfgAbsent /\ n = 30) ->
  sub_days (clock (clock_ticks g)) n = Some cutoff ->
  let g' := exec (cleanup_old_data clock) g in
  tbl_telemetry (db g')
  = List.filter (fun r => negb (Datetime.ltb (tr_timestamp r) cutoff))
      (tbl_telemetry (db g)) /\
  (forall r, In r (tbl_telemetry (db g)) ->
     (In r (tbl_telemetry (db g')) <->
      Datetime.ltb (tr_timestamp r) cutoff = false)) /\
  (forall r, In r (tbl_telemetry (db g)) -> tr_timestamp r = cutoff ->
     In r (tbl_telemetry (db g'))) /\
  tbl_devices (db g') = tbl_devices (db g) /\
  tbl_commands (db g') = tbl_commands (db g).
Proof.
  intros Hcfg Hsub g'. subst g'.
  destruct (cleanup_old_data_run clock g n cutoff Hcfg Hsub) as [g' [E [Hdb _]]].
  unfold exec. rewrite E. cbn [snd]. rewrite Hdb.
  unfold sql_delete_telemetry. cbn [tbl_telemetry tbl_devices tbl_commands].
  assert (F : List.filter (fun r => negb (sql_old (isoformat cutoff) r))
                (tbl_telemetry (db g))
              = List.filter
                  (fun r => negb (Datetime.ltb (tr_timestamp r) cutoff))
                  (tbl_telemetry (db g))).
  { apply filter_ext. intro r. rewrite sql_old_spec. reflexivity. }
  rewrite F. split; [reflexivity|]. split; [|split; [|split; reflexivity]].
  - intros r Hin. rewrite filter_In, negb_true_iff. tauto.
  - intros r Hin Ets. apply filter_In. split; [exact Hin|].
    rewrite Ets, datetime_ltb_irrefl. reflexivity.
Qed.

Lemma C6_witness :
  (cfg_retention_days (config Example.stored) = CfgInt 30 \/
   (cfg_retention_days (config Example.stored) = CfgAbsent /\ 30 = 30)) /\
  sub_days (Example.clock (clock_ticks Example.stored)) 30
  = Some Example.cutoff /\
  List.map tr_id
    (tbl_telemetry (db (exec (cleanup_old_data Example.clock) Example.stored)))
  = [2; 3].
Proof.
  assert (Hcfg : cfg_retention_days (config Example.stored) = CfgInt 30 \/
                 (cfg_retention_days (config Example.stored) = CfgAbsent /\
                  30 = 30))
    by (right; split; reflexivity).
  assert (Hsub : sub_days (Example.clock (clock_ticks Example.stored)) 30
                 = Some Example.cutoff) by reflexivity.
  split; [exact Hcfg|]. split; [exact Hsub|].
  destruct (C6_retention_boundary Example.clock Example.stored 30
              Example.cutoff Hcfg Hsub) as [H _].
  rewrite H. reflexivity.
Defined.

(** ** Registration *)

Lemma dict_get_set {V : Type} (d : list (string * V)) (k : string) (v : V) :
  dict_get (dict_set d k v) k = Some v.
Proof.
  induction d as [|[k' v'] rest IH]; simpl.
  - rewrite String.eqb_refl. reflexivity.
  - destruct (String.eqb k' k) eqn:E; simpl; rewrite E; auto.
Qed.

Lemma dict_keys_set_present {V : Type} (d : list (string * V)) (k : string)
  (v : V) :
  dict_mem d k = true -> dict_keys (dict_set d k v) = dict_keys d.
Proof.
  unfold dict_mem, dict_keys.
  induction d as [|[k' v'] rest IH]; simpl; [discriminate|].
  destruct (String.eqb k' k) eqn:E; simpl; [reflexivity|].
  intro H. rewrite IH by exact H. reflexivity.
Qed.

Lemma dict_count_keys {V : Type} (d : list (string * V)) (k : string) :
  dict_count d k
  = List.length (List.filter (fun k' => String.eqb k' k) (dict_keys d)).
Proof.
  unfold dict_count, dict_keys.
  induction d as [|[k' v'] rest IH]; simpl; [reflexivity|].
  destruct (String.eqb k' k); simpl; rewrite IH; reflexivity.
Qed.

Lemma count_nodup (ks : list string) (k : string) :
  NoDup ks -> In k ks ->
  List.length (List.filter (fun k' => String.eqb k' k) ks) = 1%nat.
Proof.
  intro Hnd. induction Hnd as [|k0 ks Hnotin Hnd IH]; simpl; [contradiction|].
  intros [E|Hin].
  - subst k0. rewrite String.eqb_refl. simpl. f_equal.
    assert (F : List.filter (fun k' => String.eqb k' k) ks = []).
    { clear IH Hnd. induction ks as [|k1 ks IHks]; simpl; [reflexivity|].
      destruct (String.eqb k1 k) eqn:E1.
      - apply String.eqb_eq in E1. subst. exfalso. apply Hnotin. left.
        reflexivity.
      - apply IHks. intro Hin. apply Hnotin. right. exact Hin. }
    rewrite F. reflexivity.
  - destruct (String.eqb k0 k) eqn:E0.
    + apply String.eqb_eq in E0. subst. contradiction.
    + apply IH. exact Hin.
Qed.

Lemma dict_mem_in_keys {V : Type} (d : list (string * V)) (k : string) :
  dict_mem d k = true -> In k (dict_keys d).
Proof.
  unfold dict_mem, dict_keys.
  induction d as [|[k' v'] rest IH]; simpl; [discriminate|].
  destruct (String.eqb k' k) eqn:E.
  - apply String.eqb_eq in E. auto.
  - intro H. right. apply IH. exact H.
Qed.

Lemma rows_of_insert (r : DeviceRow) (g : Gateway) :
  rows_of (r_device_id r)
    (with_db (sql_insert_or_replace_device r) g)
  = [devices_affinity (engine (db g)) r].
Proof.
  unfold rows_of.
  cbn [db with_db tbl_devices sql_insert_or_replace_device].
  rewrite filter_app.
  cbn [List.filter r_device_id devices_affinity].
  rewrite String.eqb_refl.
  induction (tbl_devices (db g)) as [|r' rows IH]; simpl; [reflexivity|].
  destruct (String.eqb (r_device_id r') (r_device_id r)) eqn:E; simpl.
  - exact IH.
  - rewrite E. exact IH.
Qed.

Section Registration.

Variable clock : nat -> datetime.




(** The run of a registration whose [device_id] is a string: the
    device is written to the database when its fields can be bound, it
    is stored in the registry, and the confirmation clock is published when
    the MQTT client exists. *)
Lemma handle_device_registration_run (g : Gateway)
  (p : list (string * pyval)) (d : string) :
  dict_get p "device_id" = Some (PStr d) ->
  let device := registered_device clock g p d in
  let saved :=
    snd (save_device device (with_clock_ticks S (with_clock_ticks S g))) in
  exists g',
    handle_device_registration clock (PDict p) g = (Ok tt, g') /\
    devices g' = dict_set (devices g) d device /\
    db g' = db saved /\
    published g'
    = match mqtt_client g with
      | Some _ =>
          if topic_ok ("devices/" ++ d ++ "/commands")
          then (published g ++ [confirmation clock g d])%list
          else published g
      | None => published g
      end.
Proof.
  intros Hid device saved. subst saved.
  unfold handle_device_registration, py_getitem, py_get, datetime_now,
    config_gateway_id, mqtt_publish.
  mred. rewrite Hid. mred.
  repeat match goal with
         | |- context [save_device ?dev ?g1] =>
             progress change (save_device dev g1)
               with (save_device device
                       (with_clock_ticks S (with_clock_ticks S g)))
         end.
  destruct (save_device_cases device
              (with_clock_ticks S (with_clock_ticks S g))) as [E|[e E]];
    rewrite E; mred.
  all: cbn [mqtt_client with_clock_ticks with_log with_devices with_db].
  all: destruct (mqtt_client g); mred.
  all: try destruct (topic_ok ("devices/" ++ d ++ "/commands")); mred.
  all: eexists; (split; [reflexivity|]); repeat split; reflexivity.
Qed.

End Registration.

(** C8, as the code has it: handling a registration payload whose
    [device_id] is the string [d] leaves one row for [d] in the devices
    table, with status 'online', and publishes on [devices/d/commands] a
    message whose command is 'registration_confirmed' and which carries
    the gateway identifier and the current time, provided that the
    optional fields are values SQLite can bind, that the MQTT client is
    set up, and that the topic is one the client accepts ([d] holds no
    [+] and no [#], and the topic is at most 65535 bytes long). *)
Theorem C8_registration_end_to_end (clock : nat -> datetime) (g : Gateway)
  (p : list (string * pyval)) (d : string) (c : MqttClient) :
  dict_get p "device_id" = Some (PStr d) ->
  mqtt_client g = Some c ->
  topic_ok ("devices/" ++ d ++ "/commands") = true ->
  Forall bindable
    [dict_get_or p "device_type" (PStr "unknown");
     dict_get_or p "mac_address" (PStr "");
     dict_get_or p "ip_address" (PStr "");
     dict_get_or p "firmware_version" (PStr "");
     dict_get_or p "capabilities" (PStr "")] ->
  let g' := exec (handle_device_registration clock (PDict p)) g in
  fst (handle_device_registration clock (PDict p) g) = Ok tt /\
  (exists r, rows_of d g' = [r] /\ r_device_id r = d /\
             r_status r = PStr "online") /\
  published g'
  = (published g ++
     [(("devices/" ++ d ++ "/commands")%string,
       mk_WelcomeMsg "registration_confirmed" (gateway_id_of g)
         (isoformat (clock (S (S (clock_ticks g))))))])%list.
Proof.
  intros Hid Hc Htopic Hb g'. subst g'.
  destruct (handle_device_registration_run clock g p d Hid)
    as (g' & Hrun & _ & Hdb & Hpub).
  rewrite save_device_bindable in Hdb.
  2:{ unfold registered_device. cbn [device_type mac_address ip_address
        firmware_version capabilities status].
      repeat match goal with
             | H : Forall _ (_ :: _) |- _ => inversion H; clear H; subst
             end.
      repeat constructor; assumption. }
  cbn [snd] in Hdb.
  unfold exec. rewrite Hrun. cbn [fst snd]. split; [reflexivity|]. split.
  - exists (devices_affinity (engine (db g))
              (row_of_device (registered_device clock g p d))).
    unfold rows_of. rewrite Hdb.
    pose proof (rows_of_insert (row_of_device (registered_device clock g p d))
                  (with_clock_ticks S (with_clock_ticks S g))) as H.
    unfold rows_of in H. cbn [r_device_id row_of_device registered_device
                              device_id] in H.
    split; [exact H|]. split; reflexivity.
  - rewrite Hpub, Hc, Htopic. reflexivity.
Qed.

Lemma C8_witness :
  dict_get Example.registration "device_id" = Some (PStr "d1") /\
  mqtt_client Example.gateway = Some MqttClientObject /\
  topic_ok "devices/d1/commands" = true /\
  List.map (fun r => (r_device_id r, r_status r))
    (rows_of "d1" Example.registered) = [("d1", PStr "online")] /\
  published Example.registered
  = [("devices/d1/commands",
      mk_WelcomeMsg "registration_confirmed" "gateway_001"
        "2024-01-01T00:20:00")].
Proof.
  split; [reflexivity|]. split; [reflexivity|]. split; [reflexivity|].
  assert (Hb : Forall bindable
    [dict_get_or Example.registration "device_type" (PStr "unknown");
     dict_get_or Example.registration "mac_address" (PStr "");
     dict_get_or Example.registration "ip_address" (PStr "");
     dict_get_or Example.registration "firmware_version" (PStr "");
     dict_get_or Example.registration "capabilities" (PStr "")]).
  { repeat constructor; intro g; reflexivity. }
  destruct (C8_registration_end_to_end Example.clock Example.gateway
              Example.registration "d1" MqttClientObject eq_refl eq_refl
              eq_refl Hb)
    as (_ & [r (Hr & Hid & Hst)] & Hpub).
  split.
  - unfold Example.registered. rewrite Hr. simpl. rewrite Hid, Hst.
    reflexivity.
  - unfold Example.registered. rewrite Hpub. reflexivity.
Defined.

(** C8, as stated, fails: the registration of [d2] with a list of
    capabilities, handled by the gateway after [setup_mqtt], enters the
    registry and is confirmed on [devices/d2/commands], but [sqlite3]
    cannot bind the list: no row for [d2] is persisted, the devices table
    stays empty. *)
Lemma C8_counterexample :
  let g' :=
    exec (handle_device_registration Example.clock
            (PDict Example.registration_list)) Example.gateway in
  dict_get Example.registration_list "device_id" = Some (PStr "d2") /\
  mqtt_client Example.gateway = Some MqttClientObject /\
  dict_mem (devices g') "d2" = true /\
  List.map fst (published g') = ["devices/d2/commands"] /\
  rows_of "d2" g' = [] /\
  tbl_devices (db g') = [].
Proof. repeat split; reflexivity. Qed.

(** C1, as the code has it: a registration message for an id that is
    already in the registry leaves exactly one entry for the id, with
    [last_seen] set to the current time and status 'online'; the
    [registration_time] of the first registration is not kept: the entry
    takes the time of the second registration. *)
Theorem C1_reregistration (clock : nat -> datetime) (g : Gateway)
  (p : list (string * pyval)) (d : string) :
  dict_get p "device_id" = Some (PStr d) ->
  NoDup (dict_keys (devices g)) ->
  dict_mem (devices g) d = true ->
  let g' := exec (handle_device_registration clock (PDict p)) g in
  dict_count (devices g') d = 1%nat /\
  dict_keys (devices g') = dict_keys (devices g) /\
  exists dev,
    dict_get (devices g') d = Some dev /\
    last_seen dev = Some (clock (clock_ticks g)) /\
    status dev = PStr "online" /\
    registration_time dev = Some (clock (S (clock_ticks g))).
Proof.
  intros Hid Hnd Hmem g'. subst g'.
  destruct (handle_device_registration_run clock g p d Hid)
    as (g' & Hrun & Hdev & _).
  unfold exec. rewrite Hrun. cbn [snd]. rewrite Hdev.
  assert (Hkeys : dict_keys (dict_set (devices g) d (registered_device clock g p d))
                  = dict_keys (devices g))
    by (apply dict_keys_set_present; exact Hmem).
  split; [|split; [exact Hkeys|]].
  - rewrite dict_count_keys, Hkeys. apply count_nodup; [exact Hnd|].
    apply dict_mem_in_keys with (d := devices g). exact Hmem.
  - exists (registered_device clock g p d).
    rewrite dict_get_set. repeat split; reflexivity.
Qed.

Lemma C1_witness :
  dict_get Example.registration "device_id" = Some (PStr "d1") /\
  NoDup (dict_keys (devices Example.registered)) /\
  dict_mem (devices Example.registered) "d1" = true /\
  dict_count
    (devices (exec (handle_device_registration Example.clock
                      (PDict Example.registration)) Example.registered))
    "d1" = 1%nat.
Proof.
  assert (Hnd : NoDup (dict_keys (devices Example.registered))).
  { repeat constructor. simpl. tauto. }
  split; [reflexivity|]. split; [exact Hnd|]. split; [reflexivity|].
  apply (C1_reregistration Example.clock Example.registered
           Example.registration "d1" eq_refl Hnd eq_refl).
Defined.

(** C1, as stated, fails: the second registration of [d1] replaces the
    registration time of the first one (ten past midnight) by its own
    (forty past midnight). *)
Lemma C1_counterexample :
  let again :=
    exec (handle_device_registration Example.clock
            (PDict Example.registration)) Example.registered in
  option_map registration_time (dict_get (devices Example.registered) "d1")
  = Some (Some (Example.clock 1)) /\
  option_map registration_time (dict_get (devices again) "d1")
  = Some (Some (Example.clock 4)) /\
  option_map isoformat (Some (Example.clock 1)) = Some "2024-01-01T00:10:00" /\
  option_map isoformat (Some (Example.clock 4)) = Some "2024-01-01T00:40:00" /\
  Example.clock 4 <> Example.clock 1.
Proof.
  repeat split; try reflexivity.
  intro H. apply (f_equal minute) in H. discriminate H.
Qed.

(** ** Telemetry *)

Section Telemetry.

Variable clock : nat -> datetime.


Lemma handle_telemetry_run (g : Gateway) (p : list (string * pyval))
  (v : pyval) :
  dict_get p "device_id" = Some v ->
  truthy v = true ->
  hashable v = true ->
  let saved :=
    snd (save_telemetry (telemetry_record clock g p v)
           (with_clock_ticks S (touched clock g v))) in
  exists g',
    handle_telemetry clock (PDict p) g = (Ok tt, g') /\
    devices g' = devices (touched clock g v) /\
    db g' = db saved /\
    cloud_tasks g' = cloud_tasks g /\
    log g'
    = match cloud_client g with
      | Some _ => (log saved ++ [forward_error])%list
      | None => log saved
      end.
Proof.
  intros Hid Htruthy Hhash saved. subst saved.
  assert (Ev : dict_get_or p "device_id" PNone = v)
    by (unfold dict_get_or; rewrite Hid; reflexivity).
  unfold handle_telemetry, forward_to_cloud, asyncio_create_task,
    mqtt_thread_runs_event_loop, py_get, datetime_now, config_gateway_id.
  mred. rewrite !Ev, Htruthy.
  cbv beta iota zeta delta [negb].
  assert (Hfind :
    devices_find v g
    = (Ok (match v with
           | PStr d => if dict_mem (devices g) d then Some d else None
           | _ => None
           end), g)).
  { destruct v; try discriminate Hhash; reflexivity. }
  rewrite Hfind. clear Hfind.
  assert (Hsave : forall t g0,
            exists g1, save_telemetry t g0 = (Ok tt, g1) /\
                       cloud_client g1 = cloud_client g0 /\
                       cloud_tasks g1 = cloud_tasks g0 /\
                       devices g1 = devices g0 /\
                       config g1 = config g0 /\
                       clock_ticks g1 = clock_ticks g0).
  { intros t g0. destruct (save_telemetry_cases t g0) as [E|[e E]];
      rewrite E; eexists; repeat split; reflexivity. }
  unfold forward_error, telemetry_record, touched.
  destruct v as [| b | z | f | d | l | l]; try discriminate Hhash;
    try discriminate Htruthy.
  all: try destruct (dict_mem (devices g) d).
  all: match goal with
       | |- context [save_telemetry ?t ?g0] =>
           destruct (Hsave t g0) as (g1 & E & Hcc & Hct & Hdev & Hcfg & Htk)
       end.
  all: destruct (cloud_client g) as [c|] eqn:Ec.
  all: cbn [cloud_client with_clock_ticks with_devices] in Hcc.
  all: rewrite Ec in Hcc.
  all: rewrite E; mred; repeat (rewrite Hcc; mred).
  all: eexists; (split; [reflexivity|]).
  all: cbn [devices db cloud_tasks log with_cloud_tasks with_clock_ticks
            with_devices with_log config clock_ticks].
  all: rewrite ?Hdev, ?Hct, ?Hcfg, ?Htk.
  all: repeat split; reflexivity.
Qed.

End Telemetry.

Lemma db_touched (clock : nat -> datetime) (g : Gateway) (v : pyval) :
  db (touched clock g v) = db g.
Proof.
  unfold touched. destruct v; try reflexivity.
  destruct (dict_mem (devices g) s); reflexivity.
Qed.




(** [__init__] leaves no cloud client. *)
Lemma load_rows_cloud_client (rows : list DeviceRow) :
  forall g, cloud_client (snd (load_rows rows g)) = cloud_client g.
Proof.
  induction rows as [|r rows IH]; intro g; [reflexivity|].
  cbn [load_rows]. mred.
  specialize (IH (with_devices
                    (fun d => dict_set d (r_device_id r) (device_of_row r)) g)).
  destruct (load_rows rows _) as [[[]| e |] g1]; exact IH.
Qed.

Lemma init_cloud_client (c : Config) (b : Database) :
  cloud_client (EdgeGateway_init c b) = None.
Proof.
  unfold EdgeGateway_init, init_database, load_devices. mred.
  match goal with |- context [load_rows ?rows ?g0] =>
    pose proof (load_rows_cloud_client rows g0) as H;
    destruct (load_rows rows g0) as [[[]| e |] g1]
  end; exact H.
Qed.


(** ** Invariants of a run *)

Lemma run_invariant_refl (g : Gateway) : run_invariant g g.
Proof. repeat split; auto. Qed.

Lemma run_invariant_trans (g1 g2 g3 : Gateway) :
  run_invariant g1 g2 -> run_invariant g2 g3 -> run_invariant g1 g3.
Proof.
  intros (N1 & C1 & T1) (N2 & C2 & T2). repeat split; auto; congruence.
Qed.

Lemma dict_keys_update {V : Type} (d : list (string * V)) (k : string)
  (f : V -> V) :
  dict_keys (dict_update d k f) = dict_keys d.
Proof.
  unfold dict_keys. induction d as [|[k' v'] rest IH]; simpl; [reflexivity|].
  destruct (String.eqb k' k); simpl; [reflexivity | now rewrite IH].
Qed.

Lemma dict_keys_set_in {V : Type} (d : list (string * V)) (k k0 : string)
  (v : V) :
  In k0 (dict_keys (dict_set d k v)) -> k0 = k \/ In k0 (dict_keys d).
Proof.
  unfold dict_keys. induction d as [|[k' v'] rest IH]; simpl.
  - intros [E|[]]. left. congruence.
  - destruct (String.eqb k' k); simpl; intros [E|Hin]; auto.
    destruct (IH Hin); auto.
Qed.

Lemma dict_set_nodup {V : Type} (d : list (string * V)) (k : string) (v : V) :
  NoDup (dict_keys d) -> NoDup (dict_keys (dict_set d k v)).
Proof.
  intro H. induction d as [|[k' v'] rest IH]; simpl.
  - repeat constructor. intros [].
  - unfold dict_keys in H. simpl in H.
    inversion H as [|? ? Hnotin Hnd]; subst.
    destruct (String.eqb k' k) eqn:E; unfold dict_keys; simpl.
    + constructor; assumption.
    + constructor; [|apply IH; exact Hnd].
      intro Hin. apply dict_keys_set_in in Hin. destruct Hin as [Ek|Hin].
      * apply String.eqb_neq in E. congruence.
      * contradiction.
Qed.

Ltac rinv := first [exact run_invariant_refl | exact run_invariant_trans].

Section RunInvariant.

Variable clock : nat -> datetime.

Lemma message_keeps_invariant (topic : string) (parsed : option pyval) :
  frame run_invariant (on_mqtt_message clock topic parsed).
Proof.
  apply frame_on_mqtt_message with (allowed := fun _ => True);
    first [ exact run_invariant_refl
          | exact run_invariant_trans
          | exact I
          | intros; exact I
          | idtac ].
  all: intros; repeat split; try reflexivity.
  all: cbn [devices with_devices]; intro Hnd.
  all: first [ exact Hnd
             | apply dict_set_nodup; exact Hnd
             | rewrite dict_keys_update; exact Hnd ].
Qed.

Lemma cleanup_keeps_invariant :
  frame run_invariant (cleanup_old_data clock).
Proof.
  apply frame_cleanup_old_data;
    first [ exact run_invariant_refl
          | exact run_invariant_trans
          | idtac ].
  all: intros; repeat split; try reflexivity.
  all: intro Hnd; exact Hnd.
Qed.

Lemma sweep_state_cloud_client (ct : datetime)
  (items : list (string * DeviceInfo)) :
  forall g, cloud_client (sweep_state clock ct items g) = cloud_client g.
Proof.
  induction items as [|[k dev] rest IH]; intro g; simpl; [reflexivity|].
  rewrite IH. destruct (to_flag ct dev); reflexivity.
Qed.

Lemma health_keeps_invariant :
  frame run_invariant (check_device_health clock).
Proof.
  intro g. rewrite check_device_health_run. cbn [snd]. repeat split.
  - cbn [devices with_devices]. rewrite dict_keys_sweep. auto.
  - cbn [cloud_client with_devices]. rewrite sweep_state_cloud_client.
    reflexivity.
  - cbn [db with_devices].
    destruct (sweep_state_other_tables clock (clock (clock_ticks g))
                (devices g) (with_clock_ticks S g)) as [_ H].
    rewrite H. reflexivity.
Qed.

Lemma load_rows_invariant (rows : list DeviceRow) :
  frame run_invariant (load_rows rows).
Proof.
  induction rows as [|r rows IH]; cbn [load_rows].
  - apply frame_ret. exact run_invariant_refl.
  - apply frame_bind; try rinv.
    + apply frame_modify. intro g. repeat split; try reflexivity.
      cbn [devices with_devices]. apply dict_set_nodup.
    + intro. exact IH.
Qed.

Lemma init_invariant (c : Config) (b : Database) :
  NoDup (dict_keys (devices (EdgeGateway_init c b))) /\
  cloud_client (EdgeGateway_init c b) = None /\
  tbl_commands (db (EdgeGateway_init c b)) = tbl_commands b.
Proof.
  assert (L : forall l msg, frame run_invariant (logger l msg)).
  { intros. apply frame_logger; try rinv.
    intros; repeat split; try reflexivity. intro Hnd; exact Hnd. }
  assert (F : frame run_invariant (init_database ;; load_devices)).
  { unfold load_devices.
    repeat first [ rinv
                 | apply L
                 | apply load_rows_invariant
                 | apply frame_gets
                 | apply frame_bind
                 | apply frame_try_except
                 | intro ]. }
  destruct (F (mk_Gateway c [] None None false b [] [] [] 0))
    as (Hnd & Hcc & Htc).
  unfold EdgeGateway_init, exec. repeat split.
  - apply Hnd. constructor.
  - exact Hcc.
  - exact Htc.
Qed.

(** In every state of a run that the model follows ([reachable]: the
    steps run one after the other, and every registration carries a
    string as its [device_id], or none) the registry is a dictionary, the
    cloud client is None (as [__init__] left it) and the commands table is
    the one the database file had at the start. *)
Theorem reachable_invariant (c : Config) (b : Database) (g : Gateway) :
  reachable clock c b g ->
  NoDup (dict_keys (devices g)) /\
  cloud_client g = None /\
  tbl_commands (db g) = tbl_commands b.
Proof.
  intro H. induction H as [| g H IH | g g' topic parsed H IH E | g H IH | g H IH].
  - apply init_invariant.
  - exact IH.
  - destruct IH as (Hnd & Hcc & Htc).
    destruct (message_keeps_invariant topic parsed g) as (N & C & T).
    rewrite E in N, C, T. cbn [snd] in N, C, T.
    repeat split; [auto | congruence | congruence].
  - destruct IH as (Hnd & Hcc & Htc).
    destruct (health_keeps_invariant g) as (N & C & T).
    repeat split; [auto | unfold exec; congruence | unfold exec; congruence].
  - destruct IH as (Hnd & Hcc & Htc).
    destruct (cleanup_keeps_invariant g) as (N & C & T).
    repeat split; [auto | unfold exec; congruence | unfold exec; congruence].
Qed.

End RunInvariant.

(** ** Exceptions never leave a handler *)

Section Typed.

Variable clock : nat -> datetime.

Lemma typed_ret {A : Type} (a : A) : typed (ret a).
Proof. intro g. discriminate. Qed.

Lemma typed_raise {A : Type} (e : exn) : typed (@raise A e).
Proof. intro g. discriminate. Qed.

Lemma typed_gets {A : Type} (f : Gateway -> A) : typed (gets f).
Proof. intro g. discriminate. Qed.

Lemma typed_modify (f : Gateway -> Gateway) : typed (modify f).
Proof. intro g. discriminate. Qed.

Lemma typed_bind {A B : Type} (m : M A) (k : A -> M B) :
  typed m -> (forall a, typed (k a)) -> typed (bind m k).
Proof.
  intros Hm Hk g. unfold bind. specialize (Hm g).
  destruct (m g) as [[a| e |] g1]; simpl in *.
  - apply Hk.
  - discriminate.
  - exfalso. apply Hm. reflexivity.
Qed.

Lemma typed_try_except {A : Type} (body : M A) (handler : exn -> M A) :
  typed body -> (forall e, typed (handler e)) ->
  typed (try_except body handler).
Proof.
  intros Hb Hh g. unfold try_except. specialize (Hb g).
  destruct (body g) as [[a| e |] g1]; simpl in *.
  - discriminate.
  - apply Hh.
  - exact Hb.
Qed.

Lemma typed_logger (l : level) (msg : list part) : typed (logger l msg).
Proof. intro g. rewrite logger_spec. discriminate. Qed.

(** A block [try: body except Exception as e: logger...] ends normally
    whenever its body stays in the typed model. *)
Lemma try_logger_ok (body : M unit) (l : level) (msg : exn -> list part)
  (g : Gateway) :
  fst (body g) <> Untyped ->
  fst (try_except body (fun e => logger l (msg e)) g) = Ok tt.
Proof.
  intro H. unfold try_except.
  destruct (body g) as [[[]| e |] g1]; simpl in *.
  - reflexivity.
  - rewrite logger_spec. reflexivity.
  - contradiction.
Qed.

Lemma try_logger_catches (body : M unit) (l : level) (msg : exn -> list part) :
  catches_all (try_except body (fun e => logger l (msg e))).
Proof.
  intros g e. unfold try_except.
  destruct (body g) as [[[]| e' |] g1]; simpl; try discriminate.
  rewrite logger_spec. discriminate.
Qed.

(** A handler that caught everything is as good as its body. *)
Lemma try_except_normal {A : Type} (body : M A) (handler : exn -> M A)
  (g : Gateway) :
  (forall e, fst (body g) <> Raise e) ->
  try_except body handler g = body g.
Proof.
  intro H. unfold try_except.
  destruct (body g) as [[a| e |] g1]; simpl in *; try reflexivity.
  exfalso. apply (H e). reflexivity.
Qed.

Ltac typed_step :=
  first [ apply typed_ret | apply typed_raise | apply typed_gets
        | apply typed_modify | apply typed_logger
        | apply typed_bind | apply typed_try_except
        | match goal with
          | |- typed (match ?x with _ => _ end) => destruct x
          | |- typed (if ?x then _ else _) => destruct x
          end
        | intro ].

Lemma typed_py_get (payload : pyval) (key : string) (default : pyval) :
  typed (py_get payload key default).
Proof. unfold py_get. repeat typed_step. Qed.

Lemma typed_devices_find (v : pyval) : typed (devices_find v).
Proof. unfold devices_find. destruct v; repeat typed_step. Qed.

Lemma typed_sql_bind (v : pyval) : typed (sql_bind v).
Proof. unfold sql_bind. destruct v; repeat typed_step. Qed.

Lemma typed_sql_bind_all (vs : list pyval) : typed (sql_bind_all vs).
Proof.
  induction vs as [|v vs IH]; simpl; [apply typed_ret|].
  apply typed_bind; [apply typed_sql_bind | intro; exact IH].
Qed.

Lemma typed_datetime_now : typed (datetime_now clock).
Proof. unfold datetime_now. repeat typed_step. Qed.

Lemma typed_config_gateway_id : typed config_gateway_id.
Proof. unfold config_gateway_id. repeat typed_step. Qed.

Lemma typed_save_telemetry (t : TelemetryData) : typed (save_telemetry t).
Proof.
  unfold save_telemetry.
  apply typed_try_except; [|intro; apply typed_logger].
  apply typed_bind; [apply typed_sql_bind_all | intro; apply typed_modify].
Qed.

Lemma typed_update_device_status (d : string) (st : pyval) :
  typed (update_device_status clock d st).
Proof.
  unfold update_device_status.
  apply typed_try_except; [|intro; apply typed_logger].
  apply typed_bind; [apply typed_datetime_now | intro].
  apply typed_bind; [apply typed_sql_bind_all | intro; apply typed_modify].
Qed.

Lemma typed_forward_to_cloud (message_type : string) (payload : pyval) :
  typed (forward_to_cloud clock message_type payload).
Proof.
  unfold forward_to_cloud.
  apply typed_try_except; [|intro; apply typed_logger].
  apply typed_bind; [apply typed_gets | intros [c|]]; [|apply typed_ret].
  apply typed_bind; [apply typed_config_gateway_id | intro].
  apply typed_bind; [apply typed_datetime_now | intro].
  unfold asyncio_create_task.
  destruct mqtt_thread_runs_event_loop;
    [apply typed_modify | apply typed_raise].
Qed.

Lemma typed_handle_telemetry (payload : pyval) :
  typed (handle_telemetry clock payload).
Proof.
  unfold handle_telemetry.
  apply typed_try_except; [|intro; apply typed_logger].
  apply typed_bind; [apply typed_py_get | intro v].
  destruct (negb (truthy v)); [apply typed_logger|].
  apply typed_bind; [apply typed_devices_find | intro known].
  apply typed_bind.
  { destruct known; [|apply typed_ret].
    apply typed_bind; [apply typed_datetime_now | intro].
    apply typed_bind; intros; apply typed_modify. }
  intro.
  apply typed_bind; [apply typed_datetime_now | intro].
  do 6 (apply typed_bind; [apply typed_py_get | intro]).
  apply typed_bind; [apply typed_save_telemetry | intro].
  apply typed_bind; [apply typed_gets | intro c].
  apply typed_bind; [| intro; apply typed_logger].
  destruct c; [apply typed_forward_to_cloud | apply typed_ret].
Qed.

Lemma typed_handle_status_update (payload : pyval) :
  typed (handle_status_update clock payload).
Proof.
  unfold handle_status_update.
  apply typed_try_except; [|intro; apply typed_logger].
  apply typed_bind; [apply typed_py_get | intro v].
  apply typed_bind; [apply typed_py_get | intro st].
  apply typed_bind; [apply typed_devices_find | intro known].
  destruct known; [|apply typed_ret].
  apply typed_bind; [apply typed_modify | intro].
  apply typed_bind; [apply typed_datetime_now | intro].
  apply typed_bind; [apply typed_modify | intro].
  apply typed_bind; [apply typed_update_device_status | intro].
  apply typed_logger.
Qed.

Lemma typed_cleanup_old_data : typed (cleanup_old_data clock).
Proof.
  unfold cleanup_old_data, config_retention_days.
  apply typed_try_except; [|intro; apply typed_logger].
  apply typed_bind.
  { apply typed_bind; [apply typed_gets | intro c].
    destruct (cfg_retention_days c); (apply typed_ret || apply typed_raise). }
  intro n.
  apply typed_bind; [apply typed_datetime_now | intro t].
  apply typed_bind.
  { destruct (sub_days t n); [apply typed_ret | apply typed_raise]. }
  intro c.
  apply typed_bind; [apply typed_gets | intro k].
  apply typed_bind; [apply typed_modify | intro].
  destruct (0 <? k); [apply typed_logger | apply typed_ret].
Qed.

End Typed.

(** ** The router *)

Lemma prefix_devices (s : string) :
  String.prefix "devices/" ("devices/" ++ s) = true.
Proof. destruct s; reflexivity. Qed.

Lemma length_append (a b : string) :
  String.length (a ++ b) = (String.length a + String.length b)%nat.
Proof. induction a as [|c a IH]; simpl; [reflexivity | now rewrite IH]. Qed.

Lemma string_app_assoc (a b c : string) : ((a ++ b) ++ c = a ++ (b ++ c))%string.
Proof. induction a as [|x a IH]; simpl; [reflexivity | now rewrite IH]. Qed.

Lemma substring_whole (s : string) : String.substring 0 (String.length s) s = s.
Proof. induction s as [|c s IH]; simpl; [reflexivity | now rewrite IH]. Qed.

Lemma substring_skip (a b : string) (k : nat) :
  String.substring (String.length a) k (a ++ b) = String.substring 0 k b.
Proof.
  induction a as [|c a IH]; simpl; [reflexivity|]. exact IH.
Qed.

Lemma endswith_append (s suffix : string) :
  endswith (s ++ suffix) suffix = true.
Proof.
  unfold endswith. rewrite length_append.
  replace (String.length s + String.length suffix - String.length suffix)%nat
    with (String.length s) by lia.
  rewrite substring_skip, substring_whole, String.eqb_refl.
  rewrite andb_true_r. apply Nat.leb_le. lia.
Qed.

Lemma string_last_default (s : string) (c d d' : ascii) :
  string_last (String c s) d = string_last (String c s) d'.
Proof. reflexivity. Qed.

Lemma string_last_append (a : string) (c : ascii) (b : string) (d : ascii) :
  string_last (a ++ String c b) d = string_last b c.
Proof.
  revert d. induction a as [|c' a IH]; intro d; simpl; [reflexivity|].
  apply IH.
Qed.

Lemma substring_last (s : string) :
  forall (i k : nat) (d : ascii),
    (i + S k)%nat = String.length s ->
    string_last (String.substring i (S k) s) d = string_last s d.
Proof.
  induction s as [|c s IH]; intros i k d H; simpl in H; [lia|].
  destruct i as [|i].
  - simpl in H. injection H as H.
    change (String.substring 0 (S k) (String c s))
      with (String c (String.substring 0 k s)).
    subst k. rewrite substring_whole. reflexivity.
  - simpl in H. cbn [String.substring string_last].
    rewrite IH by lia. destruct s; [simpl in H; lia | reflexivity].
Qed.

Lemma endswith_last (s suffix : string) (c d : ascii) :
  endswith s (String c suffix) = true ->
  string_last s d = string_last suffix c.
Proof.
  unfold endswith. rewrite andb_true_iff. intros [Hle Heq].
  apply Nat.leb_le in Hle. apply String.eqb_eq in Heq.
  simpl String.length in *.
  rewrite <- (substring_last s (String.length s - S (String.length suffix))
                (String.length suffix) d) by lia.
  rewrite Heq. reflexivity.
Qed.

Lemma status_not_telemetry (x : string) :
  endswith ("devices/" ++ x ++ "/status") "/telemetry" = false.
Proof.
  destruct (endswith ("devices/" ++ x ++ "/status") "/telemetry") eqn:E;
    [|reflexivity].
  apply (endswith_last _ _ _ "000"%char) in E.
  rewrite <- string_app_assoc in E.
  change "/status" with (String "/" "status") in E.
  rewrite string_last_append in E. discriminate E.
Qed.

Section Router.

Variable clock : nat -> datetime.

Lemma handle_telemetry_catches (payload : pyval) :
  catches_all (handle_telemetry clock payload).
Proof. apply try_logger_catches. Qed.

Lemma handle_status_update_catches (payload : pyval) :
  catches_all (handle_status_update clock payload).
Proof. apply try_logger_catches. Qed.

Lemma handle_device_registration_catches (payload : pyval) :
  catches_all (handle_device_registration clock payload).
Proof. apply try_logger_catches. Qed.

(** The router hands a parsed message to the handler of its topic
    family and adds nothing of its own: the level of the topic that names
    the device plays no part, the handlers read the device id from the
    payload. *)
Theorem router_dispatch (x : string) (payload : pyval) (g : Gateway) :
  on_mqtt_message clock ("devices/" ++ x ++ "/telemetry") (Some payload) g
  = handle_telemetry clock payload g /\
  on_mqtt_message clock ("devices/" ++ x ++ "/status") (Some payload) g
  = handle_status_update clock payload g /\
  on_mqtt_message clock "devices/registration" (Some payload) g
  = handle_device_registration clock payload g.
Proof.
  split; [|split].
  - unfold on_mqtt_message. rewrite try_except_normal.
    + mred. rewrite prefix_devices.
      rewrite <- string_app_assoc, endswith_append. reflexivity.
    + intro e. mred. rewrite prefix_devices.
      rewrite <- string_app_assoc, endswith_append.
      apply handle_telemetry_catches.
  - unfold on_mqtt_message. rewrite try_except_normal.
    + mred. rewrite prefix_devices, status_not_telemetry.
      rewrite <- string_app_assoc, endswith_append. reflexivity.
    + intro e. mred. rewrite prefix_devices, status_not_telemetry.
      rewrite <- string_app_assoc, endswith_append.
      apply handle_status_update_catches.
  - unfold on_mqtt_message. rewrite try_except_normal.
    + reflexivity.
    + intro e. apply handle_device_registration_catches.
Qed.

(** A message the router does not take: on a topic outside the three
    families nothing happens at all (the only record is at DEBUG level,
    which is not logged); a payload that does not parse costs one ERROR
    record, and no handler runs. *)
Theorem router_drops (topic : string) (payload : pyval) (g : Gateway) :
  String.prefix "devices/" topic = false ->
  on_mqtt_message clock topic (Some payload) g = (Ok tt, g) /\
  on_mqtt_message clock topic None g
  = (Ok tt,
     with_log (fun r =>
       (r ++ [(ERROR, [Lit "Error processing MQTT message: ";
                       Exc JSONDecodeError])])%list) g).
Proof.
  intro H. split.
  - unfold on_mqtt_message. mred. rewrite H. simpl.
    destruct (String.eqb topic "devices/registration") eqn:E; [|reflexivity].
    apply String.eqb_eq in E. subst topic. discriminate H.
  - reflexivity.
Qed.

(** No exception leaves a handler or the router: telemetry and status
    handling, the health sweep and the retention run always end normally;
    registration and the router end normally or, for a device id that is
    not a string, outside the typed model, never with an exception. *)
Theorem handlers_never_raise (topic : string) (parsed : option pyval)
  (payload : pyval) (g : Gateway) :
  fst (handle_telemetry clock payload g) = Ok tt /\
  fst (handle_status_update clock payload g) = Ok tt /\
  fst (check_device_health clock g) = Ok tt /\
  fst (cleanup_old_data clock g) = Ok tt /\
  (forall e, fst (handle_device_registration clock payload g) <> Raise e) /\
  (forall e, fst (on_mqtt_message clock topic parsed g) <> Raise e).
Proof.
  split; [|split; [|split; [|split; [|split]]]].
  - pose proof (typed_handle_telemetry clock payload g) as T.
    pose proof (handle_telemetry_catches payload g) as C.
    destruct (fst (handle_telemetry clock payload g)) as [[]| e |];
      [reflexivity | destruct (C e eq_refl) | destruct (T eq_refl)].
  - pose proof (typed_handle_status_update clock payload g) as T.
    pose proof (handle_status_update_catches payload g) as C.
    destruct (fst (handle_status_update clock payload g)) as [[]| e |];
      [reflexivity | destruct (C e eq_refl) | destruct (T eq_refl)].
  - rewrite check_device_health_run. reflexivity.
  - pose proof (typed_cleanup_old_data clock g) as T.
    pose proof (try_logger_catches
                  (retention_days <- config_retention_days ;;
                   t <- datetime_now clock ;;
                   cutoff_date <- match sub_days t retention_days with
                                  | Some c => ret c
                                  | None => raise OverflowError
                                  end ;;
                   deleted_rows <- gets (fun g =>
                     sql_delete_rowcount (isoformat cutoff_date) (db g)) ;;
                   modify (with_db (sql_delete_telemetry (isoformat cutoff_date))) ;;
                   if 0 <? deleted_rows then
                     logger INFO [Lit "Cleaned up "; Num deleted_rows;
                                  Lit " old telemetry records"]
                   else ret tt)
                  ERROR (fun e => [Lit "Error cleaning up old data: "; Exc e])
                  g) as C.
    change (forall e, fst (cleanup_old_data clock g) <> Raise e) in C.
    destruct (fst (cleanup_old_data clock g)) as [[]| e |];
      [reflexivity | destruct (C e eq_refl) | destruct (T eq_refl)].
  - apply handle_device_registration_catches.
  - unfold on_mqtt_message. apply try_logger_catches.
Qed.

(** The messages the model follows: the router ends normally on every
    message but a registration whose [device_id] is not a string. *)
Lemma on_mqtt_message_followed (topic : string) (parsed : option pyval)
  (g : Gateway) :
  (forall p v, topic = "devices/registration" -> parsed = Some (PDict p) ->
     dict_get p "device_id" = Some v -> exists d, v = PStr d) ->
  fst (on_mqtt_message clock topic parsed g) = Ok tt.
Proof.
  intro H. unfold on_mqtt_message. apply try_logger_ok.
  destruct parsed as [payload|]; [|discriminate].
  mred.
  destruct (String.prefix "devices/" topic && endswith topic "/telemetry");
    [apply typed_handle_telemetry|].
  destruct (String.prefix "devices/" topic && endswith topic "/status");
    [apply typed_handle_status_update|].
  destruct (String.eqb topic "devices/registration") eqn:E; [|discriminate].
  apply String.eqb_eq in E.
  destruct payload as [| | | | | | p];
    try (unfold handle_device_registration, py_getitem; mred; discriminate).
  destruct (dict_get p "device_id") as [v|] eqn:Ev.
  - destruct (H p v E eq_refl Ev) as [d ->].
    destruct (handle_device_registration_run clock g p d Ev)
      as (g' & Hrun & _).
    rewrite Hrun. discriminate.
  - unfold handle_device_registration, py_getitem. mred. rewrite Ev.
    discriminate.
Qed.

End Router.

Lemma router_drops_witness :
  String.prefix "devices/" "sensors/d1/telemetry" = false /\
  on_mqtt_message Example.clock "sensors/d1/telemetry"
    (Some (PDict Example.telemetry)) Example.registered
  = (Ok tt, Example.registered).
Proof.
  split; [reflexivity|].
  apply (router_drops Example.clock "sensors/d1/telemetry"
           (PDict Example.telemetry) Example.registered eq_refl).
Defined.

(** ** Registration: the other paths *)

Lemma dict_get_set_other {V : Type} (d : list (string * V)) (k k0 : string)
  (v : V) :
  k0 <> k -> dict_get (dict_set d k v) k0 = dict_get d k0.
Proof.
  intro Hne. induction d as [|[k' v'] rest IH]; simpl.
  - destruct (String.eqb k k0) eqn:E; [|reflexivity].
    apply String.eqb_eq in E. congruence.
  - destruct (String.eqb k' k) eqn:E; simpl.
    + apply String.eqb_eq in E. subst k'.
      destruct (String.eqb k k0) eqn:E0; [|reflexivity].
      apply String.eqb_eq in E0. congruence.
    + destruct (String.eqb k' k0); auto.
Qed.

Lemma dict_keys_set_absent {V : Type} (d : list (string * V)) (k : string)
  (v : V) :
  dict_mem d k = false -> dict_keys (dict_set d k v) = (dict_keys d ++ [k])%list.
Proof.
  unfold dict_mem, dict_keys.
  induction d as [|[k' v'] rest IH]; simpl; [reflexivity|].
  destruct (String.eqb k' k) eqn:E; simpl; [discriminate|].
  intro H. rewrite IH by exact H. reflexivity.
Qed.

Lemma rows_of_insert_other (r : DeviceRow) (d : string) (g : Gateway) :
  d <> r_device_id r ->
  rows_of d (with_db (sql_insert_or_replace_device r) g) = rows_of d g.
Proof.
  intro Hne. unfold rows_of. simpl. rewrite filter_app. simpl.
  destruct (String.eqb (r_device_id r) d) eqn:E.
  { apply String.eqb_eq in E. congruence. }
  rewrite app_nil_r.
  induction (tbl_devices (db g)) as [|r' rows IH]; simpl; [reflexivity|].
  destruct (String.eqb (r_device_id r') (r_device_id r)) eqn:E1; simpl.
  - apply String.eqb_eq in E1.
    destruct (String.eqb (r_device_id r') d) eqn:E2.
    + apply String.eqb_eq in E2. congruence.
    + exact IH.
  - destruct (String.eqb (r_device_id r') d); [f_equal|]; exact IH.
Qed.

Lemma sql_bind_all_ok_hashable (vs : list pyval) (g : Gateway) :
  sql_bind_all vs g = (Ok tt, g) ->
  Forall (fun v => hashable v = true) vs.
Proof.
  induction vs as [|v vs IH]; simpl; intro H; [constructor|].
  unfold bind in H.
  destruct (sql_bind_cases v g) as [E|[e E]]; rewrite E in H;
    [|discriminate H].
  constructor; [|apply IH; exact H].
  destruct v; try reflexivity; simpl in E; discriminate E.
Qed.

Section RegistrationPaths.

Variable clock : nat -> datetime.

(** A registration message without [device_id] (or whose payload is not
    an object) is dropped: one ERROR record, and the registry, the
    database, the outbox and the clock are as before. *)
Theorem registration_without_device_id (g : Gateway) (payload : pyval) :
  match payload with
  | PDict p => dict_get p "device_id" = None
  | _ => True
  end ->
  exists e,
    handle_device_registration clock payload g
    = (Ok tt,
       with_log (fun r =>
         (r ++ [(ERROR, [Lit "Error handling device registration: ";
                         Exc e])])%list) g).
Proof.
  intro H. unfold handle_device_registration, py_getitem. mred.
  destruct payload as [| | | | | | p];
    try (exists TypeError; reflexivity).
  rewrite H. exists (KeyError "device_id"). reflexivity.
Qed.

(** Registering [d] leaves every other device alone: its registry entry
    and its rows are the same after as before; a device id that was not
    registered is added at the end of the registry. *)
Theorem registration_frame (g : Gateway) (p : list (string * pyval))
  (d d' : string) :
  dict_get p "device_id" = Some (PStr d) ->
  d' <> d ->
  let g' := exec (handle_device_registration clock (PDict p)) g in
  dict_get (devices g') d' = dict_get (devices g) d' /\
  rows_of d' g' = rows_of d' g /\
  (dict_mem (devices g) d = false ->
   dict_keys (devices g') = (dict_keys (devices g) ++ [d])%list).
Proof.
  intros Hid Hne g'. subst g'.
  destruct (handle_device_registration_run clock g p d Hid)
    as (g' & Hrun & Hdev & Hdb & _).
  unfold exec. rewrite Hrun. cbn [snd]. rewrite Hdev.
  split; [apply dict_get_set_other; exact Hne|]. split.
  - unfold rows_of. rewrite Hdb.
    destruct (save_device_cases (registered_device clock g p d)
                (with_clock_ticks S (with_clock_ticks S g))) as [E|[e E]];
      rewrite E; cbn [snd]; [|reflexivity].
    apply (rows_of_insert_other (row_of_device (registered_device clock g p d))
             d' (with_clock_ticks S (with_clock_ticks S g))).
    exact Hne.
  - apply dict_keys_set_absent.
Qed.

(** Without an MQTT client ([setup_mqtt] has not run) a registration
    still stores the device, in the registry and in the database (where
    each field is converted to text), but publishes nothing: the failed
    publish is the last record of the log, at ERROR level. *)
Theorem registration_without_mqtt_client (g : Gateway)
  (p : list (string * pyval)) (d : string) :
  dict_get p "device_id" = Some (PStr d) ->
  mqtt_client g = None ->
  Forall bindable
    [dict_get_or p "device_type" (PStr "unknown");
     dict_get_or p "mac_address" (PStr "");
     dict_get_or p "ip_address" (PStr "");
     dict_get_or p "firmware_version" (PStr "");
     dict_get_or p "capabilities" (PStr "")] ->
  let g' := exec (handle_device_registration clock (PDict p)) g in
  fst (handle_device_registration clock (PDict p) g) = Ok tt /\
  dict_get (devices g') d = Some (registered_device clock g p d) /\
  rows_of d g'
  = [devices_affinity (engine (db g))
       (row_of_device (registered_device clock g p d))] /\
  published g' = published g /\
  log g'
  = (log g ++
     [(INFO, [Lit "Registered new device: "; Val (PStr d)]);
      (ERROR, [Lit "Error handling device registration: ";
               Exc AttributeError])])%list.
Proof.
  intros Hid Hc Hb g'. subst g'.
  assert (Hsave :
    save_device (registered_device clock g p d)
      (with_clock_ticks S (with_clock_ticks S g))
    = (Ok tt,
       with_db (sql_insert_or_replace_device
                  (row_of_device (registered_device clock g p d)))
         (with_clock_ticks S (with_clock_ticks S g)))).
  { apply save_device_bindable.
    unfold registered_device. cbn [device_type mac_address ip_address
      firmware_version capabilities status].
    repeat match goal with
           | H : Forall _ (_ :: _) |- _ => inversion H; clear H; subst
           end.
    repeat constructor; assumption. }
  unfold handle_device_registration, py_getitem, py_get, datetime_now,
    config_gateway_id, mqtt_publish.
  mred. rewrite Hid. mred.
  repeat match goal with
         | |- context [save_device ?dev ?g1] =>
             progress change (save_device dev g1)
               with (save_device (registered_device clock g p d)
                       (with_clock_ticks S (with_clock_ticks S g)))
         end.
  rewrite Hsave. mred.
  cbn [mqtt_client with_clock_ticks with_log with_devices with_db].
  rewrite Hc. cbn [fst snd devices log published with_log with_clock_ticks
                   with_devices with_db].
  split; [reflexivity|]. split; [apply dict_get_set|].
  split; [|split; [reflexivity|]].
  - pose proof (rows_of_insert (row_of_device (registered_device clock g p d))
                  (with_clock_ticks S (with_clock_ticks S g))) as H.
    exact H.
  - rewrite <- app_assoc. reflexivity.
Qed.

(** When SQLite cannot bind a field of the device (a JSON array or object,
    such as a list of capabilities), the device enters the registry and is
    confirmed to the sender (on a topic the MQTT client accepts), but no
    row is written: the devices table is as before and the failure is
    logged. *)
Theorem registration_unbindable_field (g : Gateway)
  (p : list (string * pyval)) (d : string) (c : MqttClient) :
  dict_get p "device_id" = Some (PStr d) ->
  mqtt_client g = Some c ->
  topic_ok ("devices/" ++ d ++ "/commands") = true ->
  Exists (fun v => hashable v = false)
    [dict_get_or p "device_type" (PStr "unknown");
     dict_get_or p "mac_address" (PStr "");
     dict_get_or p "ip_address" (PStr "");
     dict_get_or p "firmware_version" (PStr "");
     dict_get_or p "capabilities" (PStr "")] ->
  let g' := exec (handle_device_registration clock (PDict p)) g in
  dict_get (devices g') d = Some (registered_device clock g p d) /\
  tbl_devices (db g') = tbl_devices (db g) /\
  published g' = (published g ++ [confirmation clock g d])%list /\
  exists e,
    In (ERROR, [Lit "Error saving device: "; Exc e]) (log g').
Proof.
  intros Hid Hc Htopic Hex g'. subst g'.
  destruct (save_device_cases (registered_device clock g p d)
              (with_clock_ticks S (with_clock_ticks S g))) as [E|[e E]].
  { exfalso. unfold save_device, try_except, bind in E.
    match type of E with context [sql_bind_all ?vs ?g1] =>
      destruct (sql_bind_all_cases vs g1) as [B|[e B]];
      [apply sql_bind_all_ok_hashable in B | rewrite B in E]
    end.
    - unfold registered_device in B. cbn [device_id device_type mac_address
        ip_address firmware_version capabilities status] in B.
      rewrite Forall_forall in B. rewrite Exists_exists in Hex.
      destruct Hex as [v [Hin Hv]].
      rewrite (B v) in Hv; [discriminate Hv|].
      right. simpl in Hin. simpl. tauto.
    - rewrite logger_spec in E. cbn [level_enabled] in E.
      apply (f_equal (fun x => List.length (log (snd x)))) in E.
      cbn [snd log with_log with_db with_clock_ticks] in E.
      rewrite length_app in E. simpl in E. lia. }
  unfold handle_device_registration, py_getitem, py_get, datetime_now,
    config_gateway_id, mqtt_publish.
  mred. rewrite Hid. mred.
  repeat match goal with
         | |- context [save_device ?dev ?g1] =>
             progress change (save_device dev g1)
               with (save_device (registered_device clock g p d)
                       (with_clock_ticks S (with_clock_ticks S g)))
         end.
  rewrite E. mred.
  cbn [mqtt_client with_clock_ticks with_log with_devices with_db].
  rewrite Hc. mred. rewrite Htopic. mred.
  cbn [fst snd devices db log published with_log with_clock_ticks
       with_devices with_db with_published].
  split; [apply dict_get_set|]. split; [reflexivity|]. split; [reflexivity|].
  exists e. apply in_or_app. left. apply in_or_app. right. left. reflexivity.
Qed.

(** A device id with an MQTT wildcard ([+] or [#]), or one that makes the
    topic longer than 65535 bytes, is registered all the same, but its
    confirmation is refused by the MQTT client: nothing is published, and
    the [ValueError] of the publish is the last record of the log. *)
Theorem registration_refused_topic (g : Gateway)
  (p : list (string * pyval)) (d : string) (c : MqttClient) :
  dict_get p "device_id" = Some (PStr d) ->
  mqtt_client g = Some c ->
  topic_ok ("devices/" ++ d ++ "/commands") = false ->
  let g' := exec (handle_device_registration clock (PDict p)) g in
  fst (handle_device_registration clock (PDict p) g) = Ok tt /\
  dict_get (devices g') d = Some (registered_device clock g p d) /\
  published g' = published g /\
  exists l,
    log g'
    = (l ++
       [(INFO, [Lit "Registered new device: "; Val (PStr d)]);
        (ERROR, [Lit "Error handling device registration: ";
                 Exc ValueError])])%list.
Proof.
  intros Hid Hc Htopic g'. subst g'.
  unfold handle_device_registration, py_getitem, py_get, datetime_now,
    config_gateway_id, mqtt_publish.
  mred. rewrite Hid. mred.
  repeat match goal with
         | |- context [save_device ?dev ?g1] =>
             progress change (save_device dev g1)
               with (save_device (registered_device clock g p d)
                       (with_clock_ticks S (with_clock_ticks S g)))
         end.
  destruct (save_device_cases (registered_device clock g p d)
              (with_clock_ticks S (with_clock_ticks S g))) as [E|[e E]];
    rewrite E; mred.
  all: cbn [mqtt_client with_clock_ticks with_log with_devices with_db].
  all: rewrite Hc; mred; rewrite Htopic; mred.
  all: cbn [fst snd devices db log published with_log with_clock_ticks
            with_devices with_db with_published].
  all: split; [reflexivity|]; split; [apply dict_get_set|].
  all: split; [reflexivity|].
  - exists (log g). rewrite <- app_assoc. reflexivity.
  - exists (log g ++ [(ERROR, [Lit "Error saving device: "; Exc e])])%list.
    rewrite <- (app_assoc _ [_] [_]). reflexivity.
Qed.

End RegistrationPaths.

(** ** Telemetry: the other paths *)

Lemma sql_bind_all_unhashable (vs : list pyval) (g : Gateway) :
  Exists (fun v => hashable v = false) vs ->
  exists e, sql_bind_all vs g = (Raise e, g).
Proof.
  intro Hex. destruct (sql_bind_all_cases vs g) as [B|B]; [|exact B].
  exfalso. apply sql_bind_all_ok_hashable in B.
  rewrite Forall_forall in B. rewrite Exists_exists in Hex.
  destruct Hex as [v [Hin Hv]]. rewrite (B v Hin) in Hv. discriminate Hv.
Qed.


Lemma telemetry_frame_refl (g : Gateway) : telemetry_frame g g.
Proof. repeat split. Qed.

Lemma telemetry_frame_trans (g1 g2 g3 : Gateway) :
  telemetry_frame g1 g2 -> telemetry_frame g2 g3 -> telemetry_frame g1 g3.
Proof.
  intros (A1 & B1 & C1 & D1 & E1) (A2 & B2 & C2 & D2 & E2).
  repeat split; congruence.
Qed.

Section TelemetryPaths.

Variable clock : nat -> datetime.

Lemma handle_telemetry_frame (payload : pyval) :
  frame telemetry_frame (handle_telemetry clock payload).
Proof.
  apply (frame_handle_telemetry telemetry_frame) with (allowed := fun _ => True);
    first [ exact telemetry_frame_refl
          | exact telemetry_frame_trans
          | exact I
          | idtac ].
  all: intros; repeat split; try reflexivity.
  all: cbn [devices with_devices]; apply dict_keys_update.
Qed.

(** Telemetry never creates or removes a registry entry, whatever the
    payload: telemetry of an unregistered device is stored without
    registering it.  It never writes the devices table either (a device it
    marks online in memory keeps its old row), nor the commands table, and
    it publishes nothing. *)
Theorem telemetry_never_registers (g : Gateway) (payload : pyval) :
  let g' := exec (handle_telemetry clock payload) g in
  dict_keys (devices g') = dict_keys (devices g) /\
  tbl_devices (db g') = tbl_devices (db g) /\
  tbl_commands (db g') = tbl_commands (db g) /\
  published g' = published g /\
  mqtt_client g' = mqtt_client g.
Proof. apply handle_telemetry_frame. Qed.

(** Telemetry of a registered device marks it as seen now and online in
    the registry, and leaves every other entry as it is. *)
Theorem telemetry_revives_device (g : Gateway) (p : list (string * pyval))
  (d : string) (dev : DeviceInfo) :
  dict_get p "device_id" = Some (PStr d) ->
  d <> "" ->
  dict_get (devices g) d = Some dev ->
  let g' := exec (handle_telemetry clock (PDict p)) g in
  dict_get (devices g') d
  = Some (set_status (PStr "online")
            (set_last_seen (Some (clock (clock_ticks g))) dev)) /\
  (forall d', d' <> d -> dict_get (devices g') d' = dict_get (devices g) d') /\
  rows_of d g' = rows_of d g.
Proof.
  intros Hid Hne Hget g'. subst g'.
  assert (Htruthy : truthy (PStr d) = true).
  { simpl. destruct (String.eqb d "") eqn:E; [|reflexivity].
    apply String.eqb_eq in E. contradiction. }
  destruct (handle_telemetry_run clock g p (PStr d) Hid Htruthy eq_refl)
    as (g' & Hrun & Hdev & Hdb & _).
  unfold exec. rewrite Hrun. cbn [snd]. rewrite Hdev.
  unfold touched, dict_mem. rewrite Hget. cbn [devices with_devices
    with_clock_ticks].
  split; [|split].
  - rewrite !dict_get_update, Hget. reflexivity.
  - intros d' Hne'. rewrite !dict_get_update_other by exact Hne'. reflexivity.
  - pose proof (handle_telemetry_frame (PDict p) g) as (_ & H & _).
    rewrite Hrun in H. cbn [snd] in H.
    unfold rows_of. rewrite H. reflexivity.
Qed.

(** A telemetry message whose [device_id] is a non-empty array or object
    is dropped with an ERROR record (a TypeError of the registry lookup),
    not with the WARNING of a missing id; nothing else changes. *)
Theorem telemetry_unhashable_device_id (g : Gateway)
  (p : list (string * pyval)) (v : pyval) :
  dict_get p "device_id" = Some v ->
  truthy v = true ->
  hashable v = false ->
  handle_telemetry clock (PDict p) g
  = (Ok tt,
     with_log (fun r =>
       (r ++ [(ERROR, [Lit "Error handling telemetry: "; Exc TypeError])])%list)
       g).
Proof.
  intros Hid Ht Hh.
  assert (Ev : dict_get_or p "device_id" PNone = v)
    by (unfold dict_get_or; rewrite Hid; reflexivity).
  unfold handle_telemetry, py_get. mred. rewrite !Ev, Ht.
  cbv beta iota zeta delta [negb].
  destruct v; try discriminate Hh; reflexivity.
Qed.

(** When SQLite cannot bind a metric (a JSON array or object sent as
    temperature, say), no telemetry row is written, yet the device has
    been marked as seen and online all the same. *)
Theorem telemetry_unbindable_metric (g : Gateway) (p : list (string * pyval))
  (v : pyval) :
  dict_get p "device_id" = Some v ->
  truthy v = true ->
  hashable v = true ->
  Exists (fun x => hashable x = false)
    [dict_get_or p "temperature" PNone; dict_get_or p "humidity" PNone;
     dict_get_or p "wifi_rssi" PNone; dict_get_or p "free_heap" PNone;
     dict_get_or p "uptime" PNone] ->
  let g' := exec (handle_telemetry clock (PDict p)) g in
  tbl_telemetry (db g') = tbl_telemetry (db g) /\
  devices g' = devices (touched clock g v).
Proof.
  intros Hid Ht Hh Hex g'. subst g'.
  destruct (handle_telemetry_run clock g p v Hid Ht Hh)
    as (g' & Hrun & Hdev & Hdb & _).
  unfold exec. rewrite Hrun. cbn [snd]. split; [|exact Hdev].
  rewrite Hdb. unfold save_telemetry, try_except, bind.
  match goal with |- context [sql_bind_all ?vs ?g1] =>
    destruct (sql_bind_all_unhashable vs g1) as [e B]
  end.
  { apply Exists_cons_tl. exact Hex. }
  rewrite B. rewrite logger_spec. cbn [level_enabled snd db with_log
    with_clock_ticks]. rewrite db_touched. reflexivity.
Qed.

End TelemetryPaths.

(** ** Status messages of known devices *)

Lemma text_affinity_kept (e : Sqlite) (v : pyval) :
  text_kept v = true -> text_affinity e v = v.
Proof. destruct v; try discriminate; reflexivity. Qed.

Lemma rows_of_update (st : pyval) (t : datetime) (d : string) (g : Gateway) :
  rows_of d (with_db (sql_update_device_status st t d) g)
  = List.map (fun r =>
      mk_DeviceRow (r_device_id r) (r_device_type r) (r_mac_address r)
        (r_ip_address r) (r_firmware_version r) (r_capabilities r)
        (text_affinity (engine (db g)) st) (Some t) (r_registration_time r))
      (rows_of d g).
Proof.
  unfold rows_of. simpl.
  induction (tbl_devices (db g)) as [|r rows IH]; simpl; [reflexivity|].
  destruct (String.eqb (r_device_id r) d) eqn:E; simpl; rewrite E.
  - simpl. f_equal. exact IH.
  - exact IH.
Qed.

Lemma rows_of_update_other (st : pyval) (t : datetime) (d d' : string)
  (g : Gateway) :
  d' <> d ->
  rows_of d' (with_db (sql_update_device_status st t d) g) = rows_of d' g.
Proof.
  intro Hne. unfold rows_of. simpl.
  induction (tbl_devices (db g)) as [|r rows IH]; simpl; [reflexivity|].
  destruct (String.eqb (r_device_id r) d) eqn:E; simpl.
  - apply String.eqb_eq in E.
    destruct (String.eqb (r_device_id r) d') eqn:E'.
    + apply String.eqb_eq in E'. congruence.
    + exact IH.
  - destruct (String.eqb (r_device_id r) d'); [f_equal|]; exact IH.
Qed.

Section StatusPaths.

Variable clock : nat -> datetime.

(** The full run of a status message of a known device. *)
Lemma handle_status_update_run (g : Gateway) (p : list (string * pyval))
  (d : string) :
  dict_get p "device_id" = Some (PStr d) ->
  dict_mem (devices g) d = true ->
  let st := dict_get_or p "status" (PStr "unknown") in
  let touched_g :=
    with_devices (fun ds =>
      dict_update ds d (set_last_seen (Some (clock (clock_ticks g)))))
      (with_clock_ticks S
         (with_devices (fun ds => dict_update ds d (set_status st)) g)) in
  handle_status_update clock (PDict p) g
  = (Ok tt,
     with_log (fun r =>
       (r ++ [(INFO, [Lit "Device "; Val (PStr d); Lit " status: "; Val st])])%list)
       (snd (update_device_status clock d st touched_g))).
Proof.
  intros Hid Hmem st touched_g.
  unfold handle_status_update, py_get, devices_find, datetime_now. mred.
  unfold dict_get_or at 1. rewrite Hid. mred. rewrite Hmem. mred.
  fold st.
  repeat match goal with
         | |- context [update_device_status clock d st ?g1] =>
             progress change (update_device_status clock d st g1)
               with (update_device_status clock d st touched_g)
         end.
  destruct (update_device_status_cases clock d st touched_g) as [E|[e E]];
    rewrite E; reflexivity.
Qed.

(** A status message of a registered device, with a status SQLite can
    bind: the registry entry takes the status and the current time; the
    rows of the device take the status as the TEXT column stores it (a
    string as it is, a number as its text), and the time of the reading
    that follows (the handler reads the clock once for the registry and
    once more for the database); the rows of the other devices are
    untouched. *)
Theorem status_update_known_device (g : Gateway) (p : list (string * pyval))
  (d : string) (dev : DeviceInfo) :
  dict_get p "device_id" = Some (PStr d) ->
  dict_get (devices g) d = Some dev ->
  bindable (dict_get_or p "status" (PStr "unknown")) ->
  let st := dict_get_or p "status" (PStr "unknown") in
  let g' := exec (handle_status_update clock (PDict p)) g in
  dict_get (devices g') d
  = Some (set_last_seen (Some (clock (clock_ticks g))) (set_status st dev)) /\
  Forall (fun r => r_status r = text_affinity (engine (db g)) st /\
                   r_last_seen r = Some (clock (S (clock_ticks g))))
    (rows_of d g') /\
  List.map r_device_id (tbl_devices (db g'))
  = List.map r_device_id (tbl_devices (db g)) /\
  (forall d', d' <> d -> rows_of d' g' = rows_of d' g) /\
  clock_ticks g' = S (S (clock_ticks g)).
Proof.
  intros Hid Hget Hb st g'. subst g'.
  assert (Hmem : dict_mem (devices g) d = true)
    by (unfold dict_mem; rewrite Hget; reflexivity).
  unfold exec. rewrite (handle_status_update_run g p d Hid Hmem). fold st.
  unfold update_device_status, datetime_now. mred.
  rewrite sql_bind_all_bindable
    by (constructor; [exact Hb | constructor; [apply bindable_str | constructor]]).
  cbn [snd]. split; [|split; [|split; [|split]]].
  - cbn [devices with_log with_db with_clock_ticks with_devices].
    rewrite !dict_get_update, Hget. reflexivity.
  - match goal with |- Forall _ (rows_of d (with_log _ ?x)) =>
      change (rows_of d (with_log _ x)) with (rows_of d x) end.
    rewrite rows_of_update. apply Forall_map. apply Forall_forall.
    intros r _. split; reflexivity.
  - cbn [db with_log with_db tbl_devices sql_update_device_status].
    rewrite map_map. apply map_ext. intro r.
    destruct (String.eqb (r_device_id r) d); reflexivity.
  - intros d' Hne.
    match goal with |- rows_of d' (with_log _ ?x) = _ =>
      change (rows_of d' (with_log _ x)) with (rows_of d' x) end.
    rewrite rows_of_update_other by exact Hne. reflexivity.
  - reflexivity.
Qed.

(** A status message whose status is a JSON array or object: the
    registry entry takes that value as its status, while the database
    keeps the old one (the UPDATE fails and is logged): memory and
    database now disagree. *)
Theorem status_update_unbindable (g : Gateway) (p : list (string * pyval))
  (d : string) (dev : DeviceInfo) :
  dict_get p "device_id" = Some (PStr d) ->
  dict_get (devices g) d = Some dev ->
  hashable (dict_get_or p "status" (PStr "unknown")) = false ->
  let st := dict_get_or p "status" (PStr "unknown") in
  let g' := exec (handle_status_update clock (PDict p)) g in
  option_map status (dict_get (devices g') d) = Some st /\
  db g' = db g /\
  exists e, In (ERROR, [Lit "Error updating device status: "; Exc e]) (log g').
Proof.
  intros Hid Hget Hh st g'. subst g'.
  assert (Hmem : dict_mem (devices g) d = true)
    by (unfold dict_mem; rewrite Hget; reflexivity).
  unfold exec. rewrite (handle_status_update_run g p d Hid Hmem). fold st.
  unfold update_device_status, datetime_now. mred.
  match goal with |- context [sql_bind_all ?vs ?g1] =>
    destruct (sql_bind_all_unhashable vs g1) as [e B]
  end.
  { apply Exists_cons_hd. exact Hh. }
  rewrite B. cbn [snd]. split; [|split].
  - cbn [devices with_log with_db with_clock_ticks with_devices].
    rewrite !dict_get_update, Hget. reflexivity.
  - reflexivity.
  - exists e. cbn [log with_log with_clock_ticks with_devices].
    apply in_or_app. left. apply in_or_app. right. left. reflexivity.
Qed.

End StatusPaths.

(** ** Retention: failures and the logged count *)

Lemma filter_length_split {A : Type} (f : A -> bool) (l : list A) :
  List.length l
  = (List.length (List.filter (fun x => negb (f x)) l)
     + List.length (List.filter f l))%nat.
Proof.
  induction l as [|x l IH]; simpl; [reflexivity|].
  destruct (f x); simpl; lia.
Qed.

Section RetentionPaths.

Variable clock : nat -> datetime.

(** A retention run that cannot compute its cutoff ([retention_days] is
    not an integer, or [now - timedelta(days)] is out of range) deletes
    nothing: the database and the registry are as before and one ERROR
    record is logged. *)
Theorem cleanup_failure_deletes_nothing (g : Gateway) :
  cfg_retention_days (config g) = CfgBad \/
  (exists n,
     (cfg_retention_days (config g) = CfgInt n \/
      (cfg_retention_days (config g) = CfgAbsent /\ n = 30)) /\
     sub_days (clock (clock_ticks g)) n = None) ->
  let g' := exec (cleanup_old_data clock) g in
  db g' = db g /\
  devices g' = devices g /\
  exists e,
    log g' = (log g ++ [(ERROR, [Lit "Error cleaning up old data: "; Exc e])])%list.
Proof.
  intros H g'. subst g'.
  unfold cleanup_old_data, config_retention_days, datetime_now. mred.
  destruct H as [Hc | [n [[Hc | [Hc ->]] Hs]]]; rewrite Hc; mred;
    try (rewrite Hs; mred);
    (split; [reflexivity|]); (split; [reflexivity|]);
    eexists; reflexivity.
Qed.

(** A retention run reports what it removed: the number in its INFO
    record is the number of rows that left the table, and a run that
    removes nothing logs nothing.  The id sequence of the table is not
    reset, so ids of deleted rows are not given again. *)
Theorem cleanup_logs_count (g : Gateway) (n : Z) (cutoff : datetime) :
  cfg_retention_days (config g) = CfgInt n \/
  (cfg_retention_days (config g) = CfgAbsent /\ n = 30) ->
  sub_days (clock (clock_ticks g)) n = Some cutoff ->
  let g' := exec (cleanup_old_data clock) g in
  let removed :=
    Z.of_nat (List.length (tbl_telemetry (db g)))
    - Z.of_nat (List.length (tbl_telemetry (db g'))) in
  0 <= removed /\
  log g'
  = (log g ++
     (if 0 <? removed
      then [(INFO, [Lit "Cleaned up "; Num removed;
                    Lit " old telemetry records"])]
      else []))%list /\
  telemetry_seq (db g') = telemetry_seq (db g).
Proof.
  intros Hcfg Hsub g'. subst g'.
  unfold cleanup_old_data, config_retention_days, datetime_now. mred.
  assert (Hcount :
    sql_delete_rowcount (isoformat cutoff) (db (with_clock_ticks S g))
    = Z.of_nat (List.length (tbl_telemetry (db g)))
      - Z.of_nat (List.length
          (List.filter (fun r => negb (sql_old (isoformat cutoff) r))
             (tbl_telemetry (db g))))).
  { unfold sql_delete_rowcount. cbn [db with_clock_ticks].
    pose proof (filter_length_split (sql_old (isoformat cutoff))
                  (tbl_telemetry (db g))) as F.
    lia. }
  pose proof (filter_length_split (sql_old (isoformat cutoff))
                (tbl_telemetry (db g))) as F.
  destruct Hcfg as [Hc | [Hc ->]]; rewrite Hc; mred; rewrite Hsub; mred;
    rewrite Hcount;
    match goal with |- context [0 <? ?k] => destruct (0 <? k) eqn:Ek end;
    cbn [snd db log with_db with_log with_clock_ticks tbl_telemetry
         telemetry_seq sql_delete_telemetry];
    rewrite ?Ek;
    (split; [lia|]);
    (split; [try rewrite app_nil_r; reflexivity | reflexivity]).
Qed.

End RetentionPaths.

(** ** The sweep as a whole *)

Lemma sweep_state_ticks (clock : nat -> datetime) (ct : datetime)
  (items : list (string * DeviceInfo)) :
  forall g,
    clock_ticks (sweep_state clock ct items g)
    = (clock_ticks g + List.length (flagged_keys ct items))%nat.
Proof.
  unfold flagged_keys.
  induction items as [|[k dev] rest IH]; intro g; simpl; [lia|].
  rewrite IH. destruct (to_flag ct dev); simpl; lia.
Qed.

Lemma sweep_state_row_ids (clock : nat -> datetime) (ct : datetime)
  (items : list (string * DeviceInfo)) :
  forall g,
    List.map r_device_id (tbl_devices (db (sweep_state clock ct items g)))
    = List.map r_device_id (tbl_devices (db g)) /\
    published (sweep_state clock ct items g) = published g.
Proof.
  induction items as [|[k dev] rest IH]; intro g; simpl; [split; reflexivity|].
  destruct (IH (if to_flag ct dev then flag_device clock k g else g))
    as [H1 H2].
  rewrite H1, H2. destruct (to_flag ct dev); [|split; reflexivity].
  split; [|reflexivity].
  cbn [flag_device db with_log with_db tbl_devices sql_update_device_status].
  rewrite map_map. apply map_ext. intro r.
  destruct (String.eqb (r_device_id r) k); reflexivity.
Qed.

(** The effects of one health sweep on the whole state: every registry
    entry is kept in its place, the ones to flag with status offline; one
    WARNING per flagged device, in the order of the registry; one reading
    of the clock for the sweep and one more per flagged device; no row is
    added to or removed from the devices table, and the telemetry table is
    not touched. *)
Theorem sweep_effects (clock : nat -> datetime) (g : Gateway) :
  let now := clock (clock_ticks g) in
  let g' := exec (check_device_health clock) g in
  let flagged := flagged_keys now (devices g) in
  devices g' = List.map (sweep_item now) (devices g) /\
  log g' = (log g ++ List.map offline_warning flagged)%list /\
  clock_ticks g' = (S (clock_ticks g) + List.length flagged)%nat /\
  List.map r_device_id (tbl_devices (db g'))
  = List.map r_device_id (tbl_devices (db g)) /\
  tbl_telemetry (db g') = tbl_telemetry (db g) /\
  published g' = published g.
Proof.
  intros now g' flagged. subst g'. unfold exec.
  rewrite check_device_health_run. fold now. cbn [snd].
  cbn [devices log clock_ticks db published with_devices].
  rewrite sweep_state_log, sweep_state_ticks.
  destruct (sweep_state_row_ids clock now (devices g) (with_clock_ticks S g))
    as [H1 H2].
  destruct (sweep_state_other_tables clock now (devices g)
              (with_clock_ticks S g)) as [H3 _].
  rewrite H1, H2, H3. repeat split; reflexivity.
Qed.

(** ** Loading the registry *)


Lemma load_rows_run (rows : list DeviceRow) :
  forall g,
    exists g',
      load_rows rows g = (Ok tt, g') /\
      devices g' = List.fold_left load_step rows (devices g) /\
      db g' = db g /\ log g' = log g /\ config g' = config g /\
      mqtt_client g' = mqtt_client g /\ published g' = published g /\
      cloud_tasks g' = cloud_tasks g /\ clock_ticks g' = clock_ticks g.
Proof.
  induction rows as [|r rows IH]; intro g.
  - exists g. repeat split; reflexivity.
  - cbn [load_rows]. mred.
    destruct (IH (with_devices
                    (fun d => dict_set d (r_device_id r) (device_of_row r)) g))
      as (g' & E & Hd & Hrest).
    exists g'. rewrite E. split; [reflexivity|]. split; [exact Hd|].
    exact Hrest.
Qed.

Lemma EdgeGateway_init_run (c : Config) (b : Database) :
  devices (EdgeGateway_init c b)
  = List.fold_left load_step (tbl_devices b) [] /\
  db (EdgeGateway_init c b) = b /\
  log (EdgeGateway_init c b)
  = [(INFO, [Lit "Database initialized successfully"]);
     (INFO, [Lit "Loaded ";
             Num (Z.of_nat (List.length
                              (List.fold_left load_step (tbl_devices b) [])));
             Lit " devices from database"])] /\
  mqtt_client (EdgeGateway_init c b) = None /\
  published (EdgeGateway_init c b) = [] /\
  clock_ticks (EdgeGateway_init c b) = 0%nat.
Proof.
  unfold EdgeGateway_init, init_database, load_devices. mred.
  match goal with |- context [load_rows ?rows ?g0] =>
    destruct (load_rows_run rows g0)
      as (g' & E & Hd & Hdb & Hlog & Hcfg & Hm & Hp & Hct & Htk)
  end.
  rewrite E. mred.
  cbn [devices db log mqtt_client published clock_ticks with_log] in *.
  rewrite Hd, Hdb, Hlog, Hm, Hp, Htk. repeat split; reflexivity.
Qed.

Lemma load_fold_fresh (rows : list DeviceRow) :
  forall acc,
    NoDup (dict_keys acc ++ List.map r_device_id rows)%list ->
    List.fold_left load_step rows acc
    = (acc ++ List.map (fun r => (r_device_id r, device_of_row r)) rows)%list.
Proof.
  induction rows as [|r rows IH]; intros acc H; simpl.
  - symmetry. apply app_nil_r.
  - assert (Hfresh : dict_mem acc (r_device_id r) = false).
    { destruct (dict_mem acc (r_device_id r)) eqn:E; [|reflexivity].
      apply dict_mem_in_keys in E. exfalso.
      apply NoDup_remove_2 in H. apply H.
      apply in_or_app. left. exact E. }
    assert (Hset : load_step acc r
                   = (acc ++ [(r_device_id r, device_of_row r)])%list).
    { unfold load_step. clear H IH. unfold dict_mem in Hfresh.
      induction acc as [|[k v] acc IHacc]; simpl in *; [reflexivity|].
      destruct (String.eqb k (r_device_id r)); [discriminate|].
      rewrite IHacc by exact Hfresh. reflexivity. }
    rewrite Hset, IH.
    + rewrite <- app_assoc. reflexivity.
    + unfold dict_keys. rewrite map_app. simpl.
      rewrite <- app_assoc. simpl. exact H.
Qed.

Lemma load_fold_lookup (rows : list DeviceRow) (d : string) :
  forall acc,
    dict_get (List.fold_left load_step rows acc) d
    = match List.rev (List.filter
                        (fun r => String.eqb (r_device_id r) d) rows) with
      | r :: _ => Some (device_of_row r)
      | [] => dict_get acc d
      end.
Proof.
  induction rows as [|r rows IH]; intro acc; simpl; [reflexivity|].
  rewrite IH. unfold load_step.
  destruct (String.eqb (r_device_id r) d) eqn:E; simpl.
  - apply String.eqb_eq in E. subst d.
    destruct (List.rev (List.filter
                (fun r0 => String.eqb (r_device_id r0) (r_device_id r)) rows));
      simpl; [apply dict_get_set | reflexivity].
  - apply String.eqb_neq in E.
    destruct (List.rev (List.filter
                (fun r0 => String.eqb (r_device_id r0) d) rows));
      [|reflexivity].
    apply dict_get_set_other. congruence.
Qed.

(** [__init__] on a devices table with one row per device id loads every
    row: the registry holds the rows' devices, in the order of the table,
    the database is not modified, and the log reports the number of
    devices loaded. *)
Theorem init_loads_every_row (c : Config) (b : Database) :
  NoDup (List.map r_device_id (tbl_devices b)) ->
  devices (EdgeGateway_init c b)
  = List.map (fun r => (r_device_id r, device_of_row r)) (tbl_devices b) /\
  db (EdgeGateway_init c b) = b /\
  log (EdgeGateway_init c b)
  = [(INFO, [Lit "Database initialized successfully"]);
     (INFO, [Lit "Loaded "; Num (Z.of_nat (List.length (tbl_devices b)));
             Lit " devices from database"])].
Proof.
  intro H. destruct (EdgeGateway_init_run c b) as (Hd & Hdb & Hlog & _).
  assert (F : List.fold_left load_step (tbl_devices b) []
              = List.map (fun r => (r_device_id r, device_of_row r))
                  (tbl_devices b)).
  { rewrite load_fold_fresh by exact H. reflexivity. }
  rewrite Hd, Hdb, Hlog, F, length_map. repeat split; reflexivity.
Qed.

Section Restart.

Variable clock : nat -> datetime.

(** A registration survives a restart: [__init__] on the database the
    registration left finds the device (when its fields are values SQLite
    can bind), each field as the TEXT column of the row stores it.  The
    device is found exactly as the registry had it when its five
    descriptive fields are strings (or null). *)
Theorem registration_survives_restart (g : Gateway)
  (p : list (string * pyval)) (d : string) (c : Config) :
  dict_get p "device_id" = Some (PStr d) ->
  Forall bindable
    [dict_get_or p "device_type" (PStr "unknown");
     dict_get_or p "mac_address" (PStr "");
     dict_get_or p "ip_address" (PStr "");
     dict_get_or p "firmware_version" (PStr "");
     dict_get_or p "capabilities" (PStr "")] ->
  let g' := exec (handle_device_registration clock (PDict p)) g in
  let loaded :=
    device_of_row
      (devices_affinity (engine (db g))
         (row_of_device (registered_device clock g p d))) in
  dict_get (devices g') d = Some (registered_device clock g p d) /\
  dict_get (devices (EdgeGateway_init c (db g'))) d = Some loaded /\
  (Forall (fun v => text_kept v = true)
     [dict_get_or p "device_type" (PStr "unknown");
      dict_get_or p "mac_address" (PStr "");
      dict_get_or p "ip_address" (PStr "");
      dict_get_or p "firmware_version" (PStr "");
      dict_get_or p "capabilities" (PStr "")] ->
   loaded = registered_device clock g p d).
Proof.
  intros Hid Hb g' loaded. subst g' loaded.
  destruct (handle_device_registration_run clock g p d Hid)
    as (g' & Hrun & Hdev & Hdb & _).
  rewrite save_device_bindable in Hdb.
  2:{ unfold registered_device. cbn [device_type mac_address ip_address
        firmware_version capabilities status].
      repeat match goal with
             | H : Forall _ (_ :: _) |- _ => inversion H; clear H; subst
             end.
      repeat constructor; assumption. }
  cbn [snd] in Hdb.
  unfold exec. rewrite Hrun. cbn [snd].
  split; [rewrite Hdev; apply dict_get_set|]. split.
  - destruct (EdgeGateway_init_run c (db g')) as (Hd & _).
    rewrite Hd, load_fold_lookup.
    pose proof (rows_of_insert (row_of_device (registered_device clock g p d))
                  (with_clock_ticks S (with_clock_ticks S g))) as Hrows.
    unfold rows_of in Hrows.
    cbn [r_device_id row_of_device registered_device device_id] in Hrows.
    rewrite Hdb. rewrite Hrows. reflexivity.
  - intro Hk.
    repeat match goal with
           | H : Forall _ (_ :: _) |- _ => inversion H; clear H; subst
           end.
    unfold device_of_row, devices_affinity, row_of_device, registered_device.
    cbn [r_device_id r_device_type r_mac_address r_ip_address
         r_firmware_version r_capabilities r_status r_last_seen
         r_registration_time device_id device_type mac_address ip_address
         firmware_version capabilities status last_seen registration_time].
    rewrite !text_affinity_kept by assumption. reflexivity.
Qed.

(** What telemetry does to the registry does not survive a restart: it
    marks a device as seen and online in memory only, so [__init__] on the
    database it left loads the registry it would have loaded before. *)
Theorem telemetry_touch_lost_on_restart (g : Gateway) (payload : pyval)
  (c : Config) :
  devices (EdgeGateway_init c (db (exec (handle_telemetry clock payload) g)))
  = devices (EdgeGateway_init c (db g)).
Proof.
  destruct (EdgeGateway_init_run c
              (db (exec (handle_telemetry clock payload) g))) as (H1 & _).
  destruct (EdgeGateway_init_run c (db g)) as (H2 & _).
  rewrite H1, H2.
  pose proof (handle_telemetry_frame clock payload g) as (_ & H & _).
  unfold exec. rewrite H. reflexivity.
Qed.

End Restart.

(** ** The order of timestamps is the order of time *)

Lemma is_leap_cases y : 
  (is_leap y = true /\ (y mod 4 = 0 /\ (y mod 100 <> 0 \/ y mod 400 = 0))) \/
  (is_leap y = false /\ (y mod 4 <> 0 \/ (y mod 100 = 0 /\ y mod 400 <> 0))).
Proof.
  unfold is_leap.
  destruct (Z.eqb_spec (y mod 4) 0), (Z.eqb_spec (y mod 100) 0), (Z.eqb_spec (y mod 400) 0); simpl; intuition.
Qed.

Lemma dby_succ y : days_before_year (y + 1) = days_before_year y + 365 + (if is_leap y then 1 else 0).
Proof.
  unfold days_before_year. cbv zeta.
  replace (y + 1 - 1) with y by lia.
  destruct (is_leap_cases y) as [[-> H]|[-> H]];
  Z.div_mod_to_equations; lia.
Qed.

Lemma dby_mono a b : a <= b -> days_before_year a <= days_before_year b.
Proof.
  unfold days_before_year. cbv zeta. intro H.
  Z.div_mod_to_equations. lia.
Qed.

Lemma month_cases m : 1 <= m <= 12 ->
  m = 1 \/ m = 2 \/ m = 3 \/ m = 4 \/ m = 5 \/ m = 6 \/ m = 7 \/ m = 8 \/ m = 9 \/ m = 10 \/ m = 11 \/ m = 12.
Proof. lia. Qed.

Lemma dbm_step y m1 m2 : 1 <= m1 -> m1 < m2 -> m2 <= 12 ->
  days_before_month y m1 + days_in_month y m1 <= days_before_month y m2.
Proof.
  intros H1 H12 H2.
  assert (C1 : 1 <= m1 <= 12) by lia. assert (C2 : 1 <= m2 <= 12) by lia.
  apply month_cases in C1. apply month_cases in C2.
  unfold days_before_month, days_in_month.
  destruct (is_leap y);
  repeat match goal with H : _ \/ _ |- _ => destruct H end; subst; try lia;
    cbn -[Z.add]; lia.
Qed.

Lemma doy_bounds y m d : 1 <= m <= 12 -> 1 <= d <= days_in_month y m ->
  1 <= days_before_month y m + d <= 365 + (if is_leap y then 1 else 0).
Proof.
  intros Hm Hd. apply month_cases in Hm.
  unfold days_before_month, days_in_month in *. revert Hd.
  destruct (is_leap y);
  repeat match goal with H : _ \/ _ |- _ => destruct H end; subst;
    cbn -[Z.add]; lia.
Qed.

Lemma fields_ok_ymd (a : datetime) :
  1 <= year a /\ 1 <= month a <= 12 /\ 1 <= day a <= days_in_month (year a) (month a).
Proof.
  pose proof (datetime_ok a) as H. unfold fields_ok in H.
  repeat (apply andb_prop in H; destruct H as [H ?]). lia.
Qed.

Lemma ymd2ord_compare (a b : datetime) :
  (ymd2ord (year a) (month a) (day a) ?= ymd2ord (year b) (month b) (day b))
  = lex (year a ?= year b) (lex (month a ?= month b) (day a ?= day b)).
Proof.
  destruct (fields_ok_ymd a) as (Ya & Ma & Da).
  destruct (fields_ok_ymd b) as (Yb & Mb & Db).
  pose proof (doy_bounds _ _ _ Ma Da) as Ba.
  pose proof (doy_bounds _ _ _ Mb Db) as Bb.
  unfold ymd2ord.
  destruct (Z.compare_spec (year a) (year b)) as [E|L|G]; simpl.
  - rewrite <- E in *.
    destruct (Z.compare_spec (month a) (month b)) as [E'|L'|G']; simpl.
    + rewrite <- E'. destruct (Z.compare_spec (day a) (day b)).
      * apply Z.compare_eq_iff. lia.
      * apply Z.compare_lt_iff. lia.
      * apply Z.compare_gt_iff. lia.
    + apply Z.compare_lt_iff.
      pose proof (dbm_step (year a) (month a) (month b)). lia.
    + apply Z.compare_gt_iff.
      pose proof (dbm_step (year a) (month b) (month a)). lia.
  - apply Z.compare_lt_iff.
    pose proof (dby_succ (year a)). pose proof (dby_mono (year a + 1) (year b)).
    lia.
  - apply Z.compare_gt_iff.
    pose proof (dby_succ (year b)). pose proof (dby_mono (year b + 1) (year a)).
    lia.
Qed.

Lemma lex_assoc (a b c : comparison) : lex (lex a b) c = lex a (lex b c).
Proof. destruct a; reflexivity. Qed.

Lemma to_us_compare (a b : datetime) :
  (to_us a ?= to_us b) = Datetime.compare a b.
Proof.
  destruct (DatetimeFacts.fields_ok_bounds a) as (_ & _ & _ & Ha & Mia & Sa & Ua).
  destruct (DatetimeFacts.fields_ok_bounds b) as (_ & _ & _ & Hb & Mib & Sb & Ub).
  unfold to_us, Datetime.compare, US_PER_DAY, US_PER_SECOND.
  set (oa := ymd2ord (year a) (month a) (day a)).
  set (ob := ymd2ord (year b) (month b) (day b)).
  replace (oa * (86400 * 1000000) + ((hour a * 60 + minute a) * 60 + second a) * 1000000 + microsecond a)
    with (1000000 * (60 * (60 * (24 * oa + hour a) + minute a) + second a) + microsecond a) by lia.
  replace (ob * (86400 * 1000000) + ((hour b * 60 + minute b) * 60 + second b) * 1000000 + microsecond b)
    with (1000000 * (60 * (60 * (24 * ob + hour b) + minute b) + second b) + microsecond b) by lia.
  rewrite !DatetimeFacts.split_compare by lia.
  subst oa ob. rewrite ymd2ord_compare, !lex_assoc. reflexivity.
Qed.

(** The comparison the retention DELETE makes on the stored ISO-8601
    texts selects exactly the rows written earlier than the cutoff, by
    elapsed time (the microseconds [now - last_seen] counts in the health
    sweep): a timestamp printed without a fraction and one printed with a
    fraction compare as their instants do. *)
Theorem stored_text_order_is_time_order (cutoff : datetime)
  (r : TelemetryRow) :
  sql_old (isoformat cutoff) r = (to_us (tr_timestamp r) <? to_us cutoff) /\
  (sql_old (isoformat cutoff) r = true <->
   0 < Datetime.sub cutoff (tr_timestamp r)).
Proof.
  assert (E : sql_old (isoformat cutoff) r
              = (to_us (tr_timestamp r) <? to_us cutoff)).
  { unfold sql_old. rewrite DatetimeFacts.isoformat_ltb.
    unfold Datetime.ltb, Z.ltb. rewrite to_us_compare. reflexivity. }
  split; [exact E|].
  rewrite E, Z.ltb_lt. unfold Datetime.sub. lia.
Qed.

(** ** A device that has just reported *)

Section Fresh.

Variable clock : nat -> datetime.

(** A registered device whose telemetry has just been handled is not set
    offline by a sweep that starts within the threshold of five minutes
    after the message: the sweep leaves it online, with the time of the
    message as [last_seen]. *)
Theorem fresh_device_survives_sweep (g : Gateway)
  (p : list (string * pyval)) (d : string) (dev : DeviceInfo) :
  dict_get p "device_id" = Some (PStr d) ->
  d <> "" ->
  dict_get (devices g) d = Some dev ->
  let g1 := exec (handle_telemetry clock (PDict p)) g in
  Datetime.sub (clock (clock_ticks g1)) (clock (clock_ticks g))
    <= offline_threshold ->
  dict_get (devices (exec (check_device_health clock) g1)) d
  = Some (set_status (PStr "online")
            (set_last_seen (Some (clock (clock_ticks g))) dev)).
Proof.
  intros Hid Hne Hget g1 Hfresh.
  assert (Htruthy : truthy (PStr d) = true).
  { simpl. destruct (String.eqb d "") eqn:E; [|reflexivity].
    apply String.eqb_eq in E. contradiction. }
  assert (Hdev : dict_get (devices g1) d
                 = Some (set_status (PStr "online")
                           (set_last_seen (Some (clock (clock_ticks g))) dev))).
  { subst g1.
    destruct (handle_telemetry_run clock g p (PStr d) Hid Htruthy eq_refl)
      as (g' & Hrun & Hd & _).
    unfold exec. rewrite Hrun. cbn [snd]. rewrite Hd.
    unfold touched, dict_mem. rewrite Hget.
    cbn [devices with_devices with_clock_ticks].
    rewrite !dict_get_update, Hget. reflexivity. }
  unfold exec at 1. rewrite check_device_health_run. cbn [snd].
  cbn [devices with_devices]. rewrite dict_get_sweep, Hdev.
  cbn [option_map]. unfold sweep_item. cbn [fst snd].
  unfold to_flag, is_stale. cbn [last_seen set_status set_last_seen].
  replace (offline_threshold
           <? Datetime.sub (clock (clock_ticks g1)) (clock (clock_ticks g)))
    with false by (symmetry; apply Z.ltb_ge; exact Hfresh).
  reflexivity.
Qed.

End Fresh.

(** ** Nothing reaches the cloud *)

Lemma no_forward_refl (g : Gateway) : no_forward g g.
Proof. intro H. split; [exact H | reflexivity]. Qed.

Lemma no_forward_trans (g1 g2 g3 : Gateway) :
  no_forward g1 g2 -> no_forward g2 g3 -> no_forward g1 g3.
Proof.
  intros H12 H23 H. destruct (H12 H) as [C2 T2].
  destruct (H23 C2) as [C3 T3]. split; congruence.
Qed.

Section FrameForward.

Variable clock : nat -> datetime.
Variable R : Gateway -> Gateway -> Prop.
Hypothesis R_refl : forall g, R g g.
Hypothesis R_trans : forall g1 g2 g3, R g1 g2 -> R g2 g3 -> R g1 g3.
Hypothesis R_log : forall f g, R g (with_log f g).
Hypothesis R_clock : forall f g, R g (with_clock_ticks f g).
Hypothesis R_insert_telemetry :
  forall t g, R g (with_db (sql_insert_telemetry t) g).
Hypothesis R_devices : forall f g, R g (with_devices f g).
Hypothesis R_forward :
  forall message_type payload,
    frame R (forward_to_cloud clock message_type payload).

Lemma frame_handle_telemetry_forward (payload : pyval) :
  frame R (handle_telemetry clock payload).
Proof.
  unfold handle_telemetry.
  repeat first
    [ assumption
    | apply R_forward
    | apply frame_logger
    | apply frame_py_get
    | apply frame_devices_find
    | apply frame_datetime_now
    | apply frame_save_telemetry
    | apply frame_gets
    | apply frame_ret
    | apply frame_modify; intro; apply R_devices
    | apply frame_bind
    | apply frame_try_except
    | match goal with
      | |- frame _ (match ?x with _ => _ end) => destruct x
      | |- frame _ (if ?x then _ else _) => destruct x
      | |- forall _, _ => intro
      end ].
Qed.

End FrameForward.

Section NoForward.

Variable clock : nat -> datetime.

Lemma forward_to_cloud_no_client (message_type : string) (payload : pyval) :
  frame no_forward (forward_to_cloud clock message_type payload).
Proof.
  intros g H. unfold forward_to_cloud. mred. rewrite H.
  split; [exact H | reflexivity].
Qed.

Ltac nf := first [ exact no_forward_refl | exact no_forward_trans
                 | intros;
                   let H := fresh in intro H; split; [exact H | reflexivity] ].

Lemma handle_telemetry_no_forward (payload : pyval) :
  frame no_forward (handle_telemetry clock payload).
Proof.
  apply frame_handle_telemetry_forward; try nf.
  apply forward_to_cloud_no_client.
Qed.

Lemma handle_status_update_no_forward (payload : pyval) :
  frame no_forward (handle_status_update clock payload).
Proof.
  apply frame_handle_status_update with (allowed := fun _ => True);
    first [ nf | intros; exact I ].
Qed.

Lemma handle_device_registration_no_forward (payload : pyval) :
  frame no_forward (handle_device_registration clock payload).
Proof.
  apply frame_handle_device_registration; nf.
Qed.

Lemma on_mqtt_message_no_forward (topic : string) (parsed : option pyval) :
  frame no_forward (on_mqtt_message clock topic parsed).
Proof.
  unfold on_mqtt_message.
  repeat first
    [ apply handle_telemetry_no_forward
    | apply handle_status_update_no_forward
    | apply handle_device_registration_no_forward
    | exact no_forward_refl
    | exact no_forward_trans
    | apply frame_logger
    | apply frame_ret
    | apply frame_raise
    | apply frame_bind
    | apply frame_try_except
    | match goal with
      | |- frame _ (match ?x with _ => _ end) => destruct x
      | |- frame _ (if ?x then _ else _) => destruct x
      | |- forall _, _ => intro
      end
    | nf ].
Qed.

Lemma cleanup_no_forward : frame no_forward (cleanup_old_data clock).
Proof. apply frame_cleanup_old_data; nf. Qed.

Lemma sweep_state_cloud_tasks (ct : datetime)
  (items : list (string * DeviceInfo)) :
  forall g, cloud_tasks (sweep_state clock ct items g) = cloud_tasks g.
Proof.
  induction items as [|[k dev] rest IH]; intro g; simpl; [reflexivity|].
  rewrite IH. destruct (to_flag ct dev); reflexivity.
Qed.

Lemma health_no_forward : frame no_forward (check_device_health clock).
Proof.
  intros g H. rewrite check_device_health_run. cbn [snd].
  cbn [cloud_client cloud_tasks with_devices].
  rewrite sweep_state_cloud_client, sweep_state_cloud_tasks. split; [exact H|].
  reflexivity.
Qed.

(** In a run of the gateway that the model follows ([reachable]: the
    steps run one after the other, and every registration carries a
    string as its [device_id], or none) nothing is ever handed to the
    cloud relay: [__init__] leaves the cloud client unset, no operation
    sets it, and every forward is guarded by it, so the list of cloud
    tasks is empty in every state of the run, however many telemetry
    messages were handled. *)
Theorem no_cloud_forward_in_a_run (c : Config) (b : Database) (g : Gateway) :
  reachable clock c b g ->
  cloud_client g = None /\ cloud_tasks g = [].
Proof.
  intro H. induction H as [| g H IH | g g' topic parsed H IH E | g H IH | g H IH].
  - split; [apply init_cloud_client|].
    unfold EdgeGateway_init, init_database, load_devices. mred.
    match goal with |- context [load_rows ?rows ?g0] =>
      destruct (load_rows_run rows g0)
        as (g' & E & _ & _ & _ & _ & _ & _ & Hct & _)
    end.
    rewrite E. mred. cbn [cloud_tasks with_log]. rewrite Hct. reflexivity.
  - exact IH.
  - destruct IH as [Hc Ht].
    destruct (on_mqtt_message_no_forward topic parsed g Hc) as [C T].
    rewrite E in C, T. cbn [snd] in C, T. split; congruence.
  - destruct IH as [Hc Ht].
    destruct (health_no_forward g Hc) as [C T].
    unfold exec. split; congruence.
  - destruct IH as [Hc Ht].
    destruct (cleanup_no_forward g Hc) as [C T].
    unfold exec. split; congruence.
Qed.

End NoForward.

(** ** The properties on the concrete run *)

Lemma example_run_reachable :
  reachable Example.clock Example.configuration Example.empty_database
    Example.measured.
Proof.
  apply (reach_message Example.clock _ _ Example.registered Example.measured
           "devices/d1/telemetry" (Some (PDict Example.telemetry))).
  - apply (reach_message Example.clock _ _ Example.gateway Example.registered
             "devices/registration" (Some (PDict Example.registration))).
    + apply reach_setup_mqtt. apply reach_init.
    + reflexivity.
  - reflexivity.
Defined.

Lemma reachable_invariant_witness :
  reachable Example.clock Example.configuration Example.empty_database
    Example.measured /\
  NoDup (dict_keys (devices Example.measured)) /\
  cloud_client Example.measured = None /\
  tbl_commands (db Example.measured) = [].
Proof.
  split; [exact example_run_reachable|].
  apply (reachable_invariant Example.clock Example.configuration
           Example.empty_database Example.measured example_run_reachable).
Defined.

Lemma no_cloud_forward_in_a_run_witness :
  reachable Example.clock Example.configuration Example.empty_database
    Example.measured /\
  cloud_client Example.measured = None /\
  cloud_tasks Example.measured = [].
Proof.
  split; [exact example_run_reachable|].
  apply (no_cloud_forward_in_a_run Example.clock Example.configuration
           Example.empty_database Example.measured example_run_reachable).
Defined.

Lemma registration_without_device_id_witness :
  dict_get Example.registration_no_id "device_id" = None /\
  exists e,
    handle_device_registration Example.clock
      (PDict Example.registration_no_id) Example.gateway
    = (Ok tt,
       with_log (fun r =>
         (r ++ [(ERROR, [Lit "Error handling device registration: ";
                         Exc e])])%list) Example.gateway).
Proof.
  split; [reflexivity|].
  apply (registration_without_device_id Example.clock Example.gateway
           (PDict Example.registration_no_id)).
  reflexivity.
Defined.

Lemma registration_frame_witness :
  dict_get Example.registration_d2 "device_id" = Some (PStr "d2") /\
  "d1" <> "d2" /\
  dict_get (devices (exec (handle_device_registration Example.clock
                             (PDict Example.registration_d2))
                       Example.registered)) "d1"
  = dict_get (devices Example.registered) "d1".
Proof.
  assert (Hne : "d1" <> "d2") by discriminate.
  split; [reflexivity|]. split; [exact Hne|].
  apply (registration_frame Example.clock Example.registered
           Example.registration_d2 "d2" "d1" eq_refl Hne).
Defined.

Lemma example_bindable (p : list (string * pyval)) :
  dict_get p "device_type" = None \/ dict_get p "device_type" = Some (PStr "sensor") ->
  dict_get p "mac_address" = None ->
  dict_get p "ip_address" = None ->
  dict_get p "firmware_version" = None ->
  dict_get p "capabilities" = None ->
  Forall bindable
    [dict_get_or p "device_type" (PStr "unknown");
     dict_get_or p "mac_address" (PStr "");
     dict_get_or p "ip_address" (PStr "");
     dict_get_or p "firmware_version" (PStr "");
     dict_get_or p "capabilities" (PStr "")].
Proof.
  intros H1 H2 H3 H4 H5. unfold dict_get_or. rewrite H2, H3, H4, H5.
  destruct H1 as [-> | ->]; repeat constructor; intro g; reflexivity.
Defined.

Lemma registration_without_mqtt_client_witness :
  dict_get Example.registration "device_id" = Some (PStr "d1") /\
  mqtt_client Example.initial = None /\
  published (exec (handle_device_registration Example.clock
                     (PDict Example.registration)) Example.initial) = [] /\
  List.map r_device_id
    (rows_of "d1" (exec (handle_device_registration Example.clock
                           (PDict Example.registration)) Example.initial))
  = ["d1"].
Proof.
  split; [reflexivity|]. split; [reflexivity|].
  destruct (registration_without_mqtt_client Example.clock Example.initial
              Example.registration "d1" eq_refl eq_refl
              (example_bindable Example.registration
                 (or_intror eq_refl) eq_refl eq_refl eq_refl eq_refl))
    as (_ & _ & Hrows & Hpub & _).
  split; [exact Hpub|]. rewrite Hrows. reflexivity.
Defined.

Lemma registration_unbindable_field_witness :
  dict_get Example.registration_list "device_id" = Some (PStr "d2") /\
  mqtt_client Example.registered = Some MqttClientObject /\
  topic_ok "devices/d2/commands" = true /\
  hashable (dict_get_or Example.registration_list "capabilities" (PStr ""))
  = false /\
  tbl_devices (db (exec (handle_device_registration Example.clock
                           (PDict Example.registration_list))
                     Example.registered))
  = tbl_devices (db Example.registered) /\
  dict_mem (devices (exec (handle_device_registration Example.clock
                             (PDict Example.registration_list))
                       Example.registered)) "d2" = true.
Proof.
  split; [reflexivity|]. split; [reflexivity|]. split; [reflexivity|].
  split; [reflexivity|].
  destruct (registration_unbindable_field Example.clock Example.registered
              Example.registration_list "d2" MqttClientObject eq_refl eq_refl
              eq_refl)
    as (Hdev & Hrows & _).
  - do 4 apply Exists_cons_tl. apply Exists_cons_hd. reflexivity.
  - split; [exact Hrows|]. unfold dict_mem. rewrite Hdev. reflexivity.
Defined.

Lemma registration_refused_topic_witness :
  let g' :=
    exec (handle_device_registration Example.clock
            (PDict Example.registration_wildcard)) Example.registered in
  dict_get Example.registration_wildcard "device_id" = Some (PStr "a+b") /\
  mqtt_client Example.registered = Some MqttClientObject /\
  topic_ok "devices/a+b/commands" = false /\
  dict_mem (devices g') "a+b" = true /\
  published g' = published Example.registered.
Proof.
  intro g'.
  split; [reflexivity|]. split; [reflexivity|]. split; [reflexivity|].
  destruct (registration_refused_topic Example.clock Example.registered
              Example.registration_wildcard "a+b" MqttClientObject
              eq_refl eq_refl eq_refl)
    as (_ & Hdev & Hpub & _).
  split; [|exact Hpub].
  subst g'. unfold dict_mem. rewrite Hdev. reflexivity.
Defined.

Lemma telemetry_revives_device_witness :
  dict_get Example.telemetry "device_id" = Some (PStr "d1") /\
  "d1" <> "" /\
  (exists dev,
     dict_get (devices Example.registered) "d1" = Some dev /\
     dict_get (devices Example.measured) "d1"
     = Some (set_status (PStr "online")
               (set_last_seen (Some (Example.clock 3)) dev))).
Proof.
  assert (Hne : "d1" <> "") by discriminate.
  split; [reflexivity|]. split; [exact Hne|].
  destruct (dict_get (devices Example.registered) "d1") as [dev|] eqn:E;
    [|discriminate E].
  exists dev. split; [reflexivity|].
  apply (telemetry_revives_device Example.clock Example.registered
           Example.telemetry "d1" dev eq_refl Hne E).
Defined.

Lemma telemetry_unhashable_device_id_witness :
  dict_get Example.telemetry_list_id "device_id" = Some (PList [PInt 1]) /\
  truthy (PList [PInt 1]) = true /\
  hashable (PList [PInt 1]) = false /\
  handle_telemetry Example.clock (PDict Example.telemetry_list_id)
    Example.registered
  = (Ok tt,
     with_log (fun r =>
       (r ++ [(ERROR, [Lit "Error handling telemetry: "; Exc TypeError])])%list)
       Example.registered).
Proof.
  split; [reflexivity|]. split; [reflexivity|]. split; [reflexivity|].
  apply (telemetry_unhashable_device_id Example.clock Example.registered
           Example.telemetry_list_id (PList [PInt 1])); reflexivity.
Defined.

Lemma telemetry_unbindable_metric_witness :
  dict_get Example.telemetry_list_metric "device_id" = Some (PStr "d1") /\
  truthy (PStr "d1") = true /\
  hashable (PStr "d1") = true /\
  hashable (dict_get_or Example.telemetry_list_metric "temperature" PNone)
  = false /\
  tbl_telemetry (db (exec (handle_telemetry Example.clock
                             (PDict Example.telemetry_list_metric))
                       Example.registered))
  = [].
Proof.
  split; [reflexivity|]. split; [reflexivity|]. split; [reflexivity|].
  split; [reflexivity|].
  destruct (telemetry_unbindable_metric Example.clock Example.registered
              Example.telemetry_list_metric (PStr "d1")
              eq_refl eq_refl eq_refl) as (H & _).
  - apply Exists_cons_hd. reflexivity.
  - rewrite H. reflexivity.
Defined.

Lemma status_update_known_device_witness :
  let g' :=
    exec (handle_status_update Example.clock (PDict Example.status_number))
      Example.registered in
  dict_get Example.status_number "device_id" = Some (PStr "d1") /\
  bindable (dict_get_or Example.status_number "status" (PStr "unknown")) /\
  (exists dev,
     dict_get (devices Example.registered) "d1" = Some dev /\
     dict_get (devices g') "d1"
     = Some (set_last_seen (Some (Example.clock 3))
               (set_status (PInt 7) dev))) /\
  Forall (fun r => r_status r = PStr "7") (rows_of "d1" g').
Proof.
  intro g'.
  assert (Hb : bindable (dict_get_or Example.status_number "status"
                           (PStr "unknown")))
    by (intro g; reflexivity).
  split; [reflexivity|]. split; [exact Hb|].
  destruct (dict_get (devices Example.registered) "d1") as [dev|] eqn:E;
    [|discriminate E].
  destruct (status_update_known_device Example.clock Example.registered
              Example.status_number "d1" dev eq_refl E Hb)
    as (Hdev & Hrows & _).
  split.
  - exists dev. split; [reflexivity|]. exact Hdev.
  - revert Hrows. apply Forall_impl. intros r [Hst _]. exact Hst.
Defined.

Lemma status_update_unbindable_witness :
  dict_get Example.status_list "device_id" = Some (PStr "d1") /\
  hashable (dict_get_or Example.status_list "status" (PStr "unknown"))
  = false /\
  dict_mem (devices Example.registered) "d1" = true /\
  db (exec (handle_status_update Example.clock (PDict Example.status_list))
        Example.registered)
  = db Example.registered.
Proof.
  split; [reflexivity|]. split; [reflexivity|]. split; [reflexivity|].
  destruct (dict_get (devices Example.registered) "d1") as [dev|] eqn:E;
    [|discriminate E].
  apply (status_update_unbindable Example.clock Example.registered
           Example.status_list "d1" dev eq_refl E eq_refl).
Defined.

Lemma cleanup_failure_deletes_nothing_witness :
  cfg_retention_days (config Example.misconfigured) = CfgBad /\
  db (exec (cleanup_old_data Example.clock) Example.misconfigured)
  = db Example.misconfigured.
Proof.
  split; [reflexivity|].
  apply (cleanup_failure_deletes_nothing Example.clock Example.misconfigured).
  left. reflexivity.
Defined.

Lemma cleanup_logs_count_witness :
  (cfg_retention_days (config Example.stored) = CfgInt 30 \/
   (cfg_retention_days (config Example.stored) = CfgAbsent /\ 30 = 30)) /\
  sub_days (Example.clock (clock_ticks Example.stored)) 30
  = Some Example.cutoff /\
  log (exec (cleanup_old_data Example.clock) Example.stored)
  = [(INFO, [Lit "Cleaned up "; Num 1; Lit " old telemetry records"])].
Proof.
  assert (Hcfg : cfg_retention_days (config Example.stored) = CfgInt 30 \/
                 (cfg_retention_days (config Example.stored) = CfgAbsent /\
                  30 = 30))
    by (right; split; reflexivity).
  split; [exact Hcfg|]. split; [reflexivity|].
  destruct (cleanup_logs_count Example.clock Example.stored 30 Example.cutoff
              Hcfg eq_refl) as (_ & Hlog & _).
  rewrite Hlog. reflexivity.
Defined.

Lemma init_loads_every_row_witness :
  NoDup (List.map r_device_id (tbl_devices (db Example.two_devices))) /\
  dict_keys (devices (EdgeGateway_init Example.configuration
                        (db Example.two_devices))) = ["d1"; "d2"].
Proof.
  assert (H : NoDup (List.map r_device_id
                       (tbl_devices (db Example.two_devices)))).
  { repeat constructor; simpl; intuition discriminate. }
  split; [exact H|].
  destruct (init_loads_every_row Example.configuration
              (db Example.two_devices) H) as (Hd & _).
  rewrite Hd. reflexivity.
Defined.

Lemma registration_survives_restart_witness :
  let g' :=
    exec (handle_device_registration Example.clock
            (PDict Example.registration_number)) Example.registered in
  dict_get Example.registration_number "device_id" = Some (PStr "d2") /\
  option_map device_type (dict_get (devices g') "d2") = Some (PInt 5) /\
  option_map device_type
    (dict_get (devices (EdgeGateway_init Example.configuration (db g'))) "d2")
  = Some (PStr "5").
Proof.
  intro g'.
  split; [reflexivity|].
  destruct (registration_survives_restart Example.clock Example.registered
              Example.registration_number "d2" Example.configuration eq_refl)
    as (H1 & H2 & _).
  - repeat constructor; intro g; reflexivity.
  - subst g'. rewrite H1, H2. split; reflexivity.
Defined.

Lemma fresh_device_survives_sweep_witness :
  let g := exec (handle_device_registration Example.minute_clock
                   (PDict Example.registration)) Example.gateway in
  let g1 := exec (handle_telemetry Example.minute_clock
                    (PDict Example.telemetry)) g in
  dict_get Example.telemetry "device_id" = Some (PStr "d1") /\
  "d1" <> "" /\
  Datetime.sub (Example.minute_clock (clock_ticks g1))
    (Example.minute_clock (clock_ticks g)) <= offline_threshold /\
  option_map status
    (dict_get (devices (exec (check_device_health Example.minute_clock) g1))
       "d1")
  = Some (PStr "online").
Proof.
  intros g g1. subst g1.
  assert (Hne : "d1" <> "") by discriminate.
  assert (Hfresh : Datetime.sub
                     (Example.minute_clock
                        (clock_ticks
                           (exec (handle_telemetry Example.minute_clock
                                    (PDict Example.telemetry)) g)))
                     (Example.minute_clock (clock_ticks g))
                   <= offline_threshold) by (vm_compute; discriminate).
  split; [reflexivity|]. split; [exact Hne|]. split; [exact Hfresh|].
  destruct (dict_get (devices g) "d1") as [dev|] eqn:E; [|discriminate E].
  rewrite (fresh_device_survives_sweep Example.minute_clock g
             Example.telemetry "d1" dev eq_refl Hne E Hfresh).
  reflexivity.
Defined.
